(** * register_agent.py: enrollment of a Wazuh agent

    A shallow embedding of [src/register_agent.py].  The script talks to a
    remote manager over HTTP, keeps a bearer token in two module globals,
    sleeps, and runs two local binaries.  All of this is threaded through an
    explicit [World]: the globals, the wall clock, the replies the remote
    side is going to give (one queue for the login endpoint, one for the
    REST API) and the trace of everything the script did.

    Conventions.
    - Python values that come out of [response.json()] are [json] terms;
      [None] is [JNull].  JSON numbers are integers ([JInt]).
    - [time.time()] is an integer number of seconds.
    - Text is a [string], a sequence of bytes.  Where the script looks at
      characters beyond ASCII (in [int] and in [encode]) the bytes are those
      of the UTF-8 encoding; a lone surrogate, which UTF-8 does not encode,
      is the three bytes the encoding scheme would give it (237, a byte
      from 160 to 191, a continuation byte).
    - The resource paths built with f-strings are kept symbolic
      ([resource]): the constructor is the literal text, its arguments are
      the interpolated values.
    - [logger] calls only print; they are left out.  What is computed
      /for/ a log line and can raise ([http_codes_serializer]) is kept.
    - An exception is its class and a message; the messages of the
      built-in exceptions are indicative, the classes are what is used.
    - The table [requests.status_codes._codes] belongs to the [requests]
      package; it is a parameter of the development. *)

From Stdlib Require Import ZArith List String Ascii Bool Lia DecimalString.
Import ListNotations.
Local Open Scope string_scope.
Local Open Scope list_scope.
Local Open Scope Z_scope.
Local Set Warnings "-register-all".

(** ** Python values *)

Inductive json : Type :=
| JNull
| JBool (b : bool)
| JInt (z : Z)
| JStr (s : string)
| JList (items : list json)
| JObj (fields : list (string * json)).

Inductive exn_class : Type :=
| Exception
| ConnectionError
| JSONDecodeError
| KeyError
| IndexError
| TypeError
| AttributeError
| ValueError
| UnicodeEncodeError
| OverflowError
| OSError.

Record exn : Type := mkExn { exn_kind : exn_class; exn_msg : string }.

(** [isinstance(e, ValueError)]: [json.JSONDecodeError] and
    [UnicodeEncodeError] derive from [ValueError]. *)
Definition is_ValueError (e : exn) : bool :=
  match exn_kind e with
  | ValueError | JSONDecodeError | UnicodeEncodeError => true
  | _ => false
  end.

Inductive res (A : Type) : Type :=
| Ok (a : A)
| Err (e : exn).
Arguments Ok {A} a.
Arguments Err {A} e.

(** [bool(v)] *)
Definition truthy (v : json) : bool :=
  match v with
  | JNull => false
  | JBool b => b
  | JInt z => negb (z =? 0)
  | JStr s => negb (String.eqb s "")
  | JList l => match l with [] => false | _ => true end
  | JObj l => match l with [] => false | _ => true end
  end.

Fixpoint assoc (k : string) (l : list (string * json)) : option json :=
  match l with
  | [] => None
  | (k', v) :: tl => if String.eqb k k' then Some v else assoc k tl
  end.

(** [v[k]] with a string key *)
Definition getitem (v : json) (k : string) : res json :=
  match v with
  | JObj fields =>
      match assoc k fields with
      | Some x => Ok x
      | None => Err (mkExn KeyError k)
      end
  | JList _ => Err (mkExn TypeError "list indices must be integers or slices, not str")
  | JStr _ => Err (mkExn TypeError "string indices must be integers")
  | _ => Err (mkExn TypeError "object is not subscriptable")
  end.

(** [v[0]] *)
Definition getitem0 (v : json) : res json :=
  match v with
  | JList (x :: _) => Ok x
  | JList [] => Err (mkExn IndexError "list index out of range")
  | JStr (String c _) => Ok (JStr (String c ""))
  | JStr EmptyString => Err (mkExn IndexError "string index out of range")
  | JObj _ => Err (mkExn KeyError "0")
  | _ => Err (mkExn TypeError "object is not subscriptable")
  end.

(** [v.get(k, d)] *)
Definition get_default (v : json) (k : string) (d : json) : res json :=
  match v with
  | JObj fields =>
      match assoc k fields with
      | Some x => Ok x
      | None => Ok d
      end
  | _ => Err (mkExn AttributeError "object has no attribute 'get'")
  end.

Fixpoint chars (s : string) : list json :=
  match s with
  | EmptyString => []
  | String c tl => JStr (String c "") :: chars tl
  end.

(** the items a [for] loop over [v] visits *)
Definition iter (v : json) : res (list json) :=
  match v with
  | JList l => Ok l
  | JObj fields => Ok (map (fun kv => JStr (fst kv)) fields)
  | JStr s => Ok (chars s)
  | _ => Err (mkExn TypeError "object is not iterable")
  end.

Fixpoint is_prefix (p s : string) : bool :=
  match p, s with
  | EmptyString, _ => true
  | String a p', String b s' => Ascii.eqb a b && is_prefix p' s'
  | String _ _, EmptyString => false
  end.

(** [p in s] for two strings *)
Fixpoint is_substring (p s : string) : bool :=
  is_prefix p s ||
  match s with
  | EmptyString => false
  | String _ s' => is_substring p s'
  end.

(** [x == s] for a string [s] *)
Definition eq_str (x : json) (s : string) : bool :=
  match x with
  | JStr t => String.eqb t s
  | _ => false
  end.

(** [x == n] for an integer literal [n]; [False == 0] and [True == 1] hold
    in Python *)
Definition eq_int (x : json) (n : Z) : bool :=
  match x with
  | JInt z => z =? n
  | JBool b => (if b then 1 else 0) =? n
  | _ => false
  end.

(** [x is None] *)
Definition is_None (x : json) : bool :=
  match x with
  | JNull => true
  | _ => false
  end.

(** [s in v] for a string [s] *)
Definition contains (s : string) (v : json) : res bool :=
  match v with
  | JList l => Ok (existsb (fun x => eq_str x s) l)
  | JObj fields => Ok (existsb (fun kv => String.eqb (fst kv) s) fields)
  | JStr t => Ok (is_substring s t)
  | _ => Err (mkExn TypeError "argument is not iterable")
  end.

Definition lower_ascii (c : ascii) : ascii :=
  let n := nat_of_ascii c in
  if (Nat.leb 65 n && Nat.leb n 90)%bool then ascii_of_nat (n + 32) else c.

(** [s.lower()] on the ASCII letters; no other character lowers to a
    letter of "post", "put" or "delete". *)
Fixpoint lower (s : string) : string :=
  match s with
  | EmptyString => EmptyString
  | String c tl => String (lower_ascii c) (lower tl)
  end.

(** *** [int(s)] *)

Definition byte (c : ascii) : Z := Z.of_N (N_of_ascii c).

Definition is_continuation (x : Z) : bool := (128 <=? x) && (x <? 192).

(** The code points of a text; bytes that are not the encoding of a code
    point stand for [-1]. *)
Fixpoint code_points (s : string) : list Z :=
  match s with
  | EmptyString => []
  | String a tl =>
      let x := byte a in
      if x <? 128 then x :: code_points tl
      else
        match tl with
        | EmptyString => [-1]
        | String b tl2 =>
            let y := byte b in
            let cp2 := (x - 192) * 64 + (y - 128) in
            if (192 <=? x) && (x <? 224) && is_continuation y && (128 <=? cp2)
            then cp2 :: code_points tl2
            else
              match tl2 with
              | EmptyString => -1 :: code_points tl
              | String c tl3 =>
                  let z := byte c in
                  let cp3 := (x - 224) * 4096 + (y - 128) * 64 + (z - 128) in
                  if (224 <=? x) && (x <? 240) && is_continuation y &&
                     is_continuation z && (2048 <=? cp3)
                  then cp3 :: code_points tl3
                  else
                    match tl3 with
                    | EmptyString => -1 :: code_points tl
                    | String d tl4 =>
                        let u := byte d in
                        let cp4 := (x - 240) * 262144 + (y - 128) * 4096 +
                                   (z - 128) * 64 + (u - 128) in
                        if (240 <=? x) && (x <? 248) && is_continuation y &&
                           is_continuation z && is_continuation u &&
                           (65536 <=? cp4) && (cp4 <? 1114112)
                        then cp4 :: code_points tl4
                        else -1 :: code_points tl
                    end
              end
        end
  end.

(** the white space of Unicode from code point 127 on ([str.isspace]) *)
Definition unicode_spaces : list Z :=
  [133; 160; 5760; 8192; 8193; 8194; 8195; 8196; 8197; 8198; 8199; 8200;
   8201; 8202; 8232; 8233; 8239; 8287; 12288].

(** The decimal digits of Unicode from code point 127 on
    ([str.isdecimal], Unicode 14): each script has its ten digits in a row,
    this is the code point of each zero. *)
Definition unicode_zeros : list Z :=
  [1632; 1776; 1984; 2406; 2534; 2662; 2790; 2918; 3046; 3174; 3302; 3430;
   3558; 3664; 3792; 3872; 4160; 4240; 6112; 6160; 6470; 6608; 6784; 6800;
   6992; 7088; 7232; 7248; 42528; 43216; 43264; 43472; 43504; 43600; 44016;
   65296; 66720; 68912; 69734; 69872; 69942; 70096; 70384; 70736; 70864;
   71248; 71360; 71472; 71904; 72016; 72784; 73040; 73120; 92768; 92864;
   93008; 120782; 120792; 120802; 120812; 120822; 123200; 123632; 125264;
   130032].

(** The first step of [int(s)]: every character from code point 127 on
    is replaced, white space by a blank and a decimal digit by its ASCII
    digit; any other such character makes the text invalid. *)
Definition to_ascii (cp : Z) : option Z :=
  if (0 <=? cp) && (cp <? 127) then Some cp
  else if existsb (Z.eqb cp) unicode_spaces then Some 32
  else
    match find (fun z => (z <=? cp) && (cp <=? z + 9)) unicode_zeros with
    | Some z => Some (48 + (cp - z))
    | None => None
    end.

Fixpoint transform (l : list Z) : option (list Z) :=
  match l with
  | [] => Some []
  | cp :: tl =>
      match to_ascii cp, transform tl with
      | Some c, Some r => Some (c :: r)
      | _, _ => None
      end
  end.

(** blank, tab, line feed, vertical tab, form feed, carriage return *)
Definition is_space (c : Z) : bool := (c =? 32) || ((9 <=? c) && (c <=? 13)).

Fixpoint skip_spaces (l : list Z) : list Z :=
  match l with
  | c :: tl => if is_space c then skip_spaces tl else l
  | [] => []
  end.

(** The digits of a literal, with single underscores between them:
    the value, the number of digits and what follows.  [prev] is the
    character before. *)
Fixpoint scan_digits (l : list Z) (acc count prev : Z)
  : option (Z * Z * list Z) :=
  match l with
  | c :: tl =>
      if (48 <=? c) && (c <=? 57)
      then scan_digits tl (10 * acc + (c - 48)) (count + 1) c
      else if c =? 95
      then if prev =? 95 then None else scan_digits tl acc count c
      else if prev =? 95 then None else Some (acc, count, l)
  | [] => if prev =? 95 then None else Some (acc, count, [])
  end.

(** the most digits [int] converts (the default of
    [sys.set_int_max_str_digits]) *)
Definition max_str_digits : Z := 4300.

(** [int(s)] for a text [s], as CPython 3.11 reads it: white space
    around, an optional sign, then decimal digits of any script with single
    underscores between them, at most [max_str_digits] digits.  Everything
    else is a [ValueError]. *)
Definition py_int (s : string) : res Z :=
  let bad := Err (mkExn ValueError "invalid literal for int() with base 10") in
  match transform (code_points s) with
  | None => bad
  | Some l =>
      let l1 := skip_spaces l in
      let '(negative, l2) :=
        match l1 with
        | 45 :: t => (true, t)
        | 43 :: t => (false, t)
        | _ => (false, l1)
        end in
      match l2 with
      | 95 :: _ => bad
      | _ =>
          match scan_digits l2 0 0 0 with
          | None => bad
          | Some (v, count, rest) =>
              if count =? 0 then bad
              else if max_str_digits <? count
              then Err (mkExn ValueError
                          "Exceeds the limit (4300 digits) for integer string conversion")
              else
                match skip_spaces rest with
                | [] => Ok (if negative : bool then - v else v)
                | _ :: _ => bad
                end
          end
      end
  end.

(** [s.split(",")] *)
Fixpoint split_comma_aux (s : string) (cur : string) : list string :=
  match s with
  | EmptyString => [cur]
  | String c tl =>
      if Ascii.eqb c ","%char
      then cur :: split_comma_aux tl ""
      else split_comma_aux tl (cur ++ String c "")
  end.

Definition split_comma (s : string) : list string := split_comma_aux s "".

(** ** Configuration read from the environment *)

Record Environ : Type := mkEnviron {
  JOIN_MANAGER_PROTOCOL : option string;
  JOIN_MANAGER_MASTER_HOST : option string;
  JOIN_MANAGER_USER : option string;
  JOIN_MANAGER_PASSWORD : option string;
  JOIN_MANAGER_API_PORT : option string;
  NODE_NAME : option string;
  HOSTNAME : option string;
  WAZUH_GROUPS : option string;
  WAZUH_WAIT_TIME : option string
}.

(** [os.environ.get(key, default=d)] *)
Definition environ_get (v : option string) (d : string) : string :=
  match v with
  | Some s => s
  | None => d
  end.

(** [f"{v}"] for a value that is a string or [None] *)
Definition str_opt (v : option string) : string :=
  match v with
  | Some s => s
  | None => "None"
  end.

Definition base_url (environ : Environ) : string :=
  (environ_get (JOIN_MANAGER_PROTOCOL environ) "https" ++ "://" ++
   environ_get (JOIN_MANAGER_MASTER_HOST environ) "wazuh.wazuh.svc.cluster.local"
   ++ ":" ++ str_opt (JOIN_MANAGER_API_PORT environ))%string.

Definition login_url (environ : Environ) : string :=
  (base_url environ ++ "/" ++ "security/user/authenticate")%string.

Definition auth (environ : Environ) : string :=
  (environ_get (JOIN_MANAGER_USER environ) "" ++ ":" ++
   environ_get (JOIN_MANAGER_PASSWORD environ) "")%string.

(** [node_name = os.environ.get("NODE_NAME")], and [HOSTNAME] when that is
    unset or empty *)
Definition node_name (environ : Environ) : option string :=
  match NODE_NAME environ with
  | Some s => if String.eqb s "" then HOSTNAME environ else Some s
  | None => HOSTNAME environ
  end.

(** ** The world the script runs in *)

Inductive verb : Type := GET | POST | PUT | DELETE.

(** The resource paths of the script, with the interpolated values as
    arguments. *)
Inductive resource : Type :=
| AgentsList (wazuh_agent_id : json)
    (* f"agents?agents_list={wazuh_agent_id}" *)
| AgentGroup (wazuh_agent_id : json) (agent_group : string)
    (* f"agents/{wazuh_agent_id}/group/{agent_group}?pretty=true&wait_for_complete=true" *)
| AgentsInsert
    (* "agents/insert" *)
| AgentsByName (agt_name : option string)
    (* f"agents?q=name={agt_name}&wait_for_complete=true" *)
| Blank
    (* f"   " *)
| AgentKey (agent_id : json)
    (* f"agents/{agent_id}/key" *)
| Path (p : string).

Record response : Type := mkResponse {
  status_code : Z;
  content : string;
  json_body : option json     (* what [.json()] parses, if it parses *)
}.

(** What the remote side does with one request: nothing comes back (the
    [requests] call raises), or a response does; [elapsed] is the time the
    call took. *)
Inductive reply : Type :=
| NoResponse (elapsed : Z)
| Answer (elapsed : Z) (r : response).

Inductive event : Type :=
| EvConfig
| EvLogin (url basic : string)
| EvRequest (v : verb) (base : string) (r : resource) (token : json)
            (data : option json)
| EvSleep (secs : Z)
| EvImportKey (key : string)
| EvRestart
| EvServe.

Record World : Type := mkWorld {
  cached_token : json;
  token_expiration : Z;
  now : Z;
  login_replies : list reply;
  api_replies : list reply;
  trace : list event
}.

(** ** Computations: state, exceptions, and fuel for the unbounded loops *)

Inductive outcome (A : Type) : Type :=
| Ret (a : A)
| Raise (e : exn)
| Diverge.
Arguments Ret {A} a.
Arguments Raise {A} e.
Arguments Diverge {A}.

Definition M (A : Type) : Type := World -> outcome A * World.

Definition ret {A} (a : A) : M A := fun w => (Ret a, w).

Definition raise {A} (e : exn) : M A := fun w => (Raise e, w).

Definition bind {A B} (c : M A) (k : A -> M B) : M B :=
  fun w =>
    match c w with
    | (Ret a, w') => k a w'
    | (Raise e, w') => (Raise e, w')
    | (Diverge, w') => (Diverge, w')
    end.

(** [try: c  except Exception: h] *)
Definition try_except {A} (c : M A) (h : exn -> M A) : M A :=
  fun w =>
    match c w with
    | (Raise e, w') => h e w'
    | r => r
    end.

Definition lift {A} (r : res A) : M A :=
  match r with
  | Ok a => ret a
  | Err e => raise e
  end.

Declare Scope py_scope.
Delimit Scope py_scope with py.
Notation "x <- c ;; k" := (bind c (fun x => k))
  (at level 61, c at next level, right associativity) : py_scope.
Notation "c ;;; k" := (bind c (fun _ => k))
  (at level 61, right associativity) : py_scope.
Local Open Scope py_scope.

Definition emit (e : event) : M unit :=
  fun w => (Ret tt, mkWorld (cached_token w) (token_expiration w) (now w)
                            (login_replies w) (api_replies w) (trace w ++ [e])).

Definition advance (d : Z) : M unit :=
  fun w => (Ret tt, mkWorld (cached_token w) (token_expiration w) (now w + d)
                            (login_replies w) (api_replies w) (trace w)).

(** [time.time()] *)
Definition time_time : M Z := fun w => (Ret (now w), w).

(** [time.sleep] keeps the length as a 64-bit number of nanoseconds:
    this is the longest one, in seconds, that fits. *)
Definition max_sleep : Z := 9223372036.

(** [time.sleep(secs)] for an integer: a negative length and one above
    [max_sleep] are refused.  Closer to [max_sleep] than the machine has
    been up, CPython 3.11 fails as well (the deadline it hands to the system
    no longer fits); that band is not modelled, and the properties below
    stay clear of it: where they need a sleep to happen they ask for a
    length of at most [long_sleep]. *)
Definition time_sleep (secs : Z) : M unit :=
  if secs <? 0
  then raise (mkExn ValueError "sleep length must be non-negative")
  else if max_sleep <? secs
  then raise (mkExn OverflowError
                "timestamp too large to convert to C _PyTime_t")
  else emit (EvSleep secs) ;;; advance secs.

(** [2^31 - 1] seconds, 68 years *)
Definition long_sleep : Z := 2147483647.

Definition get_cached_token : M json := fun w => (Ret (cached_token w), w).

Definition get_token_expiration : M Z := fun w => (Ret (token_expiration w), w).

Definition set_cached_token (t : json) : M unit :=
  fun w => (Ret tt, mkWorld t (token_expiration w) (now w)
                            (login_replies w) (api_replies w) (trace w)).

Definition set_token_expiration (t : Z) : M unit :=
  fun w => (Ret tt, mkWorld (cached_token w) t (now w)
                            (login_replies w) (api_replies w) (trace w)).

Definition next_login_reply : M reply :=
  fun w =>
    match login_replies w with
    | [] => (Ret (NoResponse 0), w)
    | r :: tl => (Ret r, mkWorld (cached_token w) (token_expiration w) (now w)
                                 tl (api_replies w) (trace w))
    end.

Definition next_api_reply : M reply :=
  fun w =>
    match api_replies w with
    | [] => (Ret (NoResponse 0), w)
    | r :: tl => (Ret r, mkWorld (cached_token w) (token_expiration w) (now w)
                                 (login_replies w) tl (trace w))
    end.

Definition deliver (r : reply) : M response :=
  match r with
  | NoResponse d => advance d ;;; raise (mkExn ConnectionError "no response")
  | Answer d resp => advance d ;;; ret resp
  end.

(** [requests.get(login_url, headers=login_headers, verify=False)] *)
Definition requests_login (url basic : string) : M response :=
  emit (EvLogin url basic) ;;;
  r <- next_login_reply ;;
  deliver r.

(** [requests.<verb>(url, headers=requests_headers, ...)] *)
Definition requests_call (v : verb) (base : string) (r : resource)
    (token : json) (data : option json) : M response :=
  emit (EvRequest v base r token data) ;;;
  rp <- next_api_reply ;;
  deliver rp.

(** [response.json()] *)
Definition response_json (r : response) : M json :=
  match json_body r with
  | Some j => ret j
  | None => raise (mkExn JSONDecodeError "Expecting value")
  end.

(** ** The token cache and the API client *)

Definition auth_failed : exn :=
  mkExn Exception "Failed to get authentication token".

Definition get_auth_token (environ : Environ) : M json :=
  tok <- get_cached_token ;;
  t <- time_time ;;
  expiry <- get_token_expiration ;;
  if truthy tok && (t <? expiry) then ret tok
  else
    response <- requests_login (login_url environ) (auth environ) ;;
    if status_code response =? 200 then
      token_data <- response_json response ;;
      data <- lift (getitem token_data "data") ;;
      token <- lift (getitem data "token") ;;
      set_cached_token token ;;;
      t' <- time_time ;;
      set_token_expiration (t' + 300) ;;;
      get_cached_token
    else
      raise auth_failed.

Definition verb_of (method : string) : verb :=
  let m := lower method in
  if String.eqb m "post" then POST
  else if String.eqb m "put" then PUT
  else if String.eqb m "delete" then DELETE
  else GET.

(** the body of the [try] of [wazuh_api] *)
Definition wazuh_api_try (environ : Environ) (method : string) (r : resource)
    (data : option json) : M (option Z * json) :=
  token <- get_auth_token environ ;;
  response <- requests_call (verb_of method) (base_url environ) r token data ;;
  let code := status_code response in
  response_json <- response_json response ;;
  ret (Some code, response_json).

Definition wazuh_api (environ : Environ) (method : string) (r : resource)
    (data : option json) : M (option Z * json) :=
  try_except (wazuh_api_try environ method r data)
             (fun _ => ret (None, JObj [])).

(** ** The enrollment steps *)

Definition diverge {A} : M A := fun w => (Diverge, w).

Section Enrollment.

(** [requests.status_codes._codes]: the names of each known HTTP status
    code *)
Variable _codes : Z -> option (list string).

Variable environ : Environ.

(** [_codes[http_status_code][0]] *)
Definition code_desc (http_status_code : option Z) : res string :=
  match http_status_code with
  | None => Err (mkExn KeyError "None")
  | Some c =>
      match _codes c with
      | None => Err (mkExn KeyError (NilZero.string_of_int (Z.to_int c)))
      | Some [] => Err (mkExn IndexError "tuple index out of range")
      | Some (d :: _) => Ok d
      end
  end.

(** The pieces of the message: [json.dumps] and [json.loads] of a parsed
    body cannot fail, [code_desc] can. *)
Definition http_codes_serializer (response : json) (status_code : option Z)
  : res (json * option Z * string) :=
  match code_desc status_code with
  | Ok d => Ok (response, status_code, d)
  | Err e => Err e
  end.

(** [status_code == 200 and response["error"] == 0] *)
Definition is_success (status_code : option Z) (response : json) : res bool :=
  match status_code with
  | Some c =>
      if c =? 200 then
        match getitem response "error" with
        | Ok e => Ok (eq_int e 0)
        | Err x => Err x
        end
      else Ok false
  | None => Ok false
  end.

(** [response["data"]["affected_items"]] *)
Definition affected_items (response : json) : res json :=
  match getitem response "data" with
  | Ok d => getitem d "affected_items"
  | Err x => Err x
  end.

(** [response["data"]["affected_items"][0].get("group", [])] *)
Definition current_groups (response : json) : res json :=
  match affected_items response with
  | Ok l =>
      match getitem0 l with
      | Ok first => get_default first "group" (JList [])
      | Err x => Err x
      end
  | Err x => Err x
  end.

Definition add_agent_to_group_body (self : json -> string -> M json)
    (wazuh_agent_id : json) (agent_group : string) : M json :=
  r <- wazuh_api environ "get" (AgentsList wazuh_agent_id) None ;;
  let '(status_code, response) := r in
  response_msg <- lift (http_codes_serializer response status_code) ;;
  ok <- lift (is_success status_code response) ;;
  present <- (if ok : bool then
                groups <- lift (current_groups response) ;;
                lift (contains agent_group groups)
              else ret false) ;;
  if present : bool then ret JNull
  else
    let wait_time := environ_get (WAZUH_WAIT_TIME environ) "30" in
    r <- wazuh_api environ "put" (AgentGroup wazuh_agent_id agent_group) None ;;
    let '(status_code, response) := r in
    response_msg <- lift (http_codes_serializer response status_code) ;;
    ok <- lift (is_success status_code response) ;;
    if ok : bool then ret response
    else
      secs <- lift (py_int wait_time) ;;
      time_sleep secs ;;;
      self wazuh_agent_id agent_group ;;;
      ret JNull.

(** The function calls itself, and every retry is one call deeper;
    [fuel] is the depth of calls that is looked at.  The interpreter allows
    a depth of about a thousand calls (the script does not raise
    [sys.setrecursionlimit]) and ends a deeper chain of retries with an
    exception; that limit is not modelled, and the properties below are
    about the first two calls only. *)
Fixpoint add_agent_to_group (fuel : nat) (wazuh_agent_id : json)
    (agent_group : string) : M json :=
  match fuel with
  | O => diverge
  | S fuel' =>
      add_agent_to_group_body (add_agent_to_group fuel')
                              wazuh_agent_id agent_group
  end.

Definition force_policy : json :=
  JObj [("enabled", JBool true);
        ("disconnected_time", JObj [("enabled", JBool false); ("value", JStr "0")]);
        ("after_registration_time", JStr "1s")].

Definition opt_json (v : option string) : json :=
  match v with
  | Some s => JStr s
  | None => JNull
  end.

(** the data of the insert request when no address is given *)
Definition insert_payload (name : option string) : json :=
  JObj [("name", JStr (str_opt name)); ("force", force_policy)].

(** Returns the pair [(id, key)], or [None] when the function falls off
    its end. *)
Definition add_agent (agt_name : option string) (agt_ip : option string)
  : M (option (json * json)) :=
  r <- (if truthy (opt_json agt_ip) then
          wazuh_api environ "post" AgentsInsert
            (Some (JObj [("name", opt_json agt_name);
                         ("ip", opt_json agt_ip);
                         ("force", force_policy)]))
        else
          wazuh_api environ "post" AgentsInsert
            (Some (JObj [("name", JStr (str_opt agt_name));
                         ("force", force_policy)]))) ;;
  let '(status_code, response) := r in
  response_msg <- lift (http_codes_serializer response status_code) ;;
  if match status_code with Some c => c =? 400 | None => false end
  then ret None
  else
    ok <- lift (is_success status_code response) ;;
    if ok : bool then
      data <- lift (getitem response "data") ;;
      wazuh_agent_id <- lift (getitem data "id") ;;
      data' <- lift (getitem response "data") ;;
      wazuh_agent_key <- lift (getitem data' "key") ;;
      ret (Some (wazuh_agent_id, wazuh_agent_key))
    else ret None.

(** The [for] loop of [wazuh_agent_status]: every item overwrites the
    three locals. *)
Fixpoint scan_items (items : list json) (acc : json * json * json)
  : res (json * json * json) :=
  match items with
  | [] => Ok acc
  | it :: tl =>
      match getitem it "name" with
      | Err x => Err x
      | Ok n =>
          match getitem it "status" with
          | Err x => Err x
          | Ok s =>
              match getitem it "id" with
              | Err x => Err x
              | Ok i => scan_items tl (n, s, i)
              end
          end
      end
  end.

Definition wazuh_agent_status (agt_name : option string) (pretty : bool)
  : M (json * json * json) :=
  r <- (if pretty then wazuh_api environ "get" Blank None
        else wazuh_api environ "get" (AgentsByName agt_name) None) ;;
  let '(status_code, response) := r in
  response_msg <- lift (http_codes_serializer response status_code) ;;
  ok <- lift (is_success status_code response) ;;
  if ok : bool then
    l <- lift (affected_items response) ;;
    items <- lift (iter l) ;;
    lift (scan_items items (JNull, JNull, JNull))
  else ret (JNull, JNull, JNull).

(** a lone surrogate in a text: the byte 237 followed by a byte from
    160 on *)
Fixpoint has_surrogate (s : string) : bool :=
  match s with
  | EmptyString => false
  | String a tl =>
      match tl with
      | String b _ => (byte a =? 237) && (160 <=? byte b) && (byte b <? 192)
      | EmptyString => false
      end || has_surrogate tl
  end.

Fixpoint has_nul (s : string) : bool :=
  match s with
  | EmptyString => false
  | String a tl => (byte a =? 0) || has_nul tl
  end.

(** the longest argument, with its final zero byte, that Linux passes to
    a new program (32 pages of 4096 bytes) *)
Definition max_arg_strlen : Z := 131072.

(** [wazuh_agent_key.encode()]; only a [str] has [encode] *)
Definition encode (agent_key : json) : res string :=
  match agent_key with
  | JStr k =>
      if has_surrogate k
      then Err (mkExn UnicodeEncodeError
                  "'utf-8' codec can't encode character: surrogates not allowed")
      else Ok k
  | _ => Err (mkExn AttributeError "object has no attribute 'encode'")
  end.

(** What [Popen] does with the arguments of [execute] before the binary
    runs: an argument with a zero byte is refused by [Popen] itself, one
    that is too long by the system. *)
Definition popen_argument (arg : string) : res unit :=
  if has_nul arg then Err (mkExn ValueError "embedded null byte")
  else if max_arg_strlen <=? Z.of_nat (String.length arg)
  then Err (mkExn OSError "[Errno 7] Argument list too long")
  else Ok tt.

(** [wazuh_agent_import_key(agent_key.encode())]; the binary is taken to
    be installed, and what it answers is only logged. *)
Definition wazuh_agent_import_key (agent_key : json) : M unit :=
  k <- lift (encode agent_key) ;;
  lift (popen_argument k) ;;;
  emit (EvImportKey k).

(** a key that can be handed to the binary *)
Definition importable (key : string) : bool :=
  negb (has_surrogate key) && negb (has_nul key) &&
  (Z.of_nat (String.length key) <? max_arg_strlen).

(** what the binary prints is only logged *)
Definition restart_wazuh_agent : M unit := emit EvRestart.

Definition create_config_file : M unit := emit EvConfig.

Definition get_agent_key (agent_id : json) : M json :=
  r <- wazuh_api environ "get" (AgentKey agent_id) None ;;
  let '(status_code, response) := r in
  response_msg <- lift (http_codes_serializer response status_code) ;;
  ok <- lift (is_success status_code response) ;;
  if ok : bool then
    l <- lift (affected_items response) ;;
    items <- lift (iter l) ;;
    match items with
    | it :: _ => lift (getitem it "key")
    | [] => ret JNull
    end
  else ret JNull.

(** ** The script *)

(** lines 352-361: find or create the agent, and get its key *)
Definition obtain_key : M (json * json) :=
  r <- wazuh_agent_status (node_name environ) false ;;
  let '(agent_name, agent_status, agent_id) := r in
  p <- (if is_None agent_id then
          created <- add_agent (node_name environ) None ;;
          match created with
          | Some (i, k) => ret (i, k)
          | None => raise (mkExn TypeError
                             "cannot unpack non-iterable NoneType object")
          end
        else
          k <- get_agent_key agent_id ;;
          ret (agent_id, k)) ;;
  let '(agent_id, agent_key) := p in
  if is_None agent_key
  then raise (mkExn ValueError "Failed to retrieve agent key.")
  else ret (agent_id, agent_key).

(** lines 364-380: the [while status:] loop; [fuel] bounds the number of
    iterations.  Returns the triple of the last resolution. *)
Fixpoint poll_until_active (fuel : nat) : M (json * json * json) :=
  match fuel with
  | O => diverge
  | S fuel' =>
      r <- wazuh_agent_status (node_name environ) false ;;
      let '(agent_name, agent_status, agent_id) := r in
      if eq_str agent_status "active" then ret r
      else
        secs <- lift (py_int (environ_get (WAZUH_WAIT_TIME environ) "10")) ;;
        time_sleep secs ;;;
        poll_until_active fuel'
  end.

Fixpoint assign_groups (fuel : nat) (agent_id : json) (l : list string)
  : M unit :=
  match l with
  | [] => ret tt
  | group :: tl =>
      add_agent_to_group fuel agent_id group ;;;
      assign_groups fuel agent_id tl
  end.

(** [__main__] from [create_config_file()] up to the start of the health
    server *)
Definition main (fuel : nat) : M unit :=
  create_config_file ;;;
  p <- obtain_key ;;
  let '(_, agent_key) := p in
  wazuh_agent_import_key agent_key ;;;
  restart_wazuh_agent ;;;
  r <- poll_until_active fuel ;;
  let '(agent_name, agent_status, agent_id) := r in
  let groups := environ_get (WAZUH_GROUPS environ) "default" in
  (if String.eqb groups "default" then ret tt
   else assign_groups fuel agent_id (split_comma groups)) ;;;
  emit EvServe.

End Enrollment.

(** ** The local checks *)

(** [s.split(sep)] for a one-character separator *)
Fixpoint split_on (sep : ascii) (s : string) : list string :=
  match s with
  | EmptyString => [EmptyString]
  | String c tl =>
      if Ascii.eqb c sep then EmptyString :: split_on sep tl
      else
        match split_on sep tl with
        | [] => [String c EmptyString]
        | l :: ls => String c l :: ls
        end
  end.

(** The loop of [restart_wazuh_agent] over
    [command_stdout.split(os.linesep)], with [os.linesep] the newline of
    the Linux container: is there a line with the marker? *)
Definition restarted (command_stdout : string) : bool :=
  existsb (fun line_output => is_substring "Completed." line_output)
          (split_on "010"%char command_stdout).

(** the inner loop of [check_self]: [for process in process_name] visits
    the characters of the name *)
Fixpoint any_char_in (process_name : string) (name : string) : bool :=
  match process_name with
  | EmptyString => false
  | String process tl =>
      if is_substring (String process EmptyString) name then true
      else any_char_in tl name
  end.

(** [check_self], for the base name of the script and the names of the
    processes [psutil.process_iter()] yields.  [None] is the value of a
    function that falls off its end. *)
Fixpoint check_self (process_name : string) (procs : list string)
  : option (bool * string) :=
  match procs with
  | [] => None
  | name :: tl =>
      if any_char_in process_name name then Some (true, "register_agent ok")
      else check_self process_name tl
  end.

(** ** Observing a run *)

(** What the script did to the outside, without the logins (which depend
    on the age of the token) and without the token each request carried. *)
Inductive action : Type :=
| Config
| Req (v : verb) (r : resource)
| Sleep (secs : Z)
| ImportKey (key : string)
| Restart
| Serve.

Definition action_of (e : event) : list action :=
  match e with
  | EvConfig => [Config]
  | EvLogin _ _ => []
  | EvRequest v _ r _ _ => [Req v r]
  | EvSleep s => [Sleep s]
  | EvImportKey k => [ImportKey k]
  | EvRestart => [Restart]
  | EvServe => [Serve]
  end.

Definition actions (t : list event) : list action := flat_map action_of t.

(** [cached_token and time.time() < token_expiration] *)
Definition token_usable (w : World) : bool :=
  truthy (cached_token w) && (now w <? token_expiration w).

(** A login reply that [get_auth_token] accepts: HTTP 200 and a body with
    [data.token]. *)
Definition good_login (rp : reply) : bool :=
  match rp with
  | NoResponse _ => false
  | Answer _ resp =>
      (status_code resp =? 200) &&
      match json_body resp with
      | Some j =>
          match getitem j "data" with
          | Ok d => match getitem d "token" with Ok _ => true | Err _ => false end
          | Err _ => false
          end
      | None => false
      end
  end.

(** The login endpoint is going to accept the credentials, at least [k]
    more times. *)
Definition logins_ok (k : nat) (w : World) : Prop :=
  forallb good_login (login_replies w) = true /\
  (k <= List.length (login_replies w))%nat.

(** The reply the next API request is going to get; an exhausted queue
    answers nothing. *)
Definition next_reply (q : list reply) : reply :=
  match q with
  | [] => NoResponse 0
  | rp :: _ => rp
  end.

(** What [wazuh_api] hands to its caller for a reply, once it has a
    token. *)
Definition api_result (rp : reply) : option Z * json :=
  match rp with
  | NoResponse _ => (None, JObj [])
  | Answer _ resp =>
      match json_body resp with
      | Some j => (Some (status_code resp), j)
      | None => (None, JObj [])
      end
  end.

(** a record: an item with the three fields the loop of
    [wazuh_agent_status] reads *)
Definition is_record (it : json) : Prop :=
  exists n s i,
    getitem it "name" = Ok n /\ getitem it "status" = Ok s /\
    getitem it "id" = Ok i.

Section Views.

Variable _codes : Z -> option (list string).

(** What [wazuh_agent_status] makes of the result of its API call. *)
Definition resolved (r : option Z * json) : res (json * json * json) :=
  let '(status_code, response) := r in
  match http_codes_serializer _codes response status_code with
  | Err e => Err e
  | Ok _ =>
      match is_success status_code response with
      | Err e => Err e
      | Ok false => Ok (JNull, JNull, JNull)
      | Ok true =>
          match affected_items response with
          | Err e => Err e
          | Ok l =>
              match iter l with
              | Err e => Err e
              | Ok items => scan_items items (JNull, JNull, JNull)
              end
          end
      end
  end.

(** What [add_agent_to_group] makes of the result of the membership
    fetch: is the agent known to be in the group already? *)
Definition already_in_group (r : option Z * json) (agent_group : string)
  : res bool :=
  let '(status_code, response) := r in
  match http_codes_serializer _codes response status_code with
  | Err e => Err e
  | Ok _ =>
      match is_success status_code response with
      | Err e => Err e
      | Ok false => Ok false
      | Ok true =>
          match current_groups response with
          | Err e => Err e
          | Ok groups => contains agent_group groups
          end
      end
  end.

(** What [add_agent_to_group] makes of the result of the assignment
    call: did the manager accept it? *)
Definition accepted (r : option Z * json) : res bool :=
  let '(status_code, response) := r in
  match http_codes_serializer _codes response status_code with
  | Err e => Err e
  | Ok _ => is_success status_code response
  end.

(** What [add_agent] makes of the result of the insert call. *)
Definition created (r : option Z * json) : res (option (json * json)) :=
  let '(status_code, response) := r in
  match http_codes_serializer _codes response status_code with
  | Err e => Err e
  | Ok _ =>
      if match status_code with Some c => c =? 400 | None => false end
      then Ok None
      else
        match is_success status_code response with
        | Err e => Err e
        | Ok false => Ok None
        | Ok true =>
            match getitem response "data" with
            | Err e => Err e
            | Ok data =>
                match getitem data "id" with
                | Err e => Err e
                | Ok i =>
                    match getitem data "key" with
                    | Err e => Err e
                    | Ok k => Ok (Some (i, k))
                    end
                end
            end
        end
  end.

(** a status code that [requests] has a name for *)
Definition known (c : Z) : bool :=
  match _codes c with
  | Some (_ :: _) => true
  | _ => false
  end.

(** A response of the manager that reports success: a JSON body, HTTP
    200 and [error] equal to 0. *)
Definition success_response (rp : reply) : bool :=
  match rp with
  | NoResponse _ => false
  | Answer _ resp =>
      match json_body resp with
      | None => false
      | Some j =>
          known (status_code resp) && (status_code resp =? 200) &&
          match getitem j "error" with
          | Ok e => eq_int e 0
          | Err _ => false
          end
      end
  end.

(** A response of the manager that reports a failure: a JSON body, and
    either an HTTP status other than 200 or an [error] field other than 0. *)
Definition non_success_response (rp : reply) : bool :=
  match rp with
  | NoResponse _ => false
  | Answer _ resp =>
      match json_body resp with
      | None => false
      | Some j =>
          known (status_code resp) &&
          (negb (status_code resp =? 200) ||
           match getitem j "error" with
           | Ok e => negb (eq_int e 0)
           | Err _ => false
           end)
      end
  end.

(** the status a resolution reports for a reply, when it reports one *)
Definition observed_status (rp : reply) : option json :=
  match resolved (api_result rp) with
  | Ok (_, s, _) => Some s
  | Err _ => None
  end.

(** a reply on which the polling loop goes round again *)
Definition not_yet_active (rp : reply) : Prop :=
  exists s, observed_status rp = Some s /\ eq_str s "active" = false.

(** What [get_agent_key] makes of the result of its API call. *)
Definition fetched_key (r : option Z * json) : res json :=
  let '(status_code, response) := r in
  match http_codes_serializer _codes response status_code with
  | Err e => Err e
  | Ok _ =>
      match is_success status_code response with
      | Err e => Err e
      | Ok false => Ok JNull
      | Ok true =>
          match affected_items response with
          | Err e => Err e
          | Ok l =>
              match iter l with
              | Err e => Err e
              | Ok [] => Ok JNull
              | Ok (it :: _) => getitem it "key"
              end
          end
      end
  end.

(** the reply is a success response with the JSON body [j] *)
Definition success_with (rp : reply) (j : json) : Prop :=
  success_response rp = true /\
  exists d resp, rp = Answer d resp /\ json_body resp = Some j.

End Views.

(** [",".join(l)] *)
Fixpoint join_comma (l : list string) : string :=
  match l with
  | [] => EmptyString
  | [x] => x
  | x :: tl => (x ++ "," ++ join_comma tl)%string
  end.

(** a character occurs in a string *)
Definition occurs (c : ascii) (s : string) : Prop :=
  exists pre post, s = (pre ++ String c post)%string.

Definition is_assignment (a : action) : bool :=
  match a with
  | Req PUT (AgentGroup _ _) => true
  | _ => false
  end.

(** the number of group-assignment requests among the actions *)
Definition assignments (l : list action) : nat :=
  List.length (filter is_assignment l).

(** the sleeps among the actions, in order *)
Definition sleeps (l : list action) : list Z :=
  flat_map (fun a => match a with Sleep s => [s] | _ => [] end) l.

(** [n] iterations of the polling loop that go to sleep and the one that
    leaves it *)
Fixpoint poll_actions (name : option string) (secs : Z) (n : nat)
  : list action :=
  match n with
  | O => [Req GET (AgentsByName name)]
  | S n' => Req GET (AgentsByName name) :: Sleep secs
            :: poll_actions name secs n'
  end.

(** ** Sample inputs *)

Module Sample.

Definition environ : Environ :=
  mkEnviron None None (Some "wazuh") (Some "secret") (Some "55000")
            (Some "n1") None None None.

(** a fragment of [requests.status_codes._codes] *)
Definition _codes (c : Z) : option (list string) :=
  if c =? 200 then Some ["ok"; "okay"; "all_ok"]
  else if c =? 400 then Some ["bad_request"; "bad"]
  else if c =? 401 then Some ["unauthorized"]
  else if c =? 500 then Some ["internal_server_error"; "server_error"]
  else None.

Definition login_ok (tok : string) : reply :=
  Answer 1 (mkResponse 200 "" (Some (JObj [("data", JObj [("token", JStr tok)])]))).

Definition login_denied : reply :=
  Answer 1 (mkResponse 401 "Invalid credentials" (Some (JObj [("error", JInt 6000)]))).

Definition items_body (items : list json) : json :=
  JObj [("data", JObj [("affected_items", JList items)]); ("error", JInt 0)].

Definition agent (name status id : string) (groups : list string) : json :=
  JObj [("name", JStr name); ("status", JStr status); ("id", JStr id);
        ("group", JList (map JStr groups))].

Definition answer (code : Z) (j : json) : reply :=
  Answer 1 (mkResponse code "" (Some j)).

(** a start state: nothing cached, clock at 1000 *)
Definition start (logins api : list reply) : World :=
  mkWorld JNull 0 1000 logins api [].

(** a state with the token "T" cached until 1300 *)
Definition cached (logins api : list reply) : World :=
  mkWorld (JStr "T") 1300 1000 logins api [].

(** the login endpoint refuses the credentials *)
Definition refused : World := start [login_denied] [].

(** the manager knows no agent of that name *)
Definition absent : reply := answer 200 (items_body []).

Definition insert_400 : reply := answer 400 (JObj [("error", JInt 1)]).

Definition reports (status : string) : reply :=
  answer 200 (items_body [agent "n1" status "001" ["default"]]).

Definition member_of (groups : list string) : reply :=
  answer 200 (items_body [agent "n1" "active" "001" groups]).

Definition assign_ok : reply := answer 200 (JObj [("error", JInt 0)]).

Definition assign_busy : reply := answer 500 (JObj [("error", JInt 1)]).

(** the error page of a gateway in front of the manager: no JSON *)
Definition bad_gateway : reply :=
  Answer 1 (mkResponse 502 "<html>502 Bad Gateway</html>" None).

(** [WAZUH_GROUPS=web,db] *)
Definition environ_groups : Environ :=
  mkEnviron None None (Some "wazuh") (Some "secret") (Some "55000")
            (Some "n1") None (Some "web,db") None.



(** an agent record without the [group] field *)
Definition bare_agent : reply :=
  answer 200 (items_body [JObj [("name", JStr "n1"); ("status", JStr "active");
                                ("id", JStr "001")]]).

Definition insert_ok (id key : json) : reply :=
  answer 200 (JObj [("data", JObj [("id", id); ("key", key)]);
                    ("error", JInt 0)]).

Definition key_item (key : string) : json := JObj [("key", JStr key)].

Definition keys (l : list string) : reply :=
  answer 200 (items_body (map key_item l)).

(** a start state whose login endpoint accepts the credentials [k] times *)
Definition fresh (k : nat) (api : list reply) : World :=
  start (repeat (login_ok "T") k) api.

End Sample.

(** * Properties *)

(** ** The monad *)

Lemma bind_ret_eq {A B} (c : M A) (k : A -> M B) w a w' :
  c w = (Ret a, w') -> bind c k w = k a w'.
Proof. intros H; unfold bind; now rewrite H. Qed.

Lemma bind_raise_eq {A B} (c : M A) (k : A -> M B) w e w' :
  c w = (Raise e, w') -> bind c k w = (Raise e, w').
Proof. intros H; unfold bind; now rewrite H. Qed.

Lemma bind_diverge_eq {A B} (c : M A) (k : A -> M B) w w' :
  c w = (Diverge, w') -> bind c k w = (Diverge, w').
Proof. intros H; unfold bind; now rewrite H. Qed.

Lemma actions_app t1 t2 : actions (t1 ++ t2) = actions t1 ++ actions t2.
Proof. unfold actions; apply flat_map_app. Qed.

(** ** The token cache *)

Section TokenCache.

Variable environ : Environ.

Lemma get_auth_token_cached w :
  token_usable w = true ->
  get_auth_token environ w = (Ret (cached_token w), w).
Proof.
  unfold token_usable; intros H.
  unfold get_auth_token, bind, get_cached_token, time_time,
    get_token_expiration; cbn.
  now rewrite H.
Qed.

(** the login call and what happens to its reply, for a token that is
    absent or expired *)
Lemma get_auth_token_renew w :
  token_usable w = false ->
  get_auth_token environ w =
  (response <- requests_login (login_url environ) (auth environ) ;;
   if status_code response =? 200 then
     token_data <- response_json response ;;
     data <- lift (getitem token_data "data") ;;
     token <- lift (getitem data "token") ;;
     set_cached_token token ;;;
     t' <- time_time ;;
     set_token_expiration (t' + 300) ;;;
     get_cached_token
   else raise auth_failed) w.
Proof.
  unfold token_usable; intros H.
  unfold get_auth_token at 1, bind at 1 2 3, get_cached_token at 1, time_time at 1,
    get_token_expiration; cbn.
  now rewrite H.
Qed.

End TokenCache.

(** C3, as amended.  With a usable token in the cache (a true value, and
    the clock strictly before its expiry) [get_auth_token] returns it and
    changes nothing: no login call.  Otherwise it makes exactly one login
    call; on HTTP 200 with a body carrying [data.token] it returns and caches
    that token with expiry 300 seconds after the time the reply arrived; on
    any other status it raises the exception with the fixed message
    [Failed to get authentication token] (the response body is not part of
    it) and leaves the cached token and the expiry as they were. *)
Theorem get_auth_token_spec (environ : Environ) (w : World) :
  (truthy (cached_token w) = true -> now w < token_expiration w ->
   get_auth_token environ w = (Ret (cached_token w), w)) /\
  (truthy (cached_token w) = false \/ token_expiration w <= now w ->
   exists out w',
     get_auth_token environ w = (out, w') /\
     trace w' = trace w ++ [EvLogin (login_url environ) (auth environ)] /\
     forall d resp tl,
       login_replies w = Answer d resp :: tl ->
       (status_code resp = 200 ->
        forall j data tk,
          json_body resp = Some j ->
          getitem j "data" = Ok data ->
          getitem data "token" = Ok tk ->
          out = Ret tk /\ cached_token w' = tk /\
          token_expiration w' = now w + d + 300) /\
       (status_code resp <> 200 ->
        out = Raise auth_failed /\
        cached_token w' = cached_token w /\
        token_expiration w' = token_expiration w)).
Proof.
  split.
  - intros Ht Hlt. apply get_auth_token_cached.
    unfold token_usable. rewrite Ht. apply Z.ltb_lt in Hlt. now rewrite Hlt.
  - intros Hstale.
    assert (Hu : token_usable w = false).
    { unfold token_usable. destruct Hstale as [Hf | Hge].
      - now rewrite Hf.
      - apply Z.ltb_ge in Hge. rewrite Hge. apply andb_false_r. }
    rewrite (get_auth_token_renew environ w Hu).
    unfold requests_login, bind, emit, next_login_reply; cbn.
    destruct (login_replies w) as [| [d0 | d0 resp0] tl0] eqn:Hq; cbn.
    + do 2 eexists. split; [reflexivity |]. split; [reflexivity |].
      intros d resp tl Heq; discriminate Heq.
    + do 2 eexists. split; [reflexivity |]. split; [reflexivity |].
      intros d resp tl Heq; discriminate Heq.
    + destruct (status_code resp0 =? 200) eqn:Hc.
      * apply Z.eqb_eq in Hc.
        unfold response_json.
        destruct (json_body resp0) as [j0 |] eqn:Hj; cbn.
        -- destruct (getitem j0 "data") as [data0 | e0] eqn:Hd; cbn.
           ++ destruct (getitem data0 "token") as [tk0 | e1] eqn:Htk; cbn.
              ** do 2 eexists. split; [reflexivity |]. split; [reflexivity |].
                 intros d resp tl Heq; injection Heq as <- <- <-.
                 split; [| intros Hne; contradiction].
                 intros _ j data tk Hj' Hd' Htk'.
                 rewrite Hj in Hj'; injection Hj' as <-.
                 rewrite Hd in Hd'; injection Hd' as <-.
                 rewrite Htk in Htk'; injection Htk' as <-.
                 cbn. repeat split.
              ** do 2 eexists. split; [reflexivity |]. split; [reflexivity |].
                 intros d resp tl Heq; injection Heq as <- <- <-.
                 split; [| intros Hne; contradiction].
                 intros _ j data tk Hj' Hd' Htk'.
                 rewrite Hj in Hj'; injection Hj' as <-.
                 rewrite Hd in Hd'; injection Hd' as <-.
                 rewrite Htk in Htk'; discriminate Htk'.
           ++ do 2 eexists. split; [reflexivity |]. split; [reflexivity |].
              intros d resp tl Heq; injection Heq as <- <- <-.
              split; [| intros Hne; contradiction].
              intros _ j data tk Hj' Hd' Htk'.
              rewrite Hj in Hj'; injection Hj' as <-.
              rewrite Hd in Hd'; discriminate Hd'.
        -- do 2 eexists. split; [reflexivity |]. split; [reflexivity |].
           intros d resp tl Heq; injection Heq as <- <- <-.
           split; [| intros Hne; contradiction].
           intros _ j data tk Hj'. rewrite Hj in Hj'; discriminate Hj'.
      * apply Z.eqb_neq in Hc.
        do 2 eexists. split; [reflexivity |]. split; [reflexivity |].
        intros d resp tl Heq; injection Heq as <- <- <-.
        split; [intros He; contradiction |].
        intros _. cbn. repeat split.
Qed.

Lemma get_auth_token_spec_witness :
  get_auth_token Sample.environ (Sample.cached [] []) =
    (Ret (JStr "T"), Sample.cached [] []) /\
  exists out w',
    get_auth_token Sample.environ (Sample.start [Sample.login_ok "T"] []) = (out, w') /\
    trace w' = [EvLogin (login_url Sample.environ) (auth Sample.environ)].
Proof.
  split.
  - apply (proj1 (get_auth_token_spec Sample.environ (Sample.cached [] [])));
      [reflexivity | cbn; lia].
  - destruct (proj2 (get_auth_token_spec Sample.environ
                       (Sample.start [Sample.login_ok "T"] []))
                    (or_introl eq_refl)) as (out & w' & H & Ht & _).
    exists out, w'. split; assumption.
Defined.

(** C3, as stated, fails where it says that the error raised on a refused
    login contains the response body: the body is [Invalid credentials], the
    message of the exception is the fixed text. *)
Lemma get_auth_token_error_omits_body :
  exists e w',
    get_auth_token Sample.environ Sample.refused = (Raise e, w') /\
    exn_msg e = "Failed to get authentication token" /\
    is_substring "Invalid credentials" (exn_msg e) = false.
Proof. do 2 eexists. repeat split. Qed.

(** ** The API client *)

Section ApiClient.

Variable environ : Environ.

Lemma deliver_total rp w :
  exists out w', deliver rp w = (out, w') /\ out <> Diverge.
Proof.
  destruct rp; cbn; do 2 eexists; (split; [reflexivity | discriminate]).
Qed.

Lemma get_auth_token_total w :
  exists out w', get_auth_token environ w = (out, w') /\ out <> Diverge.
Proof.
  destruct (token_usable w) eqn:Hu.
  - rewrite (get_auth_token_cached environ w Hu).
    do 2 eexists; split; [reflexivity | discriminate].
  - rewrite (get_auth_token_renew environ w Hu).
    unfold requests_login, bind, emit, next_login_reply, response_json; cbn.
    destruct (login_replies w) as [| [d0 | d0 resp0] tl0]; cbn;
      try (do 2 eexists; split; [reflexivity | discriminate]).
    destruct (status_code resp0 =? 200);
      [| do 2 eexists; split; [reflexivity | discriminate]].
    destruct (json_body resp0) as [j0 |]; cbn;
      [| do 2 eexists; split; [reflexivity | discriminate]].
    destruct (getitem j0 "data") as [data0 | e0]; cbn;
      [| do 2 eexists; split; [reflexivity | discriminate]].
    destruct (getitem data0 "token") as [tk0 | e1]; cbn;
      do 2 eexists; (split; [reflexivity | discriminate]).
Qed.

Lemma wazuh_api_try_total method r data w :
  exists out w',
    wazuh_api_try environ method r data w = (out, w') /\ out <> Diverge.
Proof.
  unfold wazuh_api_try.
  destruct (get_auth_token_total w) as (out & w1 & Ht & Hnd).
  destruct out as [tok | e |]; [| | contradiction].
  - rewrite (bind_ret_eq _ _ _ _ _ Ht).
    unfold requests_call, bind, emit, next_api_reply, response_json; cbn.
    destruct (api_replies w1) as [| [d0 | d0 resp0] tl0]; cbn;
      try (do 2 eexists; split; [reflexivity | discriminate]).
    destruct (json_body resp0); cbn;
      do 2 eexists; (split; [reflexivity | discriminate]).
  - rewrite (bind_raise_eq _ _ _ _ _ Ht).
    do 2 eexists; split; [reflexivity | discriminate].
Qed.

Lemma wazuh_api_returns method r data w :
  exists v w', wazuh_api environ method r data w = (Ret v, w').
Proof.
  unfold wazuh_api, try_except.
  destruct (wazuh_api_try_total method r data w) as (out & w1 & Ht & Hnd).
  rewrite Ht. destruct out as [v | e |]; [| | contradiction].
  - now exists v, w1.
  - now exists (None, JObj []), w1.
Qed.

(** C2.  Whatever the method and the resource: when something raises
    inside the [try] of [wazuh_api] (the token renewal, the request, the
    parsing of the body), the call returns [(None, {})]; and [wazuh_api]
    returns a value in every state, it never raises. *)
Theorem wazuh_api_catches (method : string) (r : resource)
    (data : option json) (w : World) (e : exn) (w' : World) :
  wazuh_api_try environ method r data w = (Raise e, w') ->
  wazuh_api environ method r data w = (Ret (None, JObj []), w') /\
  (forall method0 r0 data0 w0,
      exists v w1, wazuh_api environ method0 r0 data0 w0 = (Ret v, w1)).
Proof.
  intros H. split.
  - unfold wazuh_api, try_except. now rewrite H.
  - intros; apply wazuh_api_returns.
Qed.

(** C8, as amended.  When the token has to be renewed and the login is
    answered with a status other than 200, [get_auth_token] raises, but
    inside the [try] of [wazuh_api]: the call returns [(None, {})] to its
    caller, sends no request, and leaves the cache as it was. *)
Theorem wazuh_api_login_refused (method : string) (r : resource)
    (data : option json) (w : World) (d : Z) (resp : response)
    (tl : list reply) :
  token_usable w = false ->
  login_replies w = Answer d resp :: tl ->
  status_code resp <> 200 ->
  exists w',
    get_auth_token environ w = (Raise auth_failed, w') /\
    wazuh_api environ method r data w = (Ret (None, JObj []), w') /\
    cached_token w' = cached_token w /\
    token_expiration w' = token_expiration w /\
    api_replies w' = api_replies w /\
    actions (trace w') = actions (trace w).
Proof.
  intros Hu Hq Hne.
  assert (Ht : get_auth_token environ w =
               (Raise auth_failed,
                mkWorld (cached_token w) (token_expiration w) (now w + d)
                        tl (api_replies w)
                        (trace w ++ [EvLogin (login_url environ) (auth environ)]))).
  { rewrite (get_auth_token_renew environ w Hu).
    unfold requests_login, bind, emit, next_login_reply; cbn.
    rewrite Hq; cbn.
    apply Z.eqb_neq in Hne. now rewrite Hne. }
  eexists. split; [exact Ht |].
  split.
  - unfold wazuh_api, try_except, wazuh_api_try.
    now rewrite (bind_raise_eq _ _ _ _ _ Ht).
  - cbn. repeat split.
    rewrite actions_app. cbn. now rewrite app_nil_r.
Qed.

End ApiClient.

Lemma wazuh_api_catches_witness :
  wazuh_api Sample.environ "delete" (Path "agents") None
            (Sample.cached [] [NoResponse 2]) =
  (Ret (None, JObj []),
   mkWorld (JStr "T") 1300 1002 [] []
           [EvRequest DELETE (base_url Sample.environ) (Path "agents")
                      (JStr "T") None]).
Proof.
  apply (wazuh_api_catches Sample.environ "delete" (Path "agents") None
           (Sample.cached [] [NoResponse 2])
           (mkExn ConnectionError "no response")).
  reflexivity.
Defined.

Lemma wazuh_api_login_refused_witness :
  exists w',
    wazuh_api Sample.environ "get" (AgentsByName (Some "n1")) None
              Sample.refused = (Ret (None, JObj []), w').
Proof.
  destruct (wazuh_api_login_refused Sample.environ "get"
              (AgentsByName (Some "n1")) None Sample.refused
              1 (mkResponse 401 "Invalid credentials"
                            (Some (JObj [("error", JInt 6000)]))) [])
    as (w' & _ & H & _).
  - reflexivity.
  - reflexivity.
  - cbn; lia.
  - now exists w'.
Defined.

(** C8, as stated, fails: the login is refused with HTTP 401,
    [get_auth_token] raises, and the [wazuh_api] call that asked for the
    token returns a result instead of raising. *)
Lemma wazuh_api_login_refused_no_raise :
  fst (get_auth_token Sample.environ Sample.refused) = Raise auth_failed /\
  fst (wazuh_api Sample.environ "get" (AgentsByName (Some "n1")) None
                 Sample.refused) = Ret (None, JObj []) /\
  ~ (exists e w',
        wazuh_api Sample.environ "get" (AgentsByName (Some "n1")) None
                  Sample.refused = (Raise e, w')).
Proof.
  repeat split.
  intros (e & w' & H). discriminate H.
Qed.

(** ** One API call against a manager that accepts the credentials *)

Lemma logins_ok_weaken k w : logins_ok (S k) w -> logins_ok k w.
Proof. intros [Hall Hlen]; split; [assumption | lia]. Qed.

Lemma logins_ok_le k k' w : (k' <= k)%nat -> logins_ok k w -> logins_ok k' w.
Proof. intros Hle [Hall Hlen]; split; [assumption | lia]. Qed.

Lemma logins_ok_same k w w' :
  login_replies w' = login_replies w -> logins_ok k w -> logins_ok k w'.
Proof. unfold logins_ok; intros ->; trivial. Qed.

Lemma time_sleep_ok secs w :
  (0 <= secs <= long_sleep) ->
  exists w',
    time_sleep secs w = (Ret tt, w') /\
    api_replies w' = api_replies w /\
    login_replies w' = login_replies w /\
    actions (trace w') = actions (trace w) ++ [Sleep secs].
Proof.
  intros [Hs Hle]. unfold time_sleep.
  apply Z.ltb_ge in Hs. rewrite Hs.
  assert (Hfits : (max_sleep <? secs) = false).
  { apply Z.ltb_ge. unfold long_sleep in Hle. unfold max_sleep. lia. }
  rewrite Hfits.
  eexists. split; [reflexivity |].
  repeat split.
  cbn [trace]. now rewrite actions_app.
Qed.

(** a key that can be handed to the binary is imported *)
Lemma wazuh_agent_import_key_ok key :
  importable key = true ->
  wazuh_agent_import_key (JStr key) = emit (EvImportKey key).
Proof.
  unfold importable. intros H.
  apply andb_true_iff in H as [H Hlen].
  apply andb_true_iff in H as [Hsur Hnul].
  apply negb_true_iff in Hsur. apply negb_true_iff in Hnul.
  apply Z.ltb_lt in Hlen.
  unfold wazuh_agent_import_key, encode. rewrite Hsur.
  unfold popen_argument. cbn [lift]. unfold bind at 1, ret at 1.
  rewrite Hnul.
  assert (Hfits : (max_arg_strlen <=? Z.of_nat (String.length key)) = false)
    by (apply Z.leb_gt; exact Hlen).
  rewrite Hfits. reflexivity.
Qed.

Section Calls.

Variable environ : Environ.

Lemma get_auth_token_ok k w :
  logins_ok (S k) w ->
  exists tok w',
    get_auth_token environ w = (Ret tok, w') /\
    api_replies w' = api_replies w /\
    logins_ok k w' /\
    actions (trace w') = actions (trace w).
Proof.
  intros Hok.
  destruct (token_usable w) eqn:Hu.
  - rewrite (get_auth_token_cached environ w Hu).
    exists (cached_token w), w. repeat split; try reflexivity.
    + apply Hok.
    + destruct Hok; lia.
  - rewrite (get_auth_token_renew environ w Hu).
    destruct Hok as [Hall Hlen].
    destruct (login_replies w) as [| rp tl] eqn:Hq; [cbn in Hlen; lia |].
    cbn in Hall, Hlen. apply andb_true_iff in Hall as [Hgood Hall].
    destruct rp as [d | d resp]; [discriminate Hgood |].
    cbn in Hgood. apply andb_true_iff in Hgood as [Hc Hbody].
    destruct (json_body resp) as [j |] eqn:Hj; [| discriminate Hbody].
    destruct (getitem j "data") as [data | e0] eqn:Hd; [| discriminate Hbody].
    destruct (getitem data "token") as [tk | e1] eqn:Htk; [| discriminate Hbody].
    unfold requests_login, bind, emit, next_login_reply, response_json; cbn.
    rewrite Hq; cbn. rewrite Hc, Hj; cbn. rewrite Hd; cbn. rewrite Htk; cbn.
    do 2 eexists. split; [reflexivity |].
    cbn [api_replies login_replies trace].
    repeat split; cbn [login_replies]; try assumption; try lia.
    rewrite actions_app; cbn. now rewrite app_nil_r.
Qed.

Lemma wazuh_api_result k w method r data :
  logins_ok (S k) w ->
  exists w',
    wazuh_api environ method r data w =
      (Ret (api_result (next_reply (api_replies w))), w') /\
    api_replies w' = List.tl (api_replies w) /\
    logins_ok k w' /\
    actions (trace w') = actions (trace w) ++ [Req (verb_of method) r].
Proof.
  intros Hok.
  destruct (get_auth_token_ok k w Hok) as (tok & w1 & Ht & Hq & Hok1 & Ha).
  unfold wazuh_api, try_except, wazuh_api_try.
  rewrite (bind_ret_eq _ _ _ _ _ Ht).
  unfold requests_call, bind, emit, next_api_reply, response_json; cbn.
  rewrite Hq.
  destruct (api_replies w) as [| [d | d resp] tl]; cbn.
  - eexists. split; [reflexivity |].
    cbn [api_replies login_replies trace List.tl].
    repeat split; try apply Hok1.
    rewrite actions_app, Ha. reflexivity.
  - eexists. split; [reflexivity |].
    cbn [api_replies login_replies trace List.tl].
    repeat split; try apply Hok1.
    rewrite actions_app, Ha. reflexivity.
  - destruct (json_body resp) as [j |]; cbn.
    + eexists. split; [reflexivity |].
      cbn [api_replies login_replies trace List.tl].
      repeat split; try apply Hok1.
      rewrite actions_app, Ha. reflexivity.
    + eexists. split; [reflexivity |].
      cbn [api_replies login_replies trace List.tl].
      repeat split; try apply Hok1.
      rewrite actions_app, Ha. reflexivity.
Qed.

End Calls.

(** ** The enrollment steps *)

Section EnrollmentFacts.

Variable _codes : Z -> option (list string).

Variable environ : Environ.

Lemma bind_lift_ok {A B} (x : res A) (a : A) (k : A -> M B) w :
  x = Ok a -> bind (lift x) k w = k a w.
Proof. now intros ->. Qed.

Lemma bind_lift_err {A B} (x : res A) (e : exn) (k : A -> M B) w :
  x = Err e -> bind (lift x) k w = (Raise e, w).
Proof. now intros ->. Qed.

Lemma bind_ext {A B} (c : M A) (k1 k2 : A -> M B) w :
  (forall a w', k1 a w' = k2 a w') -> bind c k1 w = bind c k2 w.
Proof.
  intros H. unfold bind. destruct (c w) as [[a | e |] w']; auto.
Qed.

(** [wazuh_agent_status] is its API call followed by [resolved] *)
Lemma wazuh_agent_status_unfold name w :
  wazuh_agent_status _codes environ name false w =
  (r <- wazuh_api environ "get" (AgentsByName name) None ;;
   lift (resolved _codes r)) w.
Proof.
  unfold wazuh_agent_status. apply bind_ext. intros [sc resp] w1.
  unfold resolved.
  destruct (http_codes_serializer _codes resp sc); cbn; [| reflexivity].
  destruct (is_success sc resp) as [[|] |]; cbn; try reflexivity.
  destruct (affected_items resp) as [l |]; cbn; [| reflexivity].
  destruct (iter l); cbn; reflexivity.
Qed.

Lemma wazuh_agent_status_result k w name :
  logins_ok (S k) w ->
  exists w',
    wazuh_agent_status _codes environ name false w =
      (lift (resolved _codes (api_result (next_reply (api_replies w))))) w' /\
    api_replies w' = List.tl (api_replies w) /\
    logins_ok k w' /\
    actions (trace w') = actions (trace w) ++ [Req GET (AgentsByName name)].
Proof.
  intros Hok.
  destruct (wazuh_api_result environ k w "get" (AgentsByName name) None Hok)
    as (w' & Hcall & Hq & Hok' & Ha).
  exists w'. rewrite wazuh_agent_status_unfold.
  rewrite (bind_ret_eq _ _ _ _ _ Hcall). auto.
Qed.

(** [add_agent_to_group] is the membership fetch followed by
    [already_in_group], then the assignment followed by [accepted] *)
Lemma add_agent_to_group_body_unfold self id group w :
  add_agent_to_group_body _codes environ self id group w =
  (r <- wazuh_api environ "get" (AgentsList id) None ;;
   present <- lift (already_in_group _codes r group) ;;
   if present : bool then ret JNull
   else
     r' <- wazuh_api environ "put" (AgentGroup id group) None ;;
     ok <- lift (accepted _codes r') ;;
     if ok : bool then ret (snd r')
     else
       secs <- lift (py_int (environ_get (WAZUH_WAIT_TIME environ) "30")) ;;
       time_sleep secs ;;;
       self id group ;;;
       ret JNull) w.
Proof.
  unfold add_agent_to_group_body, already_in_group, accepted,
    bind, lift, ret, raise.
  destruct (wazuh_api environ "get" (AgentsList id) None w)
    as [[[sc resp] | e |] w1]; cbv beta iota; try reflexivity.
  destruct (http_codes_serializer _codes resp sc);
    cbv beta iota; try reflexivity.
  destruct (is_success sc resp) as [[|] |]; cbv beta iota; try reflexivity.
  - destruct (current_groups resp) as [groups |];
      cbv beta iota; try reflexivity.
    destruct (contains group groups) as [[|] |];
      cbv beta iota; try reflexivity.
    destruct (wazuh_api environ "put" (AgentGroup id group) None w1)
      as [[[sc' resp'] | e' |] w3]; cbv beta iota; try reflexivity.
    destruct (http_codes_serializer _codes resp' sc'); reflexivity.
  - destruct (wazuh_api environ "put" (AgentGroup id group) None w1)
      as [[[sc' resp'] | e' |] w3]; cbv beta iota; try reflexivity.
    destruct (http_codes_serializer _codes resp' sc'); reflexivity.
Qed.

Lemma add_agent_to_group_body_fetch self id group k w :
  logins_ok (S k) w ->
  exists w',
    add_agent_to_group_body _codes environ self id group w =
    (present <- lift (already_in_group _codes
                        (api_result (next_reply (api_replies w))) group) ;;
     if present : bool then ret JNull
     else
       r' <- wazuh_api environ "put" (AgentGroup id group) None ;;
       ok <- lift (accepted _codes r') ;;
       if ok : bool then ret (snd r')
       else
         secs <- lift (py_int (environ_get (WAZUH_WAIT_TIME environ) "30")) ;;
         time_sleep secs ;;;
         self id group ;;;
         ret JNull) w' /\
    api_replies w' = List.tl (api_replies w) /\
    logins_ok k w' /\
    actions (trace w') = actions (trace w) ++ [Req GET (AgentsList id)].
Proof.
  intros Hok.
  destruct (wazuh_api_result environ k w "get" (AgentsList id) None Hok)
    as (w' & Hcall & Hq & Hok' & Ha).
  exists w'. rewrite add_agent_to_group_body_unfold.
  rewrite (bind_ret_eq _ _ _ _ _ Hcall). auto.
Qed.

Lemma add_agent_to_group_body_present self id group k w :
  logins_ok (S k) w ->
  already_in_group _codes (api_result (next_reply (api_replies w))) group
    = Ok true ->
  exists w',
    add_agent_to_group_body _codes environ self id group w = (Ret JNull, w') /\
    api_replies w' = List.tl (api_replies w) /\
    logins_ok k w' /\
    actions (trace w') = actions (trace w) ++ [Req GET (AgentsList id)].
Proof.
  intros Hok Hin.
  destruct (add_agent_to_group_body_fetch self id group k w Hok)
    as (w' & Hrun & Hrest).
  exists w'. split; [| exact Hrest].
  rewrite Hrun. now rewrite (bind_lift_ok _ _ _ _ Hin).
Qed.

Lemma add_agent_to_group_body_raises self id group k w e :
  logins_ok (S k) w ->
  already_in_group _codes (api_result (next_reply (api_replies w))) group
    = Err e ->
  exists w',
    add_agent_to_group_body _codes environ self id group w = (Raise e, w') /\
    api_replies w' = List.tl (api_replies w) /\
    logins_ok k w' /\
    actions (trace w') = actions (trace w) ++ [Req GET (AgentsList id)].
Proof.
  intros Hok Hin.
  destruct (add_agent_to_group_body_fetch self id group k w Hok)
    as (w' & Hrun & Hrest).
  exists w'. split; [| exact Hrest].
  rewrite Hrun. now rewrite (bind_lift_err _ _ _ _ Hin).
Qed.

(** after a fetch that does not find the group, the assignment request is
    sent; what is left is the reading of its result *)
Lemma add_agent_to_group_body_absent self id group k w :
  logins_ok (S (S k)) w ->
  already_in_group _codes (api_result (next_reply (api_replies w))) group
    = Ok false ->
  exists w',
    add_agent_to_group_body _codes environ self id group w =
    (ok <- lift (accepted _codes
                   (api_result (next_reply (List.tl (api_replies w))))) ;;
     if ok : bool
     then ret (snd (api_result (next_reply (List.tl (api_replies w)))))
     else
       secs <- lift (py_int (environ_get (WAZUH_WAIT_TIME environ) "30")) ;;
       time_sleep secs ;;;
       self id group ;;;
       ret JNull) w' /\
    api_replies w' = List.tl (List.tl (api_replies w)) /\
    logins_ok k w' /\
    actions (trace w') =
      actions (trace w) ++ [Req GET (AgentsList id);
                            Req PUT (AgentGroup id group)].
Proof.
  intros Hok Hin.
  destruct (add_agent_to_group_body_fetch self id group (S k) w Hok)
    as (w1 & Hrun & Hq1 & Hok1 & Ha1).
  destruct (wazuh_api_result environ k w1 "put" (AgentGroup id group) None Hok1)
    as (w2 & Hcall & Hq2 & Hok2 & Ha2).
  exists w2. rewrite Hrun, (bind_lift_ok _ _ _ _ Hin).
  rewrite (bind_ret_eq _ _ _ _ _ Hcall).
  rewrite Hq1 in *.
  split; [reflexivity |]. split; [exact Hq2 |]. split; [exact Hok2 |].
  rewrite Ha2, Ha1, <- app_assoc. reflexivity.
Qed.

Lemma assignments_app l1 l2 :
  assignments (l1 ++ l2) = (assignments l1 + assignments l2)%nat.
Proof. unfold assignments. now rewrite filter_app, length_app. Qed.

(** one invocation on its own (fuel 1): exactly one assignment request,
    whatever the manager answers to it *)
Lemma add_agent_to_group_once id group w :
  logins_ok 2 w ->
  already_in_group _codes (api_result (next_reply (api_replies w))) group
    = Ok false ->
  assignments (actions (trace (snd
      (add_agent_to_group _codes environ 1 id group w)))) =
  (assignments (actions (trace w)) + 1)%nat.
Proof.
  intros Hok Hin.
  change (add_agent_to_group _codes environ 1 id group w)
    with (add_agent_to_group_body _codes environ
            (add_agent_to_group _codes environ 0) id group w).
  destruct (add_agent_to_group_body_absent
              (add_agent_to_group _codes environ 0) id group 0 w Hok Hin)
    as (w2 & Hrun & _ & _ & Ha).
  rewrite Hrun. clear Hrun.
  assert (Hw2 : assignments (actions (trace w2)) =
                (assignments (actions (trace w)) + 1)%nat).
  { rewrite Ha, assignments_app. reflexivity. }
  destruct (accepted _codes (api_result (next_reply (List.tl (api_replies w)))))
    as [[|] | e]; cbn [bind lift ret raise snd fst]; try exact Hw2.
  destruct (py_int (environ_get (WAZUH_WAIT_TIME environ) "30"))
    as [secs | e]; cbn [bind lift ret raise snd fst]; try exact Hw2.
  unfold bind, time_sleep.
  destruct (secs <? 0); cbn -[assignments actions]; [exact Hw2 |].
  destruct (max_sleep <? secs); cbn -[assignments actions]; [exact Hw2 |].
  rewrite actions_app, assignments_app, Hw2. cbn. lia.
Qed.

(** how the views read a well-formed reply *)
Lemma http_codes_serializer_known resp c dsc more :
  _codes c = Some (dsc :: more) ->
  http_codes_serializer _codes resp (Some c) = Ok (resp, Some c, dsc).
Proof.
  intros H. unfold http_codes_serializer, code_desc. now rewrite H.
Qed.

Lemma is_success_200 j e :
  getitem j "error" = Ok e -> is_success (Some 200) j = Ok (eq_int e 0).
Proof. intros H. unfold is_success. cbn. now rewrite H. Qed.

Lemma is_success_other c j : c <> 200 -> is_success (Some c) j = Ok false.
Proof.
  intros H. unfold is_success. apply Z.eqb_neq in H. now rewrite H.
Qed.

Lemma already_in_group_well_formed d resp j e groups group dsc more :
  _codes 200 = Some (dsc :: more) ->
  status_code resp = 200 ->
  json_body resp = Some j ->
  getitem j "error" = Ok e ->
  eq_int e 0 = true ->
  current_groups j = Ok groups ->
  already_in_group _codes (api_result (Answer d resp)) group =
  contains group groups.
Proof.
  intros Hc Hs Hj He H0 Hg.
  unfold api_result. rewrite Hj, Hs. unfold already_in_group.
  rewrite (http_codes_serializer_known _ _ _ _ Hc).
  rewrite (is_success_200 _ _ He), H0. now rewrite Hg.
Qed.

Lemma already_in_group_failed_status c j group dsc more :
  c <> 200 ->
  _codes c = Some (dsc :: more) ->
  already_in_group _codes (Some c, j) group = Ok false.
Proof.
  intros Hne Hc. unfold already_in_group.
  rewrite (http_codes_serializer_known _ _ _ _ Hc).
  now rewrite (is_success_other _ _ Hne).
Qed.

(** C5.  The membership fetch is answered with HTTP 200, [error] 0 and a
    first item whose groups can be read.  If the target group is among
    them, [add_agent_to_group] returns after that one request: no assignment
    request is sent.  If it is not, one invocation sends exactly one
    assignment request, whatever the answer to it; and when that answer is a
    success the call returns with exactly one assignment request sent. *)
Theorem add_agent_to_group_idempotent (id : json) (group : string)
    (w : World) (d : Z) (resp : response) (tl : list reply)
    (j e groups : json) (dsc : string) (more : list string) :
  _codes 200 = Some (dsc :: more) ->
  logins_ok 2 w ->
  api_replies w = Answer d resp :: tl ->
  status_code resp = 200 ->
  json_body resp = Some j ->
  getitem j "error" = Ok e ->
  eq_int e 0 = true ->
  current_groups j = Ok groups ->
  (contains group groups = Ok true ->
   forall fuel, exists w',
     add_agent_to_group _codes environ (S fuel) id group w = (Ret JNull, w') /\
     actions (trace w') = actions (trace w) ++ [Req GET (AgentsList id)] /\
     assignments (actions (trace w')) = assignments (actions (trace w)) /\
     api_replies w' = tl) /\
  (contains group groups = Ok false ->
   assignments (actions (trace (snd
       (add_agent_to_group _codes environ 1 id group w)))) =
   (assignments (actions (trace w)) + 1)%nat /\
   (accepted _codes (api_result (next_reply tl)) = Ok true ->
    forall fuel, exists v w',
      add_agent_to_group _codes environ (S fuel) id group w = (Ret v, w') /\
      actions (trace w') =
        actions (trace w) ++ [Req GET (AgentsList id);
                              Req PUT (AgentGroup id group)] /\
      assignments (actions (trace w')) =
        (assignments (actions (trace w)) + 1)%nat)).
Proof.
  intros Hc Hok Hq Hs Hj He H0 Hg.
  pose proof (already_in_group_well_formed d resp j e groups group dsc more
                Hc Hs Hj He H0 Hg) as Hview.
  split.
  - intros Hin fuel.
    destruct (add_agent_to_group_body_present
                (add_agent_to_group _codes environ fuel) id group 1 w Hok)
      as (w' & Hrun & Hq' & _ & Ha).
    { rewrite Hq. cbn [next_reply]. now rewrite Hview. }
    exists w'. split; [exact Hrun |]. split; [exact Ha |].
    split.
    + rewrite Ha, assignments_app. cbn. lia.
    + rewrite Hq'. now rewrite Hq.
  - intros Hout.
    assert (Hview' : already_in_group _codes
                       (api_result (next_reply (api_replies w))) group
                     = Ok false).
    { rewrite Hq. cbn [next_reply]. now rewrite Hview. }
    split.
    + apply add_agent_to_group_once; assumption.
    + intros Hacc fuel.
      destruct (add_agent_to_group_body_absent
                  (add_agent_to_group _codes environ fuel) id group 0 w
                  Hok Hview')
        as (w' & Hrun & _ & _ & Ha).
      rewrite Hq in Hrun. cbn [List.tl] in Hrun.
      rewrite (bind_lift_ok _ _ _ _ Hacc) in Hrun.
      eexists. exists w'. split; [exact Hrun |]. split; [exact Ha |].
      rewrite Ha, assignments_app. reflexivity.
Qed.

(** C10 at the failing input.  The membership fetch gets no response:
    [wazuh_api] returns [(None, {})], and [http_codes_serializer] raises
    [KeyError] on the status [None] before anything else is looked at.  The
    call ends there; no assignment request is sent. *)
Theorem add_agent_to_group_fetch_no_response (fuel : nat) (id : json)
    (group : string) (w : World) (d : Z) (tl : list reply) :
  logins_ok 1 w ->
  api_replies w = NoResponse d :: tl ->
  exists w',
    add_agent_to_group _codes environ (S fuel) id group w =
      (Raise (mkExn KeyError "None"), w') /\
    actions (trace w') = actions (trace w) ++ [Req GET (AgentsList id)] /\
    assignments (actions (trace w')) = assignments (actions (trace w)).
Proof.
  intros Hok Hq.
  destruct (add_agent_to_group_body_raises
              (add_agent_to_group _codes environ fuel) id group 0 w
              (mkExn KeyError "None") Hok)
    as (w' & Hrun & _ & _ & Ha).
  { now rewrite Hq. }
  exists w'. split; [exact Hrun |]. split; [exact Ha |].
  rewrite Ha, assignments_app. cbn. lia.
Qed.

(** *** The resolver *)

Lemma scan_items_app items1 items2 acc :
  scan_items (items1 ++ items2) acc =
  match scan_items items1 acc with
  | Ok t => scan_items items2 t
  | Err e => Err e
  end.
Proof.
  revert acc. induction items1 as [| it items1 IH]; intros acc; cbn.
  - reflexivity.
  - destruct (getitem it "name"); [| reflexivity].
    destruct (getitem it "status"); [| reflexivity].
    destruct (getitem it "id"); [| reflexivity].
    apply IH.
Qed.

Lemma scan_items_records items acc :
  Forall is_record items -> exists t, scan_items items acc = Ok t.
Proof.
  intros H. revert acc. induction H as [| it items Hit _ IH]; intros acc.
  - now exists acc.
  - destruct Hit as (n & s & i & Hn & Hs & Hi). cbn.
    rewrite Hn, Hs, Hi. apply IH.
Qed.

(** the last record wins *)
Lemma scan_items_last items last acc n s i :
  Forall is_record items ->
  getitem last "name" = Ok n ->
  getitem last "status" = Ok s ->
  getitem last "id" = Ok i ->
  scan_items (items ++ [last]) acc = Ok (n, s, i).
Proof.
  intros Hrec Hn Hs Hi.
  rewrite scan_items_app.
  destruct (scan_items_records items acc Hrec) as (t & ->).
  cbn. now rewrite Hn, Hs, Hi.
Qed.

(** X23.  With several records in [affected_items], all of them with
    the three fields, the resolver returns the name, status and id of the
    last one. *)
Lemma wazuh_agent_status_last_wins name w d resp tl j e items last n s i
    dsc more :
  _codes 200 = Some (dsc :: more) ->
  logins_ok 1 w ->
  api_replies w = Answer d resp :: tl ->
  status_code resp = 200 ->
  json_body resp = Some j ->
  getitem j "error" = Ok e ->
  eq_int e 0 = true ->
  affected_items j = Ok (JList (items ++ [last])) ->
  Forall is_record items ->
  getitem last "name" = Ok n ->
  getitem last "status" = Ok s ->
  getitem last "id" = Ok i ->
  exists w',
    wazuh_agent_status _codes environ name false w = (Ret (n, s, i), w').
Proof.
  intros Hc Hok Hq Hst Hj He H0 Hitems Hrec Hn Hs Hi.
  destruct (wazuh_agent_status_result 0 w name Hok) as (w' & Hrun & _).
  exists w'. rewrite Hrun, Hq. cbn [next_reply api_result].
  rewrite Hj, Hst. unfold resolved.
  rewrite (http_codes_serializer_known _ _ _ _ Hc).
  rewrite (is_success_200 _ _ He), H0, Hitems. cbn [iter].
  now rewrite (scan_items_last items last _ n s i Hrec Hn Hs Hi).
Qed.

(** C4 at the failing input.  The agent-list query gets no response:
    [wazuh_api] returns [(None, {})], and [wazuh_agent_status] raises
    [KeyError] in [http_codes_serializer] instead of returning the all-null
    triple. *)
Theorem wazuh_agent_status_no_response (name : option string) (w : World)
    (d : Z) (tl : list reply) :
  logins_ok 1 w ->
  api_replies w = NoResponse d :: tl ->
  exists w',
    wazuh_agent_status _codes environ name false w =
      (Raise (mkExn KeyError "None"), w') /\
    api_replies w' = tl.
Proof.
  intros Hok Hq.
  destruct (wazuh_agent_status_result 0 w name Hok) as (w' & Hrun & Hq' & _).
  exists w'. split.
  - rewrite Hrun, Hq. reflexivity.
  - rewrite Hq', Hq. reflexivity.
Qed.

(** *** Finding or creating the agent *)

Lemma add_agent_unfold name w :
  add_agent _codes environ name None w =
  (r <- wazuh_api environ "post" AgentsInsert (Some (insert_payload name)) ;;
   lift (created _codes r)) w.
Proof.
  unfold add_agent. cbn [opt_json truthy]. apply bind_ext.
  intros [sc resp] w1. unfold created.
  destruct (http_codes_serializer _codes resp sc); cbn; [| reflexivity].
  destruct (match sc with Some c => c =? 400 | None => false end);
    [reflexivity |].
  destruct (is_success sc resp) as [[|] |]; cbn; try reflexivity.
  destruct (getitem resp "data") as [data |]; cbn; [| reflexivity].
  destruct (getitem data "id"); cbn; [| reflexivity].
  destruct (getitem data "key"); cbn; reflexivity.
Qed.

Lemma add_agent_result k w name :
  logins_ok (S k) w ->
  exists w',
    add_agent _codes environ name None w =
      (lift (created _codes (api_result (next_reply (api_replies w))))) w' /\
    api_replies w' = List.tl (api_replies w) /\
    logins_ok k w' /\
    actions (trace w') = actions (trace w) ++ [Req POST AgentsInsert].
Proof.
  intros Hok.
  destruct (wazuh_api_result environ k w "post" AgentsInsert
              (Some (insert_payload name)) Hok)
    as (w' & Hcall & Hq & Hok' & Ha).
  exists w'. rewrite add_agent_unfold.
  rewrite (bind_ret_eq _ _ _ _ _ Hcall). auto.
Qed.

(** with no agent id from the resolution, [obtain_key] goes on to
    [add_agent] and ends right after it *)
Lemma obtain_key_create k w n s :
  logins_ok (S (S k)) w ->
  resolved _codes (api_result (next_reply (api_replies w))) = Ok (n, s, JNull) ->
  exists out w',
    obtain_key _codes environ w = (out, w') /\
    actions (trace w') =
      actions (trace w) ++ [Req GET (AgentsByName (node_name environ));
                            Req POST AgentsInsert] /\
    (created _codes (api_result (next_reply (List.tl (api_replies w))))
       = Ok None ->
     out = Raise (mkExn TypeError "cannot unpack non-iterable NoneType object")).
Proof.
  intros Hok Hres.
  destruct (wazuh_agent_status_result (S k) w (node_name environ) Hok)
    as (w1 & Hrun & Hq1 & Hok1 & Ha1).
  rewrite Hres in Hrun. cbn [lift] in Hrun.
  destruct (add_agent_result k w1 (node_name environ) Hok1)
    as (w2 & Hadd & Hq2 & Hok2 & Ha2).
  rewrite Hq1 in Hadd.
  assert (Ha : actions (trace w2) =
               actions (trace w) ++ [Req GET (AgentsByName (node_name environ));
                                     Req POST AgentsInsert]).
  { rewrite Ha2, Ha1, <- app_assoc. reflexivity. }
  unfold obtain_key.
  rewrite (bind_ret_eq _ _ _ _ _ Hrun). cbn [is_None].
  unfold bind. rewrite Hadd.
  destruct (created _codes (api_result (next_reply (List.tl (api_replies w)))))
    as [[[i key] |] | e]; cbn.
  - destruct (is_None key); cbn; do 2 eexists;
      (split; [reflexivity |]); (split; [exact Ha | discriminate]).
  - do 2 eexists. split; [reflexivity |]. split; [exact Ha | reflexivity].
  - do 2 eexists. split; [reflexivity |]. split; [exact Ha | discriminate].
Qed.

Lemma resolved_no_items d resp j e dsc more :
  _codes 200 = Some (dsc :: more) ->
  status_code resp = 200 ->
  json_body resp = Some j ->
  getitem j "error" = Ok e ->
  eq_int e 0 = true ->
  affected_items j = Ok (JList []) ->
  resolved _codes (api_result (Answer d resp)) = Ok (JNull, JNull, JNull).
Proof.
  intros Hc Hst Hj He H0 Hitems.
  unfold api_result. rewrite Hj, Hst. unfold resolved.
  rewrite (http_codes_serializer_known _ _ _ _ Hc).
  now rewrite (is_success_200 _ _ He), H0, Hitems.
Qed.

Lemma resolved_failed_status d resp j dsc more :
  status_code resp <> 200 ->
  _codes (status_code resp) = Some (dsc :: more) ->
  json_body resp = Some j ->
  resolved _codes (api_result (Answer d resp)) = Ok (JNull, JNull, JNull).
Proof.
  intros Hne Hc Hj.
  unfold api_result. rewrite Hj. unfold resolved.
  rewrite (http_codes_serializer_known _ _ _ _ Hc).
  now rewrite (is_success_other _ _ Hne).
Qed.

(** C9.  The agent-list query is answered with HTTP 200, [error] 0 and an
    empty [affected_items]: [wazuh_agent_status] returns the all-null
    triple.  A lookup that failed with another known HTTP status returns the
    same value.  In the script the null id leads to [add_agent]: the request
    that follows the resolution is the insert. *)
Theorem wazuh_agent_status_absent_agent (w : World) (d : Z)
    (resp : response) (tl : list reply) (j e : json) (dsc : string)
    (more : list string) :
  _codes 200 = Some (dsc :: more) ->
  logins_ok 2 w ->
  api_replies w = Answer d resp :: tl ->
  status_code resp = 200 ->
  json_body resp = Some j ->
  getitem j "error" = Ok e ->
  eq_int e 0 = true ->
  affected_items j = Ok (JList []) ->
  (exists w',
     wazuh_agent_status _codes environ (node_name environ) false w =
       (Ret (JNull, JNull, JNull), w')) /\
  (forall w2 d2 resp2 tl2 j2 dsc2 more2,
     logins_ok 1 w2 ->
     api_replies w2 = Answer d2 resp2 :: tl2 ->
     status_code resp2 <> 200 ->
     _codes (status_code resp2) = Some (dsc2 :: more2) ->
     json_body resp2 = Some j2 ->
     fst (wazuh_agent_status _codes environ (node_name environ) false w2) =
     fst (wazuh_agent_status _codes environ (node_name environ) false w)) /\
  (exists out w',
     obtain_key _codes environ w = (out, w') /\
     actions (trace w') =
       actions (trace w) ++ [Req GET (AgentsByName (node_name environ));
                             Req POST AgentsInsert]).
Proof.
  intros Hc Hok Hq Hst Hj He H0 Hitems.
  pose proof (resolved_no_items d resp j e dsc more Hc Hst Hj He H0 Hitems)
    as Hres.
  assert (Hrun : exists w',
     wazuh_agent_status _codes environ (node_name environ) false w =
       (Ret (JNull, JNull, JNull), w')).
  { destruct (wazuh_agent_status_result 1 w (node_name environ) Hok)
      as (w' & Hrun & _).
    exists w'. rewrite Hrun, Hq. cbn [next_reply]. now rewrite Hres. }
  split; [exact Hrun |]. split.
  - intros w2 d2 resp2 tl2 j2 dsc2 more2 Hok2 Hq2 Hne Hc2 Hj2.
    destruct Hrun as (w' & ->).
    destruct (wazuh_agent_status_result 0 w2 (node_name environ) Hok2)
      as (w2' & Hrun2 & _).
    rewrite Hrun2, Hq2. cbn [next_reply].
    now rewrite (resolved_failed_status d2 resp2 j2 dsc2 more2 Hne Hc2 Hj2).
  - destruct (obtain_key_create 0 w JNull JNull Hok) as (out & w' & H & Ha & _).
    { rewrite Hq. cbn [next_reply]. exact Hres. }
    now exists out, w'.
Qed.

(** C1 at the failing input.  The resolution finds no agent id and the
    insert is answered with HTTP 400: [add_agent] returns [None], and the
    script stops at the unpacking of that value with a [TypeError], which is
    not a [ValueError].  Nothing is imported or restarted and the polling
    loop is not entered. *)
Theorem main_insert_400 (fuel : nat) (w : World) (rp : reply) (d : Z)
    (resp : response) (tl : list reply) (j n s : json) (dsc : string)
    (more : list string) :
  _codes 400 = Some (dsc :: more) ->
  logins_ok 2 w ->
  api_replies w = rp :: Answer d resp :: tl ->
  resolved _codes (api_result rp) = Ok (n, s, JNull) ->
  status_code resp = 400 ->
  json_body resp = Some j ->
  exists e w',
    main _codes environ fuel w = (Raise e, w') /\
    exn_kind e = TypeError /\
    is_ValueError e = false /\
    actions (trace w') =
      actions (trace w) ++ [Config;
                            Req GET (AgentsByName (node_name environ));
                            Req POST AgentsInsert].
Proof.
  intros Hc Hok Hq Hres Hst Hj.
  set (w0 := mkWorld (cached_token w) (token_expiration w) (now w)
                     (login_replies w) (api_replies w) (trace w ++ [EvConfig])).
  assert (Hok0 : logins_ok 2 w0) by exact Hok.
  destruct (obtain_key_create 0 w0 n s Hok0) as (out & w' & Hrun & Ha & Hout).
  { unfold w0. cbn [api_replies]. rewrite Hq. exact Hres. }
  rewrite Hout in Hrun.
  - exists (mkExn TypeError "cannot unpack non-iterable NoneType object"), w'.
    split.
    + unfold main, create_config_file.
      unfold bind at 1. cbn [emit]. fold w0.
      now rewrite (bind_raise_eq _ _ _ _ _ Hrun).
    + split; [reflexivity |]. split; [reflexivity |].
      rewrite Ha. unfold w0. cbn [trace].
      rewrite actions_app, <- app_assoc. reflexivity.
  - unfold w0. cbn [api_replies]. rewrite Hq. cbn [List.tl next_reply api_result].
    rewrite Hj, Hst. unfold created.
    now rewrite (http_codes_serializer_known _ _ _ _ Hc).
Qed.

(** *** The retries of the group assignment *)

Lemma add_agent_to_group_body_retry self id group k w secs :
  logins_ok (S (S k)) w ->
  already_in_group _codes (api_result (next_reply (api_replies w))) group
    = Ok false ->
  accepted _codes (api_result (next_reply (List.tl (api_replies w))))
    = Ok false ->
  py_int (environ_get (WAZUH_WAIT_TIME environ) "30") = Ok secs ->
  (0 <= secs <= long_sleep) ->
  exists w',
    add_agent_to_group_body _codes environ self id group w =
      (self id group ;;; ret JNull) w' /\
    api_replies w' = List.tl (List.tl (api_replies w)) /\
    logins_ok k w' /\
    actions (trace w') =
      actions (trace w) ++ [Req GET (AgentsList id);
                            Req PUT (AgentGroup id group);
                            Sleep secs].
Proof.
  intros Hok Hin Hacc Hint Hsecs.
  destruct (add_agent_to_group_body_absent self id group k w Hok Hin)
    as (w2 & Hrun & Hq2 & Hok2 & Ha2).
  destruct (time_sleep_ok secs w2 Hsecs) as (w3 & Hsleep & Hq3 & Hl3 & Ha3).
  exists w3. split.
  - rewrite Hrun, (bind_lift_ok _ _ _ _ Hacc), (bind_lift_ok _ _ _ _ Hint).
    now rewrite (bind_ret_eq _ _ _ _ _ Hsleep).
  - split; [now rewrite Hq3 |].
    split; [exact (logins_ok_same _ _ _ Hl3 Hok2) |].
    rewrite Ha3, Ha2, <- app_assoc. reflexivity.
Qed.

Lemma add_agent_to_group_body_accepted self id group k w :
  logins_ok (S (S k)) w ->
  already_in_group _codes (api_result (next_reply (api_replies w))) group
    = Ok false ->
  accepted _codes (api_result (next_reply (List.tl (api_replies w))))
    = Ok true ->
  exists v w',
    add_agent_to_group_body _codes environ self id group w = (Ret v, w') /\
    api_replies w' = List.tl (List.tl (api_replies w)) /\
    logins_ok k w' /\
    actions (trace w') =
      actions (trace w) ++ [Req GET (AgentsList id);
                            Req PUT (AgentGroup id group)].
Proof.
  intros Hok Hin Hacc.
  destruct (add_agent_to_group_body_absent self id group k w Hok Hin)
    as (w2 & Hrun & Hrest).
  rewrite (bind_lift_ok _ _ _ _ Hacc) in Hrun.
  eexists. exists w2. split; [exact Hrun | exact Hrest].
Qed.

Lemma accepted_failed_status d resp j dsc more :
  status_code resp <> 200 ->
  _codes (status_code resp) = Some (dsc :: more) ->
  json_body resp = Some j ->
  accepted _codes (api_result (Answer d resp)) = Ok false.
Proof.
  intros Hne Hc Hj. unfold api_result. rewrite Hj. unfold accepted.
  rewrite (http_codes_serializer_known _ _ _ _ Hc).
  now apply is_success_other.
Qed.

Lemma accepted_application_error d resp j e dsc more :
  _codes 200 = Some (dsc :: more) ->
  status_code resp = 200 ->
  json_body resp = Some j ->
  getitem j "error" = Ok e ->
  accepted _codes (api_result (Answer d resp)) = Ok (eq_int e 0).
Proof.
  intros Hc Hst Hj He. unfold api_result. rewrite Hj, Hst. unfold accepted.
  rewrite (http_codes_serializer_known _ _ _ _ Hc).
  now apply is_success_200.
Qed.

Lemma known_serializer resp c :
  known _codes c = true ->
  exists dsc, http_codes_serializer _codes resp (Some c) = Ok (resp, Some c, dsc).
Proof.
  unfold known, http_codes_serializer, code_desc.
  destruct (_codes c) as [[| dsc more] |]; try discriminate.
  intros _. now exists dsc.
Qed.

Lemma non_success_response_accepted rp :
  non_success_response _codes rp = true ->
  accepted _codes (api_result rp) = Ok false.
Proof.
  destruct rp as [d | d resp]; cbn; [discriminate |].
  destruct (json_body resp) as [j |]; [| discriminate].
  intros H. apply andb_true_iff in H as [Hk H].
  destruct (known_serializer j _ Hk) as (dsc & Hser).
  unfold accepted. rewrite Hser. unfold is_success.
  destruct (status_code resp =? 200); [| reflexivity].
  cbn in H. destruct (getitem j "error") as [e |]; [| discriminate].
  now destruct (eq_int e 0).
Qed.

Lemma success_response_accepted rp :
  success_response _codes rp = true ->
  accepted _codes (api_result rp) = Ok true.
Proof.
  destruct rp as [d | d resp]; cbn; [discriminate |].
  destruct (json_body resp) as [j |]; [| discriminate].
  intros H. apply andb_true_iff in H as [H He].
  apply andb_true_iff in H as [Hk Hc].
  destruct (known_serializer j _ Hk) as (dsc & Hser).
  unfold accepted. rewrite Hser. unfold is_success. rewrite Hc.
  destruct (getitem j "error") as [e |]; [| discriminate].
  now rewrite He.
Qed.

(** what the views make of an assignment that is answered with
    something other than a JSON body *)
Lemma accepted_no_body rp :
  (exists d, rp = NoResponse d) \/
  (exists d resp, rp = Answer d resp /\ json_body resp = None) ->
  accepted _codes (api_result rp) = Err (mkExn KeyError "None").
Proof.
  intros [(d & ->) | (d & resp & -> & Hj)]; cbn; [reflexivity |].
  now rewrite Hj.
Qed.

(** C6 at the failing input.  The membership fetch does not find the
    group, and the assignment is answered with a response that has no JSON
    body (the error page of a gateway) or with no response at all, so it did
    not succeed; the claim has the call sleep and try again.
    [wazuh_api] hands [(None, {})] to [add_agent_to_group], which formats
    the status for its log line before it tests it: the call ends with
    [KeyError] right after the request.  It has not slept, it has sent the
    assignment once, and the replies that follow (the attempt that would
    have succeeded) are never asked for. *)
Theorem add_agent_to_group_retry_lost (fuel : nat) (id : json)
    (group : string) (w : World) (g p : reply) (rest : list reply) :
  already_in_group _codes (api_result g) group = Ok false ->
  (exists d, p = NoResponse d) \/
  (exists d resp, p = Answer d resp /\ json_body resp = None) ->
  api_replies w = g :: p :: rest ->
  logins_ok 2 w ->
  exists w',
    add_agent_to_group _codes environ (S fuel) id group w =
      (Raise (mkExn KeyError "None"), w') /\
    actions (trace w') =
      actions (trace w) ++ [Req GET (AgentsList id);
                            Req PUT (AgentGroup id group)] /\
    sleeps (actions (trace w')) = sleeps (actions (trace w)) /\
    assignments (actions (trace w')) =
      (assignments (actions (trace w)) + 1)%nat /\
    api_replies w' = rest.
Proof.
  intros Hg Hp Hq Hok.
  destruct (add_agent_to_group_body_absent
              (add_agent_to_group _codes environ fuel) id group 0 w Hok)
    as (w' & Hrun & Hq' & _ & Ha).
  { now rewrite Hq. }
  rewrite Hq in Hrun, Hq'. cbn [List.tl next_reply] in Hrun, Hq'.
  rewrite (bind_lift_err _ _ _ _ (accepted_no_body p Hp)) in Hrun.
  exists w'. split; [exact Hrun |]. split; [exact Ha |].
  split; [| split; [| exact Hq']].
  - rewrite Ha. unfold sleeps. rewrite flat_map_app. cbn. apply app_nil_r.
  - rewrite Ha, assignments_app. reflexivity.
Qed.

(** *** The polling loop *)

Lemma observed_status_resolved rp s :
  observed_status _codes rp = Some s ->
  exists n i, resolved _codes (api_result rp) = Ok (n, s, i).
Proof.
  unfold observed_status.
  destruct (resolved _codes (api_result rp)) as [[[n s'] i] | e];
    [| discriminate].
  intros H; injection H as <-. now exists n, i.
Qed.

Lemma poll_until_active_pending fuel k w s secs :
  logins_ok (S k) w ->
  observed_status _codes (next_reply (api_replies w)) = Some s ->
  eq_str s "active" = false ->
  py_int (environ_get (WAZUH_WAIT_TIME environ) "10") = Ok secs ->
  (0 <= secs <= long_sleep) ->
  exists w',
    poll_until_active _codes environ (S fuel) w =
      poll_until_active _codes environ fuel w' /\
    api_replies w' = List.tl (api_replies w) /\
    logins_ok k w' /\
    actions (trace w') =
      actions (trace w) ++ [Req GET (AgentsByName (node_name environ));
                            Sleep secs].
Proof.
  intros Hok Hobs Hs Hint Hsecs.
  destruct (observed_status_resolved _ _ Hobs) as (n & i & Hres).
  destruct (wazuh_agent_status_result k w (node_name environ) Hok)
    as (w1 & Hrun & Hq1 & Hok1 & Ha1).
  rewrite Hres in Hrun. cbn [lift] in Hrun.
  destruct (time_sleep_ok secs w1 Hsecs) as (w2 & Hsleep & Hq2 & Hl2 & Ha2).
  exists w2. split.
  - cbn [poll_until_active].
    rewrite (bind_ret_eq _ _ _ _ _ Hrun). rewrite Hs.
    rewrite (bind_lift_ok _ _ _ _ Hint).
    now rewrite (bind_ret_eq _ _ _ _ _ Hsleep).
  - split; [now rewrite Hq2 |].
    split; [exact (logins_ok_same _ _ _ Hl2 Hok1) |].
    rewrite Ha2, Ha1, <- app_assoc. reflexivity.
Qed.

Lemma poll_until_active_active fuel k w :
  logins_ok (S k) w ->
  observed_status _codes (next_reply (api_replies w)) = Some (JStr "active") ->
  exists r w',
    poll_until_active _codes environ (S fuel) w = (Ret r, w') /\
    snd (fst r) = JStr "active" /\
    api_replies w' = List.tl (api_replies w) /\
    actions (trace w') =
      actions (trace w) ++ [Req GET (AgentsByName (node_name environ))].
Proof.
  intros Hok Hobs.
  destruct (observed_status_resolved _ _ Hobs) as (n & i & Hres).
  destruct (wazuh_agent_status_result k w (node_name environ) Hok)
    as (w1 & Hrun & Hq1 & Hok1 & Ha1).
  rewrite Hres in Hrun. cbn [lift] in Hrun.
  exists (n, JStr "active", i), w1. split.
  - cbn [poll_until_active].
    now rewrite (bind_ret_eq _ _ _ _ _ Hrun).
  - auto.
Qed.

Lemma poll_until_active_eventually pending :
  forall last rest w secs,
  py_int (environ_get (WAZUH_WAIT_TIME environ) "10") = Ok secs ->
  (0 <= secs <= long_sleep) ->
  Forall (not_yet_active _codes) pending ->
  observed_status _codes last = Some (JStr "active") ->
  api_replies w = pending ++ last :: rest ->
  logins_ok (S (List.length pending)) w ->
  forall fuel, (List.length pending < fuel)%nat ->
  exists r w',
    poll_until_active _codes environ fuel w = (Ret r, w') /\
    snd (fst r) = JStr "active" /\
    actions (trace w') =
      actions (trace w) ++
      poll_actions (node_name environ) secs (List.length pending) /\
    api_replies w' = rest.
Proof.
  induction pending as [| rp pending IH];
    intros last rest w secs Hint Hsecs Hpend Hlast Hq Hok fuel Hfuel.
  - destruct fuel as [| fuel]; [cbn in Hfuel; lia |].
    cbn [app] in Hq.
    destruct (poll_until_active_active fuel 0 w Hok)
      as (r & w' & Hrun & Hr & Hq' & Ha).
    { now rewrite Hq. }
    exists r, w'. repeat split; try assumption.
    now rewrite Hq', Hq.
  - destruct fuel as [| fuel]; [cbn in Hfuel; lia |].
    cbn [List.length] in Hfuel, Hok.
    inversion Hpend as [| ? ? (s & Hobs & Hs) Hpend']; subst.
    cbn [app] in Hq.
    destruct (poll_until_active_pending fuel (S (List.length pending)) w s secs)
      as (w2 & Hrun & Hq2 & Hok2 & Ha2); try assumption.
    { now rewrite Hq. }
    rewrite Hq in Hq2. cbn [List.tl] in Hq2.
    destruct (IH last rest w2 secs Hint Hsecs Hpend' Hlast Hq2 Hok2 fuel)
      as (r & w' & Hrec & Hr & Ha & Hrest); [lia |].
    exists r, w'. split; [now rewrite Hrun |].
    split; [exact Hr |]. split; [| exact Hrest].
    rewrite Ha, Ha2, <- app_assoc. reflexivity.
Qed.

Lemma poll_until_active_keeps_polling pending :
  forall tail w secs,
  py_int (environ_get (WAZUH_WAIT_TIME environ) "10") = Ok secs ->
  (0 <= secs <= long_sleep) ->
  Forall (not_yet_active _codes) pending ->
  api_replies w = pending ++ tail ->
  logins_ok (List.length pending) w ->
  forall fuel, (fuel <= List.length pending)%nat ->
  fst (poll_until_active _codes environ fuel w) = Diverge.
Proof.
  induction pending as [| rp pending IH];
    intros tail w secs Hint Hsecs Hpend Hq Hok fuel Hfuel.
  - cbn in Hfuel. assert (fuel = 0%nat) as -> by lia. reflexivity.
  - destruct fuel as [| fuel]; [reflexivity |].
    cbn [List.length] in Hfuel, Hok.
    inversion Hpend as [| ? ? (s & Hobs & Hs) Hpend']; subst.
    cbn [app] in Hq.
    destruct (poll_until_active_pending fuel (List.length pending) w s secs)
      as (w2 & Hrun & Hq2 & Hok2 & Ha2); try assumption.
    { now rewrite Hq. }
    rewrite Hq in Hq2. cbn [List.tl] in Hq2.
    rewrite Hrun.
    apply (IH tail w2 secs Hint Hsecs Hpend' Hq2 Hok2). lia.
Qed.

(** C7.  The replies to the first [n] resolutions ([pending], of any
    length) carry a status other than [active], the next one carries
    [active]; the configured interval reads as a number [secs] of seconds
    that [time.sleep] takes, from 0 to [long_sleep].  The loop makes one
    resolution per iteration and sleeps [secs] after each one that is not
    [active]; it leaves after exactly [n + 1] resolutions, and not before:
    cut off after [n] or fewer iterations it is still running.  There is no
    bound on [n]. *)
Theorem poll_until_active_exits (pending : list reply) (last : reply)
    (rest : list reply) (w : World) (secs : Z) :
  py_int (environ_get (WAZUH_WAIT_TIME environ) "10") = Ok secs ->
  (0 <= secs <= long_sleep) ->
  Forall (not_yet_active _codes) pending ->
  observed_status _codes last = Some (JStr "active") ->
  api_replies w = pending ++ last :: rest ->
  logins_ok (S (List.length pending)) w ->
  (forall fuel, (List.length pending < fuel)%nat ->
   exists r w',
     poll_until_active _codes environ fuel w = (Ret r, w') /\
     snd (fst r) = JStr "active" /\
     actions (trace w') =
       actions (trace w) ++
       poll_actions (node_name environ) secs (List.length pending) /\
     api_replies w' = rest) /\
  (forall fuel, (fuel <= List.length pending)%nat ->
   fst (poll_until_active _codes environ fuel w) = Diverge).
Proof.
  intros Hint Hsecs Hpend Hlast Hq Hok. split.
  - now apply (poll_until_active_eventually pending last rest w secs).
  - intros fuel Hfuel.
    apply (poll_until_active_keeps_polling pending (last :: rest) w secs
             Hint Hsecs Hpend Hq); [| exact Hfuel].
    now apply logins_ok_weaken.
Qed.

End EnrollmentFacts.

(** ** The theorems at sample inputs *)

Lemma add_agent_to_group_idempotent_witness :
  (exists w',
     add_agent_to_group Sample._codes Sample.environ 1 (JStr "001") "web"
       (Sample.fresh 2 [Sample.member_of ["default"; "web"]]) = (Ret JNull, w') /\
     actions (trace w') = [Req GET (AgentsList (JStr "001"))]) /\
  assignments (actions (trace (snd
    (add_agent_to_group Sample._codes Sample.environ 1 (JStr "001") "db"
       (Sample.fresh 2 [Sample.member_of ["default"; "web"]]))))) = 1%nat.
Proof.
  assert (Hok : logins_ok 2 (Sample.fresh 2 [Sample.member_of ["default"; "web"]])).
  { split; [reflexivity | cbn; lia]. }
  split.
  - destruct (proj1 (add_agent_to_group_idempotent Sample._codes Sample.environ
                (JStr "001") "web"
                (Sample.fresh 2 [Sample.member_of ["default"; "web"]])
                1 (mkResponse 200 "" (Some (Sample.items_body
                     [Sample.agent "n1" "active" "001" ["default"; "web"]])))
                [] (Sample.items_body
                     [Sample.agent "n1" "active" "001" ["default"; "web"]])
                (JInt 0) (JList [JStr "default"; JStr "web"])
                "ok" ["okay"; "all_ok"]
                eq_refl Hok eq_refl eq_refl eq_refl eq_refl eq_refl eq_refl)
              eq_refl 0%nat) as (w' & Hrun & Ha & _).
    exists w'. split; [exact Hrun | exact Ha].
  - exact (proj1 (proj2 (add_agent_to_group_idempotent Sample._codes
                Sample.environ (JStr "001") "db"
                (Sample.fresh 2 [Sample.member_of ["default"; "web"]])
                1 (mkResponse 200 "" (Some (Sample.items_body
                     [Sample.agent "n1" "active" "001" ["default"; "web"]])))
                [] (Sample.items_body
                     [Sample.agent "n1" "active" "001" ["default"; "web"]])
                (JInt 0) (JList [JStr "default"; JStr "web"])
                "ok" ["okay"; "all_ok"]
                eq_refl Hok eq_refl eq_refl eq_refl eq_refl eq_refl eq_refl)
              eq_refl)).
Defined.

Lemma add_agent_to_group_retry_lost_witness :
  exists w',
    add_agent_to_group Sample._codes Sample.environ 2 (JStr "001") "web"
      (Sample.fresh 4 [Sample.member_of ["default"]; Sample.bad_gateway;
                       Sample.member_of ["default"]; Sample.assign_ok])
    = (Raise (mkExn KeyError "None"), w') /\
    actions (trace w') =
      [Req GET (AgentsList (JStr "001"));
       Req PUT (AgentGroup (JStr "001") "web")] /\
    api_replies w' = [Sample.member_of ["default"]; Sample.assign_ok].
Proof.
  destruct (add_agent_to_group_retry_lost Sample._codes Sample.environ
              1 (JStr "001") "web"
              (Sample.fresh 4 [Sample.member_of ["default"];
                               Sample.bad_gateway;
                               Sample.member_of ["default"];
                               Sample.assign_ok])
              (Sample.member_of ["default"]) Sample.bad_gateway
              [Sample.member_of ["default"]; Sample.assign_ok]
              eq_refl
              (or_intror (ex_intro _ 1 (ex_intro _
                 (mkResponse 502 "<html>502 Bad Gateway</html>" None)
                 (conj eq_refl eq_refl))))
              eq_refl
              (conj eq_refl (le_S _ _ (le_S _ _ (le_n 2)))))
    as (w' & Hrun & Ha & _ & _ & Hrest).
  exists w'. split; [exact Hrun |]. split; [exact Ha | exact Hrest].
Defined.

Lemma poll_until_active_exits_witness :
  exists r w',
    poll_until_active Sample._codes Sample.environ 3
      (Sample.fresh 3 [Sample.reports "pending"; Sample.reports "pending";
                       Sample.reports "active"])
    = (Ret r, w') /\
    actions (trace w') =
      [Req GET (AgentsByName (Some "n1")); Sleep 10;
       Req GET (AgentsByName (Some "n1")); Sleep 10;
       Req GET (AgentsByName (Some "n1"))].
Proof.
  destruct (poll_until_active_exits Sample._codes Sample.environ
              [Sample.reports "pending"; Sample.reports "pending"]
              (Sample.reports "active") []
              (Sample.fresh 3 [Sample.reports "pending";
                               Sample.reports "pending";
                               Sample.reports "active"]) 10) as [Hrun _].
  - reflexivity.
  - unfold long_sleep; lia.
  - repeat constructor; exists (JStr "pending"); split; reflexivity.
  - reflexivity.
  - reflexivity.
  - split; [reflexivity | cbn; lia].
  - destruct (Hrun 3%nat) as (r & w' & H & _ & Ha & _); [cbn; lia |].
    exists r, w'. split; [exact H | exact Ha].
Defined.

Lemma wazuh_agent_status_absent_agent_witness :
  exists out w',
    obtain_key Sample._codes Sample.environ
      (Sample.fresh 2 [Sample.absent; Sample.insert_400]) = (out, w') /\
    actions (trace w') =
      [Req GET (AgentsByName (Some "n1")); Req POST AgentsInsert].
Proof.
  destruct (wazuh_agent_status_absent_agent Sample._codes Sample.environ
              (Sample.fresh 2 [Sample.absent; Sample.insert_400])
              1 (mkResponse 200 "" (Some (Sample.items_body [])))
              [Sample.insert_400] (Sample.items_body []) (JInt 0)
              "ok" ["okay"; "all_ok"]) as (_ & _ & H);
    try reflexivity.
  - split; [reflexivity | cbn; lia].
  - exact H.
Defined.

Lemma main_insert_400_witness :
  exists e w',
    main Sample._codes Sample.environ 3
      (Sample.fresh 2 [Sample.absent; Sample.insert_400]) = (Raise e, w') /\
    exn_kind e = TypeError /\
    is_ValueError e = false /\
    actions (trace w') =
      [Config; Req GET (AgentsByName (Some "n1")); Req POST AgentsInsert].
Proof.
  apply (main_insert_400 Sample._codes Sample.environ 3
           (Sample.fresh 2 [Sample.absent; Sample.insert_400])
           Sample.absent 1 (mkResponse 400 "" (Some (JObj [("error", JInt 1)])))
           [] (JObj [("error", JInt 1)]) JNull JNull
           "bad_request" ["bad"]);
    try reflexivity.
  split; [reflexivity | cbn; lia].
Defined.

Lemma wazuh_agent_status_no_response_witness :
  exists w',
    wazuh_agent_status Sample._codes Sample.environ (Some "n1") false
      (Sample.fresh 1 [NoResponse 5]) = (Raise (mkExn KeyError "None"), w') /\
    api_replies w' = [].
Proof.
  apply (wazuh_agent_status_no_response Sample._codes Sample.environ
           (Some "n1") (Sample.fresh 1 [NoResponse 5]) 5 []).
  - split; [reflexivity | cbn; lia].
  - reflexivity.
Defined.

Lemma add_agent_to_group_fetch_no_response_witness :
  exists w',
    add_agent_to_group Sample._codes Sample.environ 1 (JStr "001") "web"
      (Sample.fresh 1 [NoResponse 5; Sample.assign_ok])
    = (Raise (mkExn KeyError "None"), w') /\
    actions (trace w') = [Req GET (AgentsList (JStr "001"))] /\
    assignments (actions (trace w')) = 0%nat.
Proof.
  apply (add_agent_to_group_fetch_no_response Sample._codes Sample.environ
           0 (JStr "001") "web"
           (Sample.fresh 1 [NoResponse 5; Sample.assign_ok]) 5
           [Sample.assign_ok]).
  - split; [reflexivity | cbn; lia].
  - reflexivity.
Defined.

(** * Further properties *)

(** ** The token across calls *)

Section TokenAcrossCalls.

Variable environ : Environ.

(** a renewal makes exactly one login call, whatever comes back *)
Lemma get_auth_token_renew_trace w :
  token_usable w = false ->
  exists out w',
    get_auth_token environ w = (out, w') /\
    trace w' = trace w ++ [EvLogin (login_url environ) (auth environ)] /\
    api_replies w' = api_replies w.
Proof.
  intros Hu. rewrite (get_auth_token_renew environ w Hu).
  unfold requests_login, bind, emit, next_login_reply, response_json; cbn.
  destruct (login_replies w) as [| [d0 | d0 resp0] tl0]; cbn;
    try (do 2 eexists; split; [reflexivity |]; split; reflexivity).
  destruct (status_code resp0 =? 200);
    [| do 2 eexists; split; [reflexivity |]; split; reflexivity].
  destruct (json_body resp0) as [j0 |]; cbn;
    [| do 2 eexists; split; [reflexivity |]; split; reflexivity].
  destruct (getitem j0 "data") as [data0 | e0]; cbn;
    [| do 2 eexists; split; [reflexivity |]; split; reflexivity].
  destruct (getitem data0 "token") as [tk0 | e1]; cbn;
    do 2 eexists; (split; [reflexivity |]); split; reflexivity.
Qed.

(** a renewal that is answered with HTTP 200 and a token *)
Lemma get_auth_token_renewed w d resp tl j dat tk :
  token_usable w = false ->
  login_replies w = Answer d resp :: tl ->
  status_code resp = 200 ->
  json_body resp = Some j ->
  getitem j "data" = Ok dat ->
  getitem dat "token" = Ok tk ->
  get_auth_token environ w =
  (Ret tk,
   mkWorld tk (now w + d + 300) (now w + d) tl (api_replies w)
           (trace w ++ [EvLogin (login_url environ) (auth environ)])).
Proof.
  intros Hu Hq Hc Hj Hd Htk.
  rewrite (get_auth_token_renew environ w Hu).
  unfold requests_login, bind, emit, next_login_reply, response_json; cbn.
  rewrite Hq; cbn. rewrite Hc, Hj; cbn. rewrite Hd; cbn. now rewrite Htk.
Qed.

(** the request of [wazuh_api], once the token is there *)
Lemma wazuh_api_with_token method r data w tok w1 :
  get_auth_token environ w = (Ret tok, w1) ->
  wazuh_api environ method r data w =
  (Ret (api_result (next_reply (api_replies w1))),
   mkWorld (cached_token w1) (token_expiration w1)
           (now w1 + match next_reply (api_replies w1) with
                     | NoResponse d => d
                     | Answer d _ => d
                     end)
           (login_replies w1) (List.tl (api_replies w1))
           (trace w1 ++ [EvRequest (verb_of method) (base_url environ) r tok
                                   data])).
Proof.
  intros Ht. unfold wazuh_api, try_except, wazuh_api_try.
  rewrite (bind_ret_eq _ _ _ _ _ Ht).
  unfold requests_call, bind, emit, next_api_reply, response_json; cbn.
  destruct (api_replies w1) as [| [d | d resp] tl]; cbn;
    try (rewrite Z.add_0_r; destruct w1; reflexivity); try reflexivity.
  destruct (json_body resp); reflexivity.
Qed.

(** X1.  A call made without a usable token, against a login endpoint
    that answers 200 with a token: one login, then the request, which
    carries the new token; the token is cached with expiry 300 seconds after
    the login reply arrived; one reply of each endpoint is consumed. *)
Theorem wazuh_api_renews_then_requests (method : string) (r : resource)
    (data : option json) (w : World) (d : Z) (resp : response)
    (tl : list reply) (j dat tk : json) :
  token_usable w = false ->
  login_replies w = Answer d resp :: tl ->
  status_code resp = 200 ->
  json_body resp = Some j ->
  getitem j "data" = Ok dat ->
  getitem dat "token" = Ok tk ->
  exists w',
    wazuh_api environ method r data w =
      (Ret (api_result (next_reply (api_replies w))), w') /\
    trace w' =
      trace w ++ [EvLogin (login_url environ) (auth environ);
                  EvRequest (verb_of method) (base_url environ) r tk data] /\
    cached_token w' = tk /\
    token_expiration w' = now w + d + 300 /\
    login_replies w' = tl /\
    api_replies w' = List.tl (api_replies w).
Proof.
  intros Hu Hq Hc Hj Hd Htk.
  pose proof (get_auth_token_renewed w d resp tl j dat tk Hu Hq Hc Hj Hd Htk)
    as Ht.
  eexists. split; [exact (wazuh_api_with_token method r data w _ _ Ht) |].
  cbn [trace cached_token token_expiration login_replies api_replies].
  rewrite <- app_assoc. repeat split.
Qed.

(** X2.  A call made with a usable token makes no login call: the only
    thing it does is the request, which carries the cached token; the cache
    and the login endpoint are left alone. *)
Theorem wazuh_api_reuses_token (method : string) (r : resource)
    (data : option json) (w : World) :
  token_usable w = true ->
  exists w',
    wazuh_api environ method r data w =
      (Ret (api_result (next_reply (api_replies w))), w') /\
    trace w' =
      trace w ++ [EvRequest (verb_of method) (base_url environ) r
                            (cached_token w) data] /\
    cached_token w' = cached_token w /\
    token_expiration w' = token_expiration w /\
    login_replies w' = login_replies w /\
    api_replies w' = List.tl (api_replies w).
Proof.
  intros Hu.
  pose proof (get_auth_token_cached environ w Hu) as Ht.
  eexists. split; [exact (wazuh_api_with_token method r data w _ _ Ht) |].
  repeat split.
Qed.

(** X3.  After a renewal that brought a true token, the token is
    reused for 300 seconds: a second call less than 300 seconds later returns
    it without a login; 300 seconds later or more, it logs in again. *)
Theorem token_reused_for_300_seconds (w : World) (d : Z) (resp : response)
    (tl : list reply) (j dat tk : json) (dt : Z) :
  token_usable w = false ->
  login_replies w = Answer d resp :: tl ->
  status_code resp = 200 ->
  json_body resp = Some j ->
  getitem j "data" = Ok dat ->
  getitem dat "token" = Ok tk ->
  truthy tk = true ->
  (dt < 300 ->
   exists w',
     (get_auth_token environ ;;; advance dt ;;; get_auth_token environ) w =
       (Ret tk, w') /\
     trace w' = trace w ++ [EvLogin (login_url environ) (auth environ)] /\
     login_replies w' = tl) /\
  (300 <= dt ->
   exists out w',
     (get_auth_token environ ;;; advance dt ;;; get_auth_token environ) w =
       (out, w') /\
     trace w' = trace w ++ [EvLogin (login_url environ) (auth environ);
                            EvLogin (login_url environ) (auth environ)]).
Proof.
  intros Hu Hq Hc Hj Hd Htk Htrue.
  pose proof (get_auth_token_renewed w d resp tl j dat tk Hu Hq Hc Hj Hd Htk)
    as Ht.
  set (w2 := mkWorld tk (now w + d + 300) (now w + d + dt) tl (api_replies w)
                     (trace w ++ [EvLogin (login_url environ) (auth environ)])).
  assert (Hrun : (get_auth_token environ ;;; advance dt ;;;
                  get_auth_token environ) w = get_auth_token environ w2).
  { rewrite (bind_ret_eq _ _ _ _ _ Ht). reflexivity. }
  split.
  - intros Hlt. exists w2. split; [| split; reflexivity].
    rewrite Hrun. apply get_auth_token_cached.
    unfold token_usable, w2; cbn. rewrite Htrue.
    apply andb_true_iff; split; [reflexivity | apply Z.ltb_lt; lia].
  - intros Hge.
    assert (Hu2 : token_usable w2 = false).
    { unfold token_usable, w2; cbn. rewrite Htrue.
      apply andb_false_iff; right. apply Z.ltb_ge; lia. }
    destruct (get_auth_token_renew_trace w2 Hu2) as (out & w' & Hr & Htr & _).
    exists out, w'. split; [now rewrite Hrun |].
    rewrite Htr. unfold w2; cbn [trace]. now rewrite <- app_assoc.
Qed.

(** X4.  A token that is not a true value (the empty string, [null], 0)
    is returned and stored but never reused: the next call logs in again,
    however soon it comes. *)
Theorem falsy_token_not_reused (w : World) (d : Z) (resp : response)
    (tl : list reply) (j dat tk : json) (dt : Z) :
  token_usable w = false ->
  login_replies w = Answer d resp :: tl ->
  status_code resp = 200 ->
  json_body resp = Some j ->
  getitem j "data" = Ok dat ->
  getitem dat "token" = Ok tk ->
  truthy tk = false ->
  exists w1 out w',
    get_auth_token environ w = (Ret tk, w1) /\
    cached_token w1 = tk /\
    (get_auth_token environ ;;; advance dt ;;; get_auth_token environ) w =
      (out, w') /\
    trace w' = trace w ++ [EvLogin (login_url environ) (auth environ);
                           EvLogin (login_url environ) (auth environ)].
Proof.
  intros Hu Hq Hc Hj Hd Htk Hfalse.
  pose proof (get_auth_token_renewed w d resp tl j dat tk Hu Hq Hc Hj Hd Htk)
    as Ht.
  set (w2 := mkWorld tk (now w + d + 300) (now w + d + dt) tl (api_replies w)
                     (trace w ++ [EvLogin (login_url environ) (auth environ)])).
  assert (Hrun : (get_auth_token environ ;;; advance dt ;;;
                  get_auth_token environ) w = get_auth_token environ w2).
  { rewrite (bind_ret_eq _ _ _ _ _ Ht). reflexivity. }
  assert (Hu2 : token_usable w2 = false).
  { unfold token_usable, w2; cbn. now rewrite Hfalse. }
  destruct (get_auth_token_renew_trace w2 Hu2) as (out & w' & Hr & Htr & _).
  eexists. exists out, w'. split; [exact Ht |]. split; [reflexivity |].
  split; [now rewrite Hrun |].
  rewrite Htr. unfold w2; cbn [trace]. now rewrite <- app_assoc.
Qed.

(** X5.  A login answered with HTTP 200 but without a readable
    [data.token] (no JSON, or a key missing) raises out of
    [get_auth_token]; it is not the authentication error, and the cache is
    left as it was.  The [wazuh_api] call that needed the token returns
    [(None, {})] and sends no request. *)
Theorem login_200_without_token (method : string) (r : resource)
    (data : option json) (w : World) (d : Z) (resp : response)
    (tl : list reply) :
  token_usable w = false ->
  login_replies w = Answer d resp :: tl ->
  status_code resp = 200 ->
  good_login (Answer d resp) = false ->
  exists e w',
    get_auth_token environ w = (Raise e, w') /\
    exn_kind e <> Exception /\
    cached_token w' = cached_token w /\
    token_expiration w' = token_expiration w /\
    login_replies w' = tl /\
    wazuh_api environ method r data w = (Ret (None, JObj []), w') /\
    actions (trace w') = actions (trace w).
Proof.
  intros Hu Hq Hc Hbad.
  assert (Hraise : exists e,
    exn_kind e <> Exception /\
    get_auth_token environ w =
    (Raise e,
     mkWorld (cached_token w) (token_expiration w) (now w + d) tl
             (api_replies w)
             (trace w ++ [EvLogin (login_url environ) (auth environ)]))).
  { rewrite (get_auth_token_renew environ w Hu).
    unfold requests_login, bind, emit, next_login_reply, response_json; cbn.
    rewrite Hq; cbn. rewrite Hc; cbn.
    cbn in Hbad. rewrite Hc in Hbad. cbn in Hbad.
    destruct (json_body resp) as [j |]; cbn.
    - unfold getitem in Hbad |- *.
      destruct j; cbn;
        try (eexists; split; [| reflexivity]; cbn; discriminate).
      destruct (assoc "data" fields) as [dat |]; cbn;
        [| eexists; split; [| reflexivity]; cbn; discriminate].
      destruct dat; cbn;
        try (eexists; split; [| reflexivity]; cbn; discriminate).
      destruct (assoc "token" fields0) as [tk |]; cbn;
        [discriminate Hbad |].
      eexists; split; [| reflexivity]; cbn; discriminate.
    - eexists; split; [| reflexivity]; cbn; discriminate. }
  destruct Hraise as (e & Hne & Ht).
  exists e. eexists. split; [exact Ht |]. split; [exact Hne |].
  cbn [cached_token token_expiration login_replies trace].
  repeat split.
  - unfold wazuh_api, try_except, wazuh_api_try.
    now rewrite (bind_raise_eq _ _ _ _ _ Ht).
  - rewrite actions_app. cbn. now rewrite app_nil_r.
Qed.

End TokenAcrossCalls.

Lemma wazuh_api_renews_then_requests_witness :
  exists w',
    wazuh_api Sample.environ "get" (AgentsByName (Some "n1")) None
      (Sample.start [Sample.login_ok "T"] [Sample.reports "active"]) =
    (Ret (api_result (Sample.reports "active")), w') /\
    trace w' =
      [EvLogin (login_url Sample.environ) (auth Sample.environ);
       EvRequest GET (base_url Sample.environ) (AgentsByName (Some "n1"))
                 (JStr "T") None] /\
    token_expiration w' = 1301.
Proof.
  destruct (wazuh_api_renews_then_requests Sample.environ "get"
              (AgentsByName (Some "n1")) None
              (Sample.start [Sample.login_ok "T"] [Sample.reports "active"])
              1 (mkResponse 200 "" (Some (JObj [("data", JObj [("token", JStr "T")])])))
              [] (JObj [("data", JObj [("token", JStr "T")])])
              (JObj [("token", JStr "T")]) (JStr "T")
              eq_refl eq_refl eq_refl eq_refl eq_refl eq_refl)
    as (w' & Hrun & Htr & _ & Hexp & _).
  exists w'. split; [exact Hrun |]. split; [exact Htr | exact Hexp].
Defined.

Lemma wazuh_api_reuses_token_witness :
  exists w',
    wazuh_api Sample.environ "put" (AgentGroup (JStr "001") "web") None
      (Sample.cached [] [Sample.assign_ok]) =
    (Ret (api_result Sample.assign_ok), w') /\
    trace w' =
      [EvRequest PUT (base_url Sample.environ) (AgentGroup (JStr "001") "web")
                 (JStr "T") None].
Proof.
  destruct (wazuh_api_reuses_token Sample.environ "put"
              (AgentGroup (JStr "001") "web") None
              (Sample.cached [] [Sample.assign_ok]) eq_refl)
    as (w' & Hrun & Htr & _).
  exists w'. split; [exact Hrun | exact Htr].
Defined.

Lemma token_reused_for_300_seconds_witness :
  (exists w',
     (get_auth_token Sample.environ ;;; advance 299 ;;;
      get_auth_token Sample.environ)
       (Sample.start [Sample.login_ok "T"; Sample.login_ok "U"] []) =
     (Ret (JStr "T"), w')) /\
  (exists out w',
     (get_auth_token Sample.environ ;;; advance 300 ;;;
      get_auth_token Sample.environ)
       (Sample.start [Sample.login_ok "T"; Sample.login_ok "U"] []) =
     (out, w') /\
     trace w' = [EvLogin (login_url Sample.environ) (auth Sample.environ);
                 EvLogin (login_url Sample.environ) (auth Sample.environ)]).
Proof.
  split.
  - destruct (proj1 (token_reused_for_300_seconds Sample.environ
                (Sample.start [Sample.login_ok "T"; Sample.login_ok "U"] [])
                1 (mkResponse 200 "" (Some (JObj [("data", JObj [("token", JStr "T")])])))
                [Sample.login_ok "U"]
                (JObj [("data", JObj [("token", JStr "T")])])
                (JObj [("token", JStr "T")]) (JStr "T") 299
                eq_refl eq_refl eq_refl eq_refl eq_refl eq_refl eq_refl))
      as (w' & Hrun & _); [lia |].
    now exists w'.
  - apply (proj2 (token_reused_for_300_seconds Sample.environ
                (Sample.start [Sample.login_ok "T"; Sample.login_ok "U"] [])
                1 (mkResponse 200 "" (Some (JObj [("data", JObj [("token", JStr "T")])])))
                [Sample.login_ok "U"]
                (JObj [("data", JObj [("token", JStr "T")])])
                (JObj [("token", JStr "T")]) (JStr "T") 300
                eq_refl eq_refl eq_refl eq_refl eq_refl eq_refl eq_refl)).
    lia.
Defined.

Lemma falsy_token_not_reused_witness :
  exists out w',
    (get_auth_token Sample.environ ;;; advance 0 ;;;
     get_auth_token Sample.environ)
      (Sample.start [Sample.login_ok ""; Sample.login_ok ""] []) = (out, w') /\
    trace w' = [EvLogin (login_url Sample.environ) (auth Sample.environ);
                EvLogin (login_url Sample.environ) (auth Sample.environ)].
Proof.
  destruct (falsy_token_not_reused Sample.environ
              (Sample.start [Sample.login_ok ""; Sample.login_ok ""] [])
              1 (mkResponse 200 "" (Some (JObj [("data", JObj [("token", JStr "")])])))
              [Sample.login_ok ""]
              (JObj [("data", JObj [("token", JStr "")])])
              (JObj [("token", JStr "")]) (JStr "") 0
              eq_refl eq_refl eq_refl eq_refl eq_refl eq_refl eq_refl)
    as (w1 & out & w' & _ & _ & Hrun & Htr).
  exists out, w'. split; [exact Hrun | exact Htr].
Defined.

Lemma login_200_without_token_witness :
  exists e w',
    get_auth_token Sample.environ
      (Sample.start [Answer 1 (mkResponse 200 "" (Some (JObj [])))] []) =
    (Raise e, w') /\
    cached_token w' = JNull /\
    wazuh_api Sample.environ "get" (AgentsByName (Some "n1")) None
      (Sample.start [Answer 1 (mkResponse 200 "" (Some (JObj [])))] []) =
    (Ret (None, JObj []), w').
Proof.
  destruct (login_200_without_token Sample.environ "get"
              (AgentsByName (Some "n1")) None
              (Sample.start [Answer 1 (mkResponse 200 "" (Some (JObj [])))] [])
              1 (mkResponse 200 "" (Some (JObj []))) []
              eq_refl eq_refl eq_refl eq_refl)
    as (e & w' & Hrun & _ & Hc & _ & _ & Hapi & _).
  exists e, w'. split; [exact Hrun |]. split; [exact Hc | exact Hapi].
Defined.

(** ** The key of the agent *)

Section AgentKey.

Variable _codes : Z -> option (list string).

Variable environ : Environ.

Lemma success_with_result rp j :
  success_with _codes rp j ->
  api_result rp = (Some 200, j) /\
  (exists dsc, http_codes_serializer _codes j (Some 200)
               = Ok (j, Some 200, dsc)) /\
  is_success (Some 200) j = Ok true.
Proof.
  intros [Hs (d & resp & -> & Hj)].
  cbn in Hs. rewrite Hj in Hs.
  apply andb_true_iff in Hs as [Hs He].
  apply andb_true_iff in Hs as [Hk Hc].
  apply Z.eqb_eq in Hc.
  cbn. rewrite Hj, Hc. rewrite Hc in Hk.
  split; [reflexivity |]. split; [exact (known_serializer _codes j 200 Hk) |].
  unfold is_success. cbn.
  destruct (getitem j "error") as [e |]; [| discriminate].
  now rewrite He.
Qed.

Lemma get_agent_key_unfold agent_id w :
  get_agent_key _codes environ agent_id w =
  (r <- wazuh_api environ "get" (AgentKey agent_id) None ;;
   lift (fetched_key _codes r)) w.
Proof.
  unfold get_agent_key. apply bind_ext. intros [sc resp] w1.
  unfold fetched_key.
  destruct (http_codes_serializer _codes resp sc); cbn; [| reflexivity].
  destruct (is_success sc resp) as [[|] |]; cbn; try reflexivity.
  destruct (affected_items resp) as [l |]; cbn; [| reflexivity].
  destruct (iter l) as [[| it items] |]; cbn; reflexivity.
Qed.

Lemma get_agent_key_result k w agent_id :
  logins_ok (S k) w ->
  exists w',
    get_agent_key _codes environ agent_id w =
      (lift (fetched_key _codes (api_result (next_reply (api_replies w))))) w' /\
    api_replies w' = List.tl (api_replies w) /\
    logins_ok k w' /\
    actions (trace w') = actions (trace w) ++ [Req GET (AgentKey agent_id)].
Proof.
  intros Hok.
  destruct (wazuh_api_result environ k w "get" (AgentKey agent_id) None Hok)
    as (w' & Hcall & Hq & Hok' & Ha).
  exists w'. rewrite get_agent_key_unfold.
  rewrite (bind_ret_eq _ _ _ _ _ Hcall). auto.
Qed.

Lemma fetched_key_first rp j first rest k :
  success_with _codes rp j ->
  affected_items j = Ok (JList (first :: rest)) ->
  getitem first "key" = Ok k ->
  fetched_key _codes (api_result rp) = Ok k.
Proof.
  intros Hs Hitems Hk.
  destruct (success_with_result rp j Hs) as (-> & (dsc & Hser) & Hok).
  unfold fetched_key. now rewrite Hser, Hok, Hitems.
Qed.

Lemma fetched_key_nothing rp :
  non_success_response _codes rp = true \/
  (exists j, success_with _codes rp j /\ affected_items j = Ok (JList [])) ->
  fetched_key _codes (api_result rp) = Ok JNull.
Proof.
  intros [Hfail | (j & Hs & Hitems)].
  - pose proof (non_success_response_accepted _codes rp Hfail) as Hacc.
    unfold accepted in Hacc. unfold fetched_key.
    destruct (api_result rp) as [sc resp].
    destruct (http_codes_serializer _codes resp sc); [| discriminate].
    now rewrite Hacc.
  - destruct (success_with_result rp j Hs) as (-> & (dsc & Hser) & Hok).
    unfold fetched_key. now rewrite Hser, Hok, Hitems.
Qed.

Lemma created_pair rp j dat i k :
  success_with _codes rp j ->
  getitem j "data" = Ok dat ->
  getitem dat "id" = Ok i ->
  getitem dat "key" = Ok k ->
  created _codes (api_result rp) = Ok (Some (i, k)).
Proof.
  intros Hs Hd Hi Hk.
  destruct (success_with_result rp j Hs) as (-> & (dsc & Hser) & Hok).
  unfold created. rewrite Hser. cbv beta iota.
  change (200 =? 400) with false. cbv iota.
  now rewrite Hok, Hd, Hi, Hk.
Qed.

(** X6.  [get_agent_key] returns the key of the first item of
    [affected_items] and does not look at the items after it (the resolver
    of the status returns the last one). *)
Theorem get_agent_key_first_wins (agent_id : json) (w : World) (rp : reply)
    (tl : list reply) (j first : json) (rest : list json) (k : json) :
  logins_ok 1 w ->
  api_replies w = rp :: tl ->
  success_with _codes rp j ->
  affected_items j = Ok (JList (first :: rest)) ->
  getitem first "key" = Ok k ->
  exists w',
    get_agent_key _codes environ agent_id w = (Ret k, w') /\
    actions (trace w') = actions (trace w) ++ [Req GET (AgentKey agent_id)] /\
    api_replies w' = tl.
Proof.
  intros Hok Hq Hs Hitems Hk.
  destruct (get_agent_key_result 0 w agent_id Hok) as (w' & Hrun & Hq' & _ & Ha).
  exists w'. rewrite Hrun, Hq', Hq. cbn [next_reply List.tl].
  rewrite (fetched_key_first rp j first rest k Hs Hitems Hk). auto.
Qed.

(** what [obtain_key] does once the resolution has found an agent id *)
Lemma obtain_key_existing k w n s i :
  logins_ok (S (S k)) w ->
  resolved _codes (api_result (next_reply (api_replies w))) = Ok (n, s, i) ->
  is_None i = false ->
  exists w',
    obtain_key _codes environ w =
      (key <- lift (fetched_key _codes
                      (api_result (next_reply (List.tl (api_replies w))))) ;;
       if is_None key
       then raise (mkExn ValueError "Failed to retrieve agent key.")
       else ret (i, key)) w' /\
    api_replies w' = List.tl (List.tl (api_replies w)) /\
    logins_ok k w' /\
    actions (trace w') =
      actions (trace w) ++ [Req GET (AgentsByName (node_name environ));
                            Req GET (AgentKey i)].
Proof.
  intros Hok Hres Hi.
  destruct (wazuh_agent_status_result _codes environ (S k) w
              (node_name environ) Hok)
    as (w1 & Hrun & Hq1 & Hok1 & Ha1).
  rewrite Hres in Hrun. cbn [lift] in Hrun.
  destruct (get_agent_key_result k w1 i Hok1) as (w2 & Hkey & Hq2 & Hok2 & Ha2).
  rewrite Hq1 in Hkey, Hq2.
  exists w2. split.
  - unfold obtain_key. rewrite (bind_ret_eq _ _ _ _ _ Hrun). rewrite Hi.
    unfold bind. rewrite Hkey.
    destruct (fetched_key _codes
                (api_result (next_reply (List.tl (api_replies w)))))
      as [key | e]; reflexivity.
  - split; [exact Hq2 |]. split; [exact Hok2 |].
    rewrite Ha2, Ha1, <- app_assoc. reflexivity.
Qed.

(** X7.  An agent that exists already is not inserted again: the
    resolution is followed by one key request, and [obtain_key] returns the
    id of the resolution with the key of that request. *)
Theorem obtain_key_existing_agent (w : World) (rp1 rp2 : reply)
    (tl : list reply) (n s i j first : json) (rest : list json) (key : json) :
  logins_ok 2 w ->
  api_replies w = rp1 :: rp2 :: tl ->
  resolved _codes (api_result rp1) = Ok (n, s, i) ->
  is_None i = false ->
  success_with _codes rp2 j ->
  affected_items j = Ok (JList (first :: rest)) ->
  getitem first "key" = Ok key ->
  is_None key = false ->
  exists w',
    obtain_key _codes environ w = (Ret (i, key), w') /\
    actions (trace w') =
      actions (trace w) ++ [Req GET (AgentsByName (node_name environ));
                            Req GET (AgentKey i)] /\
    api_replies w' = tl.
Proof.
  intros Hok Hq Hres Hi Hs Hitems Hk Hkey.
  destruct (obtain_key_existing 0 w n s i Hok) as (w' & Hrun & Hq' & _ & Ha);
    [now rewrite Hq | exact Hi |].
  exists w'. rewrite Hrun, Hq', Hq. cbn [next_reply List.tl].
  rewrite (fetched_key_first rp2 j first rest key Hs Hitems Hk).
  cbn [lift]. unfold bind, ret. rewrite Hkey. auto.
Qed.

(** X8.  An agent that exists but whose key request is answered with a
    non-success response, or with a success that lists no item: the script
    stops with [ValueError], after the configuration, the resolution and the
    key request; nothing is inserted, imported or restarted. *)
Theorem main_existing_agent_without_key (fuel : nat) (w : World)
    (rp1 rp2 : reply) (tl : list reply) (n s i : json) :
  logins_ok 2 w ->
  api_replies w = rp1 :: rp2 :: tl ->
  resolved _codes (api_result rp1) = Ok (n, s, i) ->
  is_None i = false ->
  non_success_response _codes rp2 = true \/
  (exists j, success_with _codes rp2 j /\ affected_items j = Ok (JList [])) ->
  exists w',
    main _codes environ fuel w =
      (Raise (mkExn ValueError "Failed to retrieve agent key."), w') /\
    actions (trace w') =
      actions (trace w) ++ [Config;
                            Req GET (AgentsByName (node_name environ));
                            Req GET (AgentKey i)].
Proof.
  intros Hok Hq Hres Hi Hrp2.
  set (w0 := mkWorld (cached_token w) (token_expiration w) (now w)
                     (login_replies w) (api_replies w) (trace w ++ [EvConfig])).
  assert (Hok0 : logins_ok 2 w0) by exact Hok.
  destruct (obtain_key_existing 0 w0 n s i Hok0) as (w' & Hrun & _ & _ & Ha);
    [unfold w0; cbn [api_replies]; now rewrite Hq | exact Hi |].
  unfold w0 in Hrun at 2. cbn [api_replies] in Hrun.
  rewrite Hq in Hrun. cbn [next_reply List.tl] in Hrun.
  rewrite (fetched_key_nothing rp2 Hrp2) in Hrun. cbn in Hrun.
  exists w'. split.
  - unfold main, create_config_file.
    unfold bind at 1. cbn [emit]. fold w0.
    now rewrite (bind_raise_eq _ _ _ _ _ Hrun).
  - rewrite Ha. unfold w0. cbn [trace].
    rewrite actions_app, <- app_assoc. reflexivity.
Qed.

End AgentKey.

(** ** The whole enrollment *)

Section Orchestration.

Variable _codes : Z -> option (list string).

Variable environ : Environ.

(** the world after one more event *)
Lemma bind_emit {B} (e : event) (k : unit -> M B) w :
  bind (emit e) k w =
  k tt (mkWorld (cached_token w) (token_expiration w) (now w)
                (login_replies w) (api_replies w) (trace w ++ [e])).
Proof. reflexivity. Qed.

Lemma obtain_key_created k w n s i key :
  logins_ok (S (S k)) w ->
  resolved _codes (api_result (next_reply (api_replies w))) = Ok (n, s, JNull) ->
  created _codes (api_result (next_reply (List.tl (api_replies w))))
    = Ok (Some (i, key)) ->
  is_None key = false ->
  exists w',
    obtain_key _codes environ w = (Ret (i, key), w') /\
    api_replies w' = List.tl (List.tl (api_replies w)) /\
    logins_ok k w' /\
    actions (trace w') =
      actions (trace w) ++ [Req GET (AgentsByName (node_name environ));
                            Req POST AgentsInsert].
Proof.
  intros Hok Hres Hcr Hkey.
  destruct (wazuh_agent_status_result _codes environ (S k) w
              (node_name environ) Hok)
    as (w1 & Hrun & Hq1 & Hok1 & Ha1).
  rewrite Hres in Hrun. cbn [lift] in Hrun.
  destruct (add_agent_result _codes environ k w1 (node_name environ) Hok1)
    as (w2 & Hadd & Hq2 & Hok2 & Ha2).
  rewrite Hq1 in Hadd, Hq2. rewrite Hcr in Hadd.
  exists w2. split.
  - unfold obtain_key. rewrite (bind_ret_eq _ _ _ _ _ Hrun). cbn [is_None].
    unfold bind. rewrite Hadd. cbn. now rewrite Hkey.
  - split; [exact Hq2 |]. split; [exact Hok2 |].
    rewrite Ha2, Ha1, <- app_assoc. reflexivity.
Qed.

(** the polling loop returns what the last resolution returned *)
Lemma poll_until_active_last k pending :
  forall last rest w secs t,
  py_int (environ_get (WAZUH_WAIT_TIME environ) "10") = Ok secs ->
  (0 <= secs <= long_sleep) ->
  Forall (not_yet_active _codes) pending ->
  resolved _codes (api_result last) = Ok t ->
  eq_str (snd (fst t)) "active" = true ->
  api_replies w = pending ++ last :: rest ->
  logins_ok (S (k + List.length pending)) w ->
  forall fuel, (List.length pending < fuel)%nat ->
  exists w',
    poll_until_active _codes environ fuel w = (Ret t, w') /\
    actions (trace w') =
      actions (trace w) ++
      poll_actions (node_name environ) secs (List.length pending) /\
    api_replies w' = rest /\
    logins_ok k w'.
Proof.
  induction pending as [| rp pending IH];
    intros last rest w secs t Hint Hsecs Hpend Hlast Hact Hq Hok fuel Hfuel.
  - destruct fuel as [| fuel]; [cbn in Hfuel; lia |].
    cbn [app] in Hq. cbn [List.length] in Hok. rewrite Nat.add_0_r in Hok.
    destruct (wazuh_agent_status_result _codes environ k w
                (node_name environ) Hok)
      as (w1 & Hrun & Hq1 & Hok1 & Ha1).
    rewrite Hq in Hrun, Hq1. cbn [next_reply List.tl] in Hrun, Hq1.
    rewrite Hlast in Hrun. cbn [lift] in Hrun.
    exists w1. split.
    + cbn [poll_until_active]. rewrite (bind_ret_eq _ _ _ _ _ Hrun).
      destruct t as [[n s] i]. cbn [fst snd] in Hact. now rewrite Hact.
    + auto.
  - destruct fuel as [| fuel]; [cbn in Hfuel; lia |].
    cbn [List.length] in Hfuel, Hok. rewrite Nat.add_succ_r in Hok.
    inversion Hpend as [| ? ? (s & Hobs & Hs) Hpend']; subst.
    cbn [app] in Hq.
    destruct (poll_until_active_pending _codes environ fuel
                (S (k + List.length pending)) w s secs)
      as (w2 & Hrun & Hq2 & Hok2 & Ha2); try assumption.
    { now rewrite Hq. }
    rewrite Hq in Hq2. cbn [List.tl] in Hq2.
    destruct (IH last rest w2 secs t Hint Hsecs Hpend' Hlast Hact Hq2 Hok2 fuel)
      as (w' & Hrec & Ha & Hrest & Hok'); [lia |].
    exists w'. split; [now rewrite Hrun |].
    split; [| split; [exact Hrest | exact Hok']].
    rewrite Ha, Ha2, <- app_assoc. reflexivity.
Qed.

(** the script from the key on, with the default groups *)
Lemma main_with_key_default fuel w i key w1 pending last rest secs t :
  obtain_key _codes environ
    (mkWorld (cached_token w) (token_expiration w) (now w)
             (login_replies w) (api_replies w) (trace w ++ [EvConfig]))
  = (Ret (i, JStr key), w1) ->
  importable key = true ->
  environ_get (WAZUH_GROUPS environ) "default" = "default" ->
  py_int (environ_get (WAZUH_WAIT_TIME environ) "10") = Ok secs ->
  (0 <= secs <= long_sleep) ->
  Forall (not_yet_active _codes) pending ->
  resolved _codes (api_result last) = Ok t ->
  eq_str (snd (fst t)) "active" = true ->
  api_replies w1 = pending ++ last :: rest ->
  logins_ok (S (List.length pending)) w1 ->
  (List.length pending < fuel)%nat ->
  exists w',
    main _codes environ fuel w = (Ret tt, w') /\
    actions (trace w') =
      actions (trace w1) ++
      [ImportKey key; Restart] ++
      poll_actions (node_name environ) secs (List.length pending) ++
      [Serve] /\
    api_replies w' = rest.
Proof.
  intros Hkey Himp Hgroups Hint Hsecs Hpend Hlast Hact Hq Hok Hfuel.
  set (w3 := mkWorld (cached_token w1) (token_expiration w1) (now w1)
                     (login_replies w1) (api_replies w1)
                     ((trace w1 ++ [EvImportKey key]) ++ [EvRestart])).
  destruct (poll_until_active_last 0 pending last rest w3 secs t Hint Hsecs
              Hpend Hlast Hact Hq Hok fuel Hfuel)
    as (w4 & Hpoll & Ha & Hrest & _).
  eexists. split.
  - unfold main, create_config_file. rewrite bind_emit.
    rewrite (bind_ret_eq _ _ _ _ _ Hkey).
    rewrite (wazuh_agent_import_key_ok key Himp), bind_emit.
    unfold restart_wazuh_agent. rewrite bind_emit. fold w3.
    rewrite (bind_ret_eq _ _ _ _ _ Hpoll).
    destruct t as [[n s] id]. rewrite Hgroups. cbn [String.eqb].
    change (String.eqb "default" "default") with true. cbv iota.
    unfold bind at 1. unfold ret at 1. reflexivity.
  - cbn [emit snd trace api_replies]. split; [| exact Hrest].
    rewrite actions_app, Ha. unfold w3. cbn [trace].
    rewrite !actions_app. cbn. rewrite <- !app_assoc. reflexivity.
Qed.

(** X9.  The enrollment of a node that has no agent yet, with the
    default groups, a key that can be handed to the binary and an interval
    from 0 to [long_sleep]: the script returns, and what it did is, in this
    order, the configuration, the resolution, one insert, the import of the
    key the insert returned, the restart, the polling (one resolution per
    iteration and a sleep after each one that is not [active]) and the start
    of the health server.  No group request is sent. *)
Theorem main_enrolls_new_agent (fuel : nat) (w : World) (rp1 rp2 : reply)
    (pending : list reply) (last : reply) (rest : list reply)
    (n s j dat i : json) (key : string) (secs : Z) :
  environ_get (WAZUH_GROUPS environ) "default" = "default" ->
  py_int (environ_get (WAZUH_WAIT_TIME environ) "10") = Ok secs ->
  (0 <= secs <= long_sleep) ->
  api_replies w = rp1 :: rp2 :: pending ++ last :: rest ->
  resolved _codes (api_result rp1) = Ok (n, s, JNull) ->
  success_with _codes rp2 j ->
  getitem j "data" = Ok dat ->
  getitem dat "id" = Ok i ->
  getitem dat "key" = Ok (JStr key) ->
  importable key = true ->
  Forall (not_yet_active _codes) pending ->
  observed_status _codes last = Some (JStr "active") ->
  logins_ok (3 + List.length pending) w ->
  (List.length pending < fuel)%nat ->
  exists w',
    main _codes environ fuel w = (Ret tt, w') /\
    actions (trace w') =
      actions (trace w) ++
      [Config; Req GET (AgentsByName (node_name environ));
       Req POST AgentsInsert; ImportKey key; Restart] ++
      poll_actions (node_name environ) secs (List.length pending) ++
      [Serve] /\
    assignments (actions (trace w')) = assignments (actions (trace w)) /\
    api_replies w' = rest.
Proof.
  intros Hgroups Hint Hsecs Hq Hres Hs Hd Hi Hk Himp Hpend Hlast Hok Hfuel.
  set (w0 := mkWorld (cached_token w) (token_expiration w) (now w)
                     (login_replies w) (api_replies w) (trace w ++ [EvConfig])).
  assert (Hok0 : logins_ok (S (S (S (List.length pending)))) w0) by exact Hok.
  destruct (obtain_key_created (S (List.length pending)) w0 n s i (JStr key)
              Hok0)
    as (w1 & Hkey & Hq1 & Hok1 & Ha1).
  { unfold w0; cbn [api_replies]. now rewrite Hq. }
  { unfold w0; cbn [api_replies]. rewrite Hq. cbn [List.tl next_reply].
    exact (created_pair _codes rp2 j dat i (JStr key) Hs Hd Hi Hk). }
  { reflexivity. }
  unfold w0 in Hq1. cbn [api_replies] in Hq1. rewrite Hq in Hq1.
  cbn [List.tl] in Hq1.
  destruct (observed_status_resolved _codes _ _ Hlast) as (n' & i' & Hlast').
  destruct (main_with_key_default fuel w i key w1 pending last rest secs
              (n', JStr "active", i') Hkey Himp Hgroups Hint Hsecs Hpend Hlast'
              eq_refl Hq1 Hok1 Hfuel)
    as (w' & Hrun & Ha & Hrest).
  assert (Hacts : actions (trace w') =
      actions (trace w) ++
      [Config; Req GET (AgentsByName (node_name environ));
       Req POST AgentsInsert; ImportKey key; Restart] ++
      poll_actions (node_name environ) secs (List.length pending) ++
      [Serve]).
  { rewrite Ha, Ha1. unfold w0. cbn [trace].
    rewrite actions_app, <- !app_assoc. reflexivity. }
  exists w'. split; [exact Hrun |]. split; [exact Hacts |].
  split; [| exact Hrest].
  rewrite Hacts, assignments_app.
  assert (Hzero : forall m, assignments
            (poll_actions (node_name environ) secs m ++ [Serve]) = 0%nat).
  { induction m as [| m IHm]; [reflexivity | exact IHm]. }
  change ([Config; Req GET (AgentsByName (node_name environ));
           Req POST AgentsInsert; ImportKey key; Restart] ++
          poll_actions (node_name environ) secs (List.length pending) ++
          [Serve])
    with (Config :: Req GET (AgentsByName (node_name environ))
          :: Req POST AgentsInsert :: ImportKey key :: Restart
          :: (poll_actions (node_name environ) secs (List.length pending) ++
              [Serve])).
  unfold assignments at 2. cbn [filter is_assignment].
  fold (assignments (poll_actions (node_name environ) secs
                       (List.length pending) ++ [Serve])).
  rewrite Hzero. lia.
Qed.

(** membership fetches that all find the group: one request per group *)
Lemma assign_groups_present fuel id gs :
  forall fetches rest w,
  Forall2 (fun g rp => already_in_group _codes (api_result rp) g = Ok true)
          gs fetches ->
  api_replies w = fetches ++ rest ->
  logins_ok (List.length gs) w ->
  exists w',
    assign_groups _codes environ (S fuel) id gs w = (Ret tt, w') /\
    actions (trace w') =
      actions (trace w) ++ map (fun _ => Req GET (AgentsList id)) gs /\
    api_replies w' = rest.
Proof.
  induction gs as [| g gs IH]; intros fetches rest w Hall Hq Hok.
  - inversion Hall; subst. cbn [app] in Hq.
    exists w. cbn. rewrite app_nil_r. auto.
  - inversion Hall as [| ? rp ? fetches' Hg Hall']; subst.
    cbn [app] in Hq. cbn [List.length] in Hok.
    destruct (add_agent_to_group_body_present _codes environ
                (add_agent_to_group _codes environ fuel) id g
                (List.length gs) w Hok)
      as (w1 & Hrun & Hq1 & Hok1 & Ha1).
    { now rewrite Hq. }
    rewrite Hq in Hq1. cbn [List.tl] in Hq1.
    destruct (IH fetches' rest w1 Hall' Hq1 Hok1) as (w' & Hrec & Ha & Hrest).
    exists w'. split.
    + cbn [assign_groups add_agent_to_group].
      now rewrite (bind_ret_eq _ _ _ _ _ Hrun).
    + split; [| exact Hrest].
      rewrite Ha, Ha1, <- app_assoc. reflexivity.
Qed.

(** X10.  The enrollment of a node whose agent exists, with a list of
    groups the agent is in already, a key that can be handed to the binary
    and an interval from 0 to [long_sleep]: no insert; after the polling one
    membership fetch per name of the comma-separated list, in the order of
    the list, all for the agent id that the last resolution of the polling
    reported; no assignment request; then the health server. *)
Theorem main_existing_agent_in_groups (fuel : nat) (w : World)
    (rp1 rp2 : reply) (pending : list reply) (last : reply)
    (fetches rest : list reply) (n s i j first : json) (more : list json)
    (key groups : string) (secs : Z) (n' id' : json) :
  WAZUH_GROUPS environ = Some groups ->
  String.eqb groups "default" = false ->
  py_int (environ_get (WAZUH_WAIT_TIME environ) "10") = Ok secs ->
  (0 <= secs <= long_sleep) ->
  api_replies w = rp1 :: rp2 :: pending ++ last :: fetches ++ rest ->
  resolved _codes (api_result rp1) = Ok (n, s, i) ->
  is_None i = false ->
  success_with _codes rp2 j ->
  affected_items j = Ok (JList (first :: more)) ->
  getitem first "key" = Ok (JStr key) ->
  importable key = true ->
  Forall (not_yet_active _codes) pending ->
  resolved _codes (api_result last) = Ok (n', JStr "active", id') ->
  Forall2 (fun g rp => already_in_group _codes (api_result rp) g = Ok true)
          (split_comma groups) fetches ->
  logins_ok (3 + (List.length (split_comma groups) + List.length pending)) w ->
  (List.length pending < fuel)%nat ->
  exists w',
    main _codes environ fuel w = (Ret tt, w') /\
    actions (trace w') =
      actions (trace w) ++
      [Config; Req GET (AgentsByName (node_name environ));
       Req GET (AgentKey i); ImportKey key; Restart] ++
      poll_actions (node_name environ) secs (List.length pending) ++
      map (fun _ => Req GET (AgentsList id')) (split_comma groups) ++
      [Serve] /\
    api_replies w' = rest.
Proof.
  intros Hgroups Hnd Hint Hsecs Hq Hres Hi Hs Hitems Hk Himp Hpend Hlast
    Hall Hok Hfuel.
  set (m := List.length (split_comma groups)) in *.
  set (w0 := mkWorld (cached_token w) (token_expiration w) (now w)
                     (login_replies w) (api_replies w) (trace w ++ [EvConfig])).
  assert (Hok0 : logins_ok (S (S (S (m + List.length pending)))) w0)
    by exact Hok.
  destruct (obtain_key_existing _codes environ
              (S (m + List.length pending)) w0 n s i Hok0)
    as (w1 & Hkey & Hq1 & Hok1 & Ha1).
  { unfold w0; cbn [api_replies]. now rewrite Hq. }
  { exact Hi. }
  unfold w0 in Hkey at 2. unfold w0 in Hq1. cbn [api_replies] in Hkey, Hq1.
  rewrite Hq in Hkey, Hq1. cbn [List.tl next_reply] in Hkey, Hq1.
  rewrite (fetched_key_first _codes rp2 j first more (JStr key) Hs Hitems Hk)
    in Hkey.
  cbn in Hkey.
  set (w3 := mkWorld (cached_token w1) (token_expiration w1) (now w1)
                     (login_replies w1) (api_replies w1)
                     ((trace w1 ++ [EvImportKey key]) ++ [EvRestart])).
  assert (Hok3 : logins_ok (S (m + List.length pending)) w3) by exact Hok1.
  assert (Hq3 : api_replies w3 = pending ++ last :: fetches ++ rest)
    by exact Hq1.
  destruct fuel as [| fuel]; [lia |].
  destruct (poll_until_active_last m pending last (fetches ++ rest) w3 secs
              (n', JStr "active", id') Hint Hsecs Hpend Hlast eq_refl Hq3 Hok3
              (S fuel) Hfuel)
    as (w4 & Hpoll & Ha4 & Hq4 & Hok4).
  destruct (assign_groups_present fuel id' (split_comma groups) fetches rest
              w4 Hall Hq4 Hok4)
    as (w5 & Hassign & Ha5 & Hq5).
  eexists. split.
  - unfold main, create_config_file. rewrite bind_emit. fold w0.
    rewrite (bind_ret_eq _ _ _ _ _ Hkey).
    rewrite (wazuh_agent_import_key_ok key Himp), bind_emit.
    unfold restart_wazuh_agent. rewrite bind_emit. fold w3.
    rewrite (bind_ret_eq _ _ _ _ _ Hpoll).
    cbv beta iota. rewrite Hgroups. cbn [environ_get]. rewrite Hnd.
    rewrite (bind_ret_eq _ _ _ _ _ Hassign). reflexivity.
  - cbn [emit snd trace api_replies]. split; [| exact Hq5].
    rewrite actions_app, Ha5, Ha4. unfold w3. cbn [trace].
    rewrite !actions_app, Ha1. unfold w0. cbn [trace].
    rewrite actions_app. cbn. rewrite <- !app_assoc. reflexivity.
Qed.

End Orchestration.

(** ** Edges of the enrollment steps *)

Section Edges.

Variable _codes : Z -> option (list string).

Variable environ : Environ.

(** X11.  A key that is neither [None] nor a string (a number, a list)
    has no [encode]: the script stops with [AttributeError] right after the
    insert; nothing is imported or restarted. *)
Theorem main_key_not_a_string (fuel : nat) (w : World) (rp1 rp2 : reply)
    (tl : list reply) (n s j dat i key : json) :
  logins_ok 2 w ->
  api_replies w = rp1 :: rp2 :: tl ->
  resolved _codes (api_result rp1) = Ok (n, s, JNull) ->
  success_with _codes rp2 j ->
  getitem j "data" = Ok dat ->
  getitem dat "id" = Ok i ->
  getitem dat "key" = Ok key ->
  is_None key = false ->
  (forall k, key <> JStr k) ->
  exists e w',
    main _codes environ fuel w = (Raise e, w') /\
    exn_kind e = AttributeError /\
    actions (trace w') =
      actions (trace w) ++ [Config;
                            Req GET (AgentsByName (node_name environ));
                            Req POST AgentsInsert].
Proof.
  intros Hok Hq Hres Hs Hd Hi Hk Hnone Hnstr.
  set (w0 := mkWorld (cached_token w) (token_expiration w) (now w)
                     (login_replies w) (api_replies w) (trace w ++ [EvConfig])).
  assert (Hok0 : logins_ok 2 w0) by exact Hok.
  destruct (obtain_key_created _codes environ 0 w0 n s i key Hok0)
    as (w1 & Hkey & _ & _ & Ha1).
  { unfold w0; cbn [api_replies]. now rewrite Hq. }
  { unfold w0; cbn [api_replies]. rewrite Hq. cbn [List.tl next_reply].
    exact (created_pair _codes rp2 j dat i key Hs Hd Hi Hk). }
  { exact Hnone. }
  exists (mkExn AttributeError "object has no attribute 'encode'"), w1.
  split; [| split; [reflexivity |]].
  - unfold main, create_config_file. rewrite bind_emit. fold w0.
    rewrite (bind_ret_eq _ _ _ _ _ Hkey).
    destruct key; try reflexivity. now contradiction (Hnstr s0).
  - rewrite Ha1. unfold w0. cbn [trace].
    rewrite actions_app, <- app_assoc. reflexivity.
Qed.


(** X13.  A membership fetch that succeeds but lists no item (the
    manager does not know the agent id): [add_agent_to_group] raises
    [IndexError] at the [[0]] and sends no assignment request. *)
Theorem add_agent_to_group_no_item (fuel : nat) (id : json) (group : string)
    (w : World) (rp : reply) (tl : list reply) (j : json) :
  logins_ok 1 w ->
  api_replies w = rp :: tl ->
  success_with _codes rp j ->
  affected_items j = Ok (JList []) ->
  exists w',
    add_agent_to_group _codes environ (S fuel) id group w =
      (Raise (mkExn IndexError "list index out of range"), w') /\
    actions (trace w') = actions (trace w) ++ [Req GET (AgentsList id)].
Proof.
  intros Hok Hq Hs Hitems.
  destruct (add_agent_to_group_body_raises _codes environ
              (add_agent_to_group _codes environ fuel) id group 0 w
              (mkExn IndexError "list index out of range") Hok)
    as (w' & Hrun & _ & _ & Ha).
  { rewrite Hq. cbn [next_reply].
    destruct (success_with_result _codes rp j Hs) as (-> & (dsc & Hser) & Hsucc).
    unfold already_in_group. rewrite Hser, Hsucc.
    unfold current_groups. now rewrite Hitems. }
  exists w'. split; [exact Hrun | exact Ha].
Qed.

(** X14.  An agent record without a [group] field counts as an agent in
    no group: the assignment request is sent. *)
Theorem add_agent_to_group_item_without_group (id : json) (group : string)
    (w : World) (rp : reply) (tl : list reply) (j l : json)
    (fields : list (string * json)) :
  logins_ok 2 w ->
  api_replies w = rp :: tl ->
  success_with _codes rp j ->
  affected_items j = Ok l ->
  getitem0 l = Ok (JObj fields) ->
  assoc "group" fields = None ->
  assignments (actions (trace (snd
      (add_agent_to_group _codes environ 1 id group w)))) =
  (assignments (actions (trace w)) + 1)%nat.
Proof.
  intros Hok Hq Hs Hitems Hfirst Hnone.
  apply add_agent_to_group_once; [exact Hok |].
  rewrite Hq. cbn [next_reply].
  destruct (success_with_result _codes rp j Hs) as (-> & (dsc & Hser) & Hsucc).
  unfold already_in_group. rewrite Hser, Hsucc.
  unfold current_groups. rewrite Hitems, Hfirst.
  unfold get_default. rewrite Hnone. reflexivity.
Qed.

(** X15.  The value [add_agent_to_group] returns tells whether it had
    to retry: the body of the accepting response when the first assignment
    is accepted, [None] when the first one failed and the second one is
    accepted (the result of the inner call is dropped). *)
Theorem add_agent_to_group_return_value (fuel : nat) (g p : reply)
    (jp : json) (rest : list reply) (w : World) (id : json)
    (group : string) :
  already_in_group _codes (api_result g) group = Ok false ->
  success_with _codes p jp ->
  (api_replies w = g :: p :: rest ->
   logins_ok 2 w ->
   exists w',
     add_agent_to_group _codes environ (S fuel) id group w = (Ret jp, w')) /\
  (forall (g1 p1 : reply) (secs : Z),
   py_int (environ_get (WAZUH_WAIT_TIME environ) "30") = Ok secs ->
   (0 <= secs <= long_sleep) ->
   already_in_group _codes (api_result g1) group = Ok false ->
   non_success_response _codes p1 = true ->
   api_replies w = g1 :: p1 :: g :: p :: rest ->
   logins_ok 4 w ->
   exists w',
     add_agent_to_group _codes environ (S (S fuel)) id group w =
       (Ret JNull, w')).
Proof.
  intros Hg Hp.
  pose proof (proj1 Hp) as Hps.
  apply success_response_accepted in Hps.
  destruct (success_with_result _codes p jp Hp) as (Hres & _).
  assert (Hfirst : forall w0 rest0,
            api_replies w0 = g :: p :: rest0 ->
            logins_ok 2 w0 ->
            exists w',
              add_agent_to_group _codes environ (S fuel) id group w0 =
                (Ret jp, w')).
  { intros w0 rest0 Hq Hok.
    destruct (add_agent_to_group_body_absent _codes environ
                (add_agent_to_group _codes environ fuel) id group 0 w0 Hok)
      as (w' & Hrun & _).
    { now rewrite Hq. }
    rewrite Hq in Hrun. cbn [List.tl next_reply] in Hrun.
    rewrite (bind_lift_ok _ _ _ _ Hps) in Hrun. rewrite Hres in Hrun.
    exists w'. exact Hrun. }
  split.
  - intros Hq Hok. exact (Hfirst w rest Hq Hok).
  - intros g1 p1 secs Hint Hsecs Hg1 Hp1 Hq Hok.
    apply non_success_response_accepted in Hp1.
    destruct (add_agent_to_group_body_retry _codes environ
                (add_agent_to_group _codes environ (S fuel)) id group 2 w secs)
      as (w3 & Hrun & Hq3 & Hok3 & _); try assumption;
      try (now rewrite Hq).
    rewrite Hq in Hq3. cbn [List.tl] in Hq3.
    destruct (Hfirst w3 rest Hq3 Hok3) as (w' & Hrec).
    exists w'.
    change (add_agent_to_group _codes environ (S (S fuel)) id group w)
      with (add_agent_to_group_body _codes environ
              (add_agent_to_group _codes environ (S fuel)) id group w).
    rewrite Hrun. now rewrite (bind_ret_eq _ _ _ _ _ Hrec).
Qed.

(** X16.  The retry starts with the membership fetch again: when the
    fetch after a failed assignment and a sleep of the configured interval
    (from 0 to [long_sleep]) finds the agent in the group, the call returns
    without sending the assignment a second time. *)
Theorem add_agent_to_group_stops_when_member (fuel : nat) (id : json)
    (group : string) (w : World) (g1 p1 g2 : reply) (rest : list reply)
    (secs : Z) :
  py_int (environ_get (WAZUH_WAIT_TIME environ) "30") = Ok secs ->
  (0 <= secs <= long_sleep) ->
  already_in_group _codes (api_result g1) group = Ok false ->
  non_success_response _codes p1 = true ->
  already_in_group _codes (api_result g2) group = Ok true ->
  api_replies w = g1 :: p1 :: g2 :: rest ->
  logins_ok 3 w ->
  exists w',
    add_agent_to_group _codes environ (S (S fuel)) id group w =
      (Ret JNull, w') /\
    actions (trace w') =
      actions (trace w) ++ [Req GET (AgentsList id);
                            Req PUT (AgentGroup id group);
                            Sleep secs;
                            Req GET (AgentsList id)] /\
    api_replies w' = rest.
Proof.
  intros Hint Hsecs Hg1 Hp1 Hg2 Hq Hok.
  apply non_success_response_accepted in Hp1.
  destruct (add_agent_to_group_body_retry _codes environ
              (add_agent_to_group _codes environ (S fuel)) id group 1 w secs)
    as (w3 & Hrun & Hq3 & Hok3 & Ha3); try assumption;
    try (now rewrite Hq).
  rewrite Hq in Hq3. cbn [List.tl] in Hq3.
  destruct (add_agent_to_group_body_present _codes environ
              (add_agent_to_group _codes environ fuel) id group 0 w3 Hok3)
    as (w' & Hrec & Hq' & _ & Ha').
  { now rewrite Hq3. }
  assert (Hrec' : add_agent_to_group _codes environ (S fuel) id group w3 =
                  (Ret JNull, w')) by exact Hrec.
  exists w'. split.
  - change (add_agent_to_group _codes environ (S (S fuel)) id group w)
      with (add_agent_to_group_body _codes environ
              (add_agent_to_group _codes environ (S fuel)) id group w).
    rewrite Hrun. now rewrite (bind_ret_eq _ _ _ _ _ Hrec').
  - split.
    + rewrite Ha', Ha3, <- app_assoc. reflexivity.
    + now rewrite Hq', Hq3.
Qed.

(** X17.  An assignment that gets no response, a body that is not JSON,
    or a status code [requests] has no name for is not retried:
    [add_agent_to_group] raises [KeyError] right after the request, without
    a sleep. *)
Theorem add_agent_to_group_assignment_not_retried (fuel : nat) (id : json)
    (group : string) (w : World) (g p : reply) (rest : list reply) :
  already_in_group _codes (api_result g) group = Ok false ->
  (exists d, p = NoResponse d) \/
  (exists d resp, p = Answer d resp /\
     (json_body resp = None \/ _codes (status_code resp) = None)) ->
  api_replies w = g :: p :: rest ->
  logins_ok 2 w ->
  exists e w',
    add_agent_to_group _codes environ (S fuel) id group w = (Raise e, w') /\
    exn_kind e = KeyError /\
    actions (trace w') =
      actions (trace w) ++ [Req GET (AgentsList id);
                            Req PUT (AgentGroup id group)].
Proof.
  intros Hg Hp Hq Hok.
  destruct (add_agent_to_group_body_absent _codes environ
              (add_agent_to_group _codes environ fuel) id group 0 w Hok)
    as (w' & Hrun & _ & _ & Ha).
  { now rewrite Hq. }
  rewrite Hq in Hrun. cbn [List.tl next_reply] in Hrun.
  assert (Herr : exists e, accepted _codes (api_result p) = Err e /\
                           exn_kind e = KeyError).
  { destruct Hp as [(d & ->) | (d & resp & -> & [Hj | Hc])].
    - eexists. split; reflexivity.
    - cbn. rewrite Hj. eexists. split; reflexivity.
    - cbn. destruct (json_body resp) as [j |].
      + unfold accepted, http_codes_serializer, code_desc. rewrite Hc.
        eexists. split; reflexivity.
      + eexists. split; reflexivity. }
  destruct Herr as (e & Herr & Hkind).
  rewrite (bind_lift_err _ _ _ _ Herr) in Hrun.
  exists e, w'. split; [exact Hrun |]. split; [exact Hkind | exact Ha].
Qed.

(** X18.  The resolver reads the three fields of every item, not only of
    the last one: an item that lacks one of them makes the resolution raise,
    also when the records around it are complete. *)
Theorem wazuh_agent_status_malformed_item (name : option string) (w : World)
    (rp : reply) (tl : list reply) (j : json) (good : list json) (bad : json)
    (rest : list json) :
  logins_ok 1 w ->
  api_replies w = rp :: tl ->
  success_with _codes rp j ->
  affected_items j = Ok (JList (good ++ bad :: rest)) ->
  Forall is_record good ->
  ~ is_record bad ->
  exists e w',
    wazuh_agent_status _codes environ name false w = (Raise e, w').
Proof.
  intros Hok Hq Hs Hitems Hgood Hbad.
  destruct (wazuh_agent_status_result _codes environ 0 w name Hok)
    as (w' & Hrun & _).
  rewrite Hq in Hrun. cbn [next_reply] in Hrun.
  destruct (success_with_result _codes rp j Hs) as (Hres & (dsc & Hser) & Hsucc).
  rewrite Hres in Hrun. unfold resolved in Hrun.
  rewrite Hser, Hsucc, Hitems in Hrun. cbn [iter] in Hrun.
  rewrite scan_items_app in Hrun.
  destruct (scan_items_records good (JNull, JNull, JNull) Hgood) as (t & Ht).
  rewrite Ht in Hrun. cbn [scan_items] in Hrun.
  destruct (getitem bad "name") as [n |e] eqn:Hn;
    [| exists e, w'; exact Hrun].
  destruct (getitem bad "status") as [s |e] eqn:Hst;
    [| exists e, w'; exact Hrun].
  destruct (getitem bad "id") as [i |e] eqn:Hi;
    [| exists e, w'; exact Hrun].
  exfalso. apply Hbad. now exists n, s, i.
Qed.

(** X19.  Like the resolver and the group assignment, the insert, the
    key request and the polling loop end with [KeyError] when their request
    gets no response: each formats the status, [None], for its log line
    before it tests it. *)
Theorem callers_raise_on_no_response (fuel : nat) (name : option string)
    (agent_id : json) (w : World) (d : Z) (tl : list reply) :
  logins_ok 1 w ->
  api_replies w = NoResponse d :: tl ->
  (exists w', add_agent _codes environ name None w =
              (Raise (mkExn KeyError "None"), w')) /\
  (exists w', get_agent_key _codes environ agent_id w =
              (Raise (mkExn KeyError "None"), w')) /\
  (exists w', poll_until_active _codes environ (S fuel) w =
              (Raise (mkExn KeyError "None"), w')).
Proof.
  intros Hok Hq. split; [| split].
  - destruct (add_agent_result _codes environ 0 w name Hok) as (w' & Hrun & _).
    exists w'. rewrite Hrun, Hq. reflexivity.
  - destruct (get_agent_key_result _codes environ 0 w agent_id Hok)
      as (w' & Hrun & _).
    exists w'. rewrite Hrun, Hq. reflexivity.
  - destruct (wazuh_agent_status_result _codes environ 0 w
                (node_name environ) Hok)
      as (w' & Hrun & _).
    rewrite Hq in Hrun. cbn in Hrun.
    exists w'. cbn [poll_until_active].
    now rewrite (bind_raise_eq _ _ _ _ _ Hrun).
Qed.

End Edges.

(** ** The group list and the local checks *)

Lemma string_app_assoc (a b c : string) :
  ((a ++ b) ++ c)%string = (a ++ (b ++ c))%string.
Proof. induction a as [| x a IH]; cbn; [reflexivity | now rewrite IH]. Qed.

Lemma string_app_nil_r (a : string) : (a ++ "")%string = a.
Proof. induction a as [| x a IH]; cbn; [reflexivity | now rewrite IH]. Qed.

Lemma split_comma_aux_nonempty s cur : split_comma_aux s cur <> [].
Proof.
  revert cur. induction s as [| c s IH]; intros cur; cbn.
  - discriminate.
  - destruct (Ascii.eqb c ","); [discriminate | apply IH].
Qed.

Lemma join_comma_cons x l :
  l <> [] -> join_comma (x :: l) = (x ++ "," ++ join_comma l)%string.
Proof. destruct l; [contradiction | reflexivity]. Qed.

Lemma join_split_comma_aux s cur :
  join_comma (split_comma_aux s cur) = (cur ++ s)%string.
Proof.
  revert cur. induction s as [| c s IH]; intros cur; cbn [split_comma_aux].
  - cbn. now rewrite string_app_nil_r.
  - destruct (Ascii.eqb c ",") eqn:Hc.
    + apply Ascii.eqb_eq in Hc. subst c.
      rewrite (join_comma_cons cur _ (split_comma_aux_nonempty s "")).
      now rewrite IH.
    + rewrite IH. now rewrite string_app_assoc.
Qed.

(** X20.  The list of groups the script walks through is never empty
    (an empty [WAZUH_GROUPS] gives one group with the empty name), and
    joining its names with commas gives the configured text back: nothing is
    trimmed or dropped. *)
Theorem split_comma_join (groups : string) :
  split_comma groups <> [] /\
  join_comma (split_comma groups) = groups.
Proof.
  split.
  - apply split_comma_aux_nonempty.
  - unfold split_comma. now rewrite join_split_comma_aux.
Qed.

Lemma occurs_empty c : ~ occurs c EmptyString.
Proof.
  intros (pre & post & H). destruct pre; discriminate H.
Qed.

Lemma occurs_cons c b s : occurs c (String b s) <-> c = b \/ occurs c s.
Proof.
  split.
  - intros (pre & post & H). destruct pre as [| x pre]; cbn in H.
    + injection H as -> _. now left.
    + injection H as _ ->. right. now exists pre, post.
  - intros [-> | (pre & post & ->)].
    + now exists EmptyString, s.
    + now exists (String b pre), post.
Qed.

Lemma is_prefix_empty s : is_prefix EmptyString s = true.
Proof. now destruct s. Qed.

Lemma is_substring_char c s :
  is_substring (String c EmptyString) s = true <-> occurs c s.
Proof.
  induction s as [| b s IH].
  - cbn. split; [discriminate | intros H; now apply occurs_empty in H].
  - rewrite occurs_cons. cbn [is_substring is_prefix].
    rewrite ?is_prefix_empty, ?andb_true_r, orb_true_iff, IH.
    now rewrite Ascii.eqb_eq.
Qed.

Lemma any_char_in_spec process_name name :
  any_char_in process_name name = true <->
  exists c, occurs c process_name /\ occurs c name.
Proof.
  induction process_name as [| p process_name IH]; cbn [any_char_in].
  - split; [discriminate |].
    intros (c & H & _). now apply occurs_empty in H.
  - destruct (is_substring (String p EmptyString) name) eqn:Hp.
    + split; [| reflexivity]. intros _.
      exists p. split; [apply occurs_cons; now left |].
      now apply is_substring_char.
    + rewrite IH. split.
      * intros (c & Hc & Hn). exists c. split; [| exact Hn].
        apply occurs_cons. now right.
      * intros (c & Hc & Hn). apply occurs_cons in Hc as [-> | Hc].
        -- apply is_substring_char in Hn. congruence.
        -- now exists c.
Qed.

(** X21.  [check_self] answers [(True, "register_agent ok")] exactly
    when some running process has a name that shares one character with the
    name of the script, and [None] otherwise (it has no failing answer). *)
Theorem check_self_spec (process_name : string) (procs : list string) :
  (check_self process_name procs = Some (true, "register_agent ok") <->
   exists name c,
     In name procs /\ occurs c process_name /\ occurs c name) /\
  (check_self process_name procs = None <->
   ~ exists name c,
       In name procs /\ occurs c process_name /\ occurs c name).
Proof.
  induction procs as [| name procs [IHs IHn]]; cbn [check_self].
  - split.
    + split; [discriminate | intros (n & c & [] & _)].
    + split; [intros _ (n & c & [] & _) | reflexivity].
  - destruct (any_char_in process_name name) eqn:Hany.
    + apply any_char_in_spec in Hany as (c & Hc & Hn).
      split.
      * split; [| reflexivity]. intros _.
        exists name, c. split; [now left | now split].
      * split; [discriminate |].
        intros H. exfalso. apply H.
        exists name, c. split; [now left | now split].
    + assert (Hnot : ~ exists c, occurs c process_name /\ occurs c name).
      { intros H. apply any_char_in_spec in H. congruence. }
      split.
      * rewrite IHs. split.
        -- intros (n & c & Hin & Hc). exists n, c. split; [now right | exact Hc].
        -- intros (n & c & [<- | Hin] & Hc & Hn).
           ++ exfalso. apply Hnot. now exists c.
           ++ now exists n, c.
      * rewrite IHn. split.
        -- intros H (n & c & [<- | Hin] & Hc & Hn).
           ++ apply Hnot. now exists c.
           ++ apply H. now exists n, c.
        -- intros H (n & c & Hin & Hc). apply H.
           exists n, c. split; [now right | exact Hc].
Qed.

Lemma split_on_nonempty sep s : split_on sep s <> [].
Proof.
  destruct s as [| c s]; cbn; [discriminate |].
  destruct (Ascii.eqb c sep); [discriminate |].
  destruct (split_on sep s); discriminate.
Qed.

Lemma no_sep_cons sep a p :
  is_substring (String sep EmptyString) (String a p) = false ->
  Ascii.eqb a sep = false /\
  is_substring (String sep EmptyString) p = false.
Proof.
  cbn [is_substring is_prefix]. rewrite ?is_prefix_empty, ?andb_true_r.
  intros H. apply orb_false_iff in H as [Ha Hp].
  split; [now rewrite Ascii.eqb_sym | exact Hp].
Qed.

(** a text without the separator is a prefix of a string exactly when it
    is a prefix of its first line *)
Lemma is_prefix_first_line sep p :
  forall s,
  is_substring (String sep EmptyString) p = false ->
  is_prefix p s = is_prefix p (hd EmptyString (split_on sep s)).
Proof.
  induction p as [| a p IH]; intros s Hp.
  - now rewrite !is_prefix_empty.
  - apply no_sep_cons in Hp as [Ha Hp].
    destruct s as [| b s]; [reflexivity |].
    cbn [split_on].
    destruct (Ascii.eqb b sep) eqn:Hb.
    + apply Ascii.eqb_eq in Hb. subst b. cbn. now rewrite Ha.
    + pose proof (split_on_nonempty sep s) as Hne.
      specialize (IH s Hp).
      destruct (split_on sep s) as [| l ls]; [contradiction |].
      cbn in IH |- *. now rewrite IH.
Qed.

Lemma is_substring_lines sep a p :
  forall s,
  is_substring (String sep EmptyString) (String a p) = false ->
  is_substring (String a p) s =
  existsb (fun line => is_substring (String a p) line) (split_on sep s).
Proof.
  intros s Hp. induction s as [| b s IH].
  - reflexivity.
  - pose proof (is_prefix_first_line sep (String a p) (String b s) Hp) as Hpre.
    cbn [is_substring]. rewrite Hpre, IH. clear Hpre IH.
    cbn [split_on].
    destruct (Ascii.eqb b sep) eqn:Hb.
    + reflexivity.
    + pose proof (split_on_nonempty sep s) as Hne.
      destruct (split_on sep s) as [| l ls]; [contradiction |].
      cbn [hd existsb is_substring].
      now rewrite orb_assoc.
Qed.

(** X22.  The restart counts as done exactly when the output of the
    control binary contains [Completed.] somewhere: the split into lines
    changes nothing, since the marker has no newline in it. *)
Theorem restarted_iff_marker (command_stdout : string) :
  restarted command_stdout = is_substring "Completed." command_stdout.
Proof.
  unfold restarted. symmetry.
  apply (is_substring_lines "010"%char). reflexivity.
Qed.

(** ** The further properties at sample inputs *)

Lemma sample_success (j : json) :
  getitem j "error" = Ok (JInt 0) ->
  success_with Sample._codes (Sample.answer 200 j) j.
Proof.
  intros He. split.
  - cbn. now rewrite He.
  - do 2 eexists. split; reflexivity.
Qed.

Lemma sample_logins k api : logins_ok k (Sample.fresh k api).
Proof.
  split.
  - unfold Sample.fresh, Sample.start; cbn [login_replies].
    induction k as [| k IH]; [reflexivity | exact IH].
  - unfold Sample.fresh, Sample.start; cbn [login_replies].
    now rewrite repeat_length.
Qed.

Lemma get_agent_key_first_wins_witness :
  exists w',
    get_agent_key Sample._codes Sample.environ (JStr "001")
      (Sample.fresh 1 [Sample.keys ["K1"; "K2"]]) = (Ret (JStr "K1"), w').
Proof.
  destruct (get_agent_key_first_wins Sample._codes Sample.environ (JStr "001")
              (Sample.fresh 1 [Sample.keys ["K1"; "K2"]])
              (Sample.keys ["K1"; "K2"]) []
              (Sample.items_body (map Sample.key_item ["K1"; "K2"]))
              (Sample.key_item "K1") [Sample.key_item "K2"] (JStr "K1")
              (sample_logins 1 _) eq_refl (sample_success
             (Sample.items_body (map Sample.key_item ["K1"; "K2"]))
             eq_refl)
              eq_refl eq_refl)
    as (w' & Hrun & _).
  now exists w'.
Defined.

Lemma obtain_key_existing_agent_witness :
  exists w',
    obtain_key Sample._codes Sample.environ
      (Sample.fresh 2 [Sample.reports "active"; Sample.keys ["K1"]]) =
    (Ret (JStr "001", JStr "K1"), w') /\
    actions (trace w') =
      [Req GET (AgentsByName (Some "n1")); Req GET (AgentKey (JStr "001"))].
Proof.
  destruct (obtain_key_existing_agent Sample._codes Sample.environ
              (Sample.fresh 2 [Sample.reports "active"; Sample.keys ["K1"]])
              (Sample.reports "active") (Sample.keys ["K1"]) []
              (JStr "n1") (JStr "active") (JStr "001")
              (Sample.items_body (map Sample.key_item ["K1"]))
              (Sample.key_item "K1") [] (JStr "K1")
              (sample_logins 2 _) eq_refl eq_refl eq_refl
              (sample_success
             (Sample.items_body (map Sample.key_item ["K1"]))
             eq_refl) eq_refl eq_refl eq_refl)
    as (w' & Hrun & Ha & _).
  exists w'. split; [exact Hrun | exact Ha].
Defined.

Lemma main_existing_agent_without_key_witness :
  exists w',
    main Sample._codes Sample.environ 3
      (Sample.fresh 2 [Sample.reports "active"; Sample.keys []]) =
    (Raise (mkExn ValueError "Failed to retrieve agent key."), w') /\
    actions (trace w') =
      [Config; Req GET (AgentsByName (Some "n1"));
       Req GET (AgentKey (JStr "001"))].
Proof.
  apply (main_existing_agent_without_key Sample._codes Sample.environ 3
           (Sample.fresh 2 [Sample.reports "active"; Sample.keys []])
           (Sample.reports "active") (Sample.keys []) []
           (JStr "n1") (JStr "active") (JStr "001")
           (sample_logins 2 _) eq_refl eq_refl eq_refl).
  right. exists (Sample.items_body []).
  split; [exact (sample_success
             (Sample.items_body [])
             eq_refl) | reflexivity].
Defined.

Lemma main_enrolls_new_agent_witness :
  exists w',
    main Sample._codes Sample.environ 3
      (Sample.fresh 5 [Sample.absent;
                       Sample.insert_ok (JStr "001") (JStr "KEY");
                       Sample.reports "pending"; Sample.reports "pending";
                       Sample.reports "active"]) = (Ret tt, w') /\
    actions (trace w') =
      [Config; Req GET (AgentsByName (Some "n1")); Req POST AgentsInsert;
       ImportKey "KEY"; Restart;
       Req GET (AgentsByName (Some "n1")); Sleep 10;
       Req GET (AgentsByName (Some "n1")); Sleep 10;
       Req GET (AgentsByName (Some "n1"));
       Serve].
Proof.
  destruct (main_enrolls_new_agent Sample._codes Sample.environ 3
              (Sample.fresh 5 [Sample.absent;
                               Sample.insert_ok (JStr "001") (JStr "KEY");
                               Sample.reports "pending";
                               Sample.reports "pending";
                               Sample.reports "active"])
              Sample.absent (Sample.insert_ok (JStr "001") (JStr "KEY"))
              [Sample.reports "pending"; Sample.reports "pending"]
              (Sample.reports "active") []
              JNull JNull
              (JObj [("data", JObj [("id", JStr "001"); ("key", JStr "KEY")]);
                     ("error", JInt 0)])
              (JObj [("id", JStr "001"); ("key", JStr "KEY")])
              (JStr "001") "KEY" 10
              eq_refl eq_refl)
    as (w' & Hrun & Ha & _); try reflexivity.
  - unfold long_sleep; lia.
  - exact (sample_success
             (JObj [("data", JObj [("id", JStr "001"); ("key", JStr "KEY")]); ("error", JInt 0)])
             eq_refl).
  - repeat constructor; exists (JStr "pending"); split; reflexivity.
  - exact (sample_logins 5 _).
  - cbn; lia.
  - exists w'. split; [exact Hrun | exact Ha].
Defined.

Lemma main_existing_agent_in_groups_witness :
  exists w',
    main Sample._codes Sample.environ_groups 2
      (Sample.fresh 6 [Sample.reports "active"; Sample.keys ["KEY"];
                       Sample.reports "pending"; Sample.reports "active";
                       Sample.member_of ["web"; "db"];
                       Sample.member_of ["web"; "db"]]) = (Ret tt, w') /\
    actions (trace w') =
      [Config; Req GET (AgentsByName (Some "n1"));
       Req GET (AgentKey (JStr "001")); ImportKey "KEY"; Restart;
       Req GET (AgentsByName (Some "n1")); Sleep 10;
       Req GET (AgentsByName (Some "n1"));
       Req GET (AgentsList (JStr "001")); Req GET (AgentsList (JStr "001"));
       Serve].
Proof.
  destruct (main_existing_agent_in_groups Sample._codes Sample.environ_groups 2
              (Sample.fresh 6 [Sample.reports "active"; Sample.keys ["KEY"];
                               Sample.reports "pending";
                               Sample.reports "active";
                               Sample.member_of ["web"; "db"];
                               Sample.member_of ["web"; "db"]])
              (Sample.reports "active") (Sample.keys ["KEY"])
              [Sample.reports "pending"] (Sample.reports "active")
              [Sample.member_of ["web"; "db"]; Sample.member_of ["web"; "db"]]
              []
              (JStr "n1") (JStr "active") (JStr "001")
              (Sample.items_body (map Sample.key_item ["KEY"]))
              (Sample.key_item "KEY") [] "KEY" "web,db" 10
              (JStr "n1") (JStr "001")
              eq_refl eq_refl eq_refl)
    as (w' & Hrun & Ha & _); try reflexivity.
  - unfold long_sleep; lia.
  - exact (sample_success
             (Sample.items_body (map Sample.key_item ["KEY"]))
             eq_refl).
  - repeat constructor; exists (JStr "pending"); split; reflexivity.
  - repeat constructor.
  - exact (sample_logins 6 _).
  - cbn; lia.
  - exists w'. split; [exact Hrun | exact Ha].
Defined.

Lemma main_key_not_a_string_witness :
  exists e w',
    main Sample._codes Sample.environ 3
      (Sample.fresh 2 [Sample.absent; Sample.insert_ok (JStr "001") (JInt 7)])
    = (Raise e, w') /\
    exn_kind e = AttributeError /\
    actions (trace w') =
      [Config; Req GET (AgentsByName (Some "n1")); Req POST AgentsInsert].
Proof.
  apply (main_key_not_a_string Sample._codes Sample.environ 3
           (Sample.fresh 2 [Sample.absent;
                            Sample.insert_ok (JStr "001") (JInt 7)])
           Sample.absent (Sample.insert_ok (JStr "001") (JInt 7)) []
           JNull JNull
           (JObj [("data", JObj [("id", JStr "001"); ("key", JInt 7)]);
                  ("error", JInt 0)])
           (JObj [("id", JStr "001"); ("key", JInt 7)])
           (JStr "001") (JInt 7)
           (sample_logins 2 _) eq_refl eq_refl (sample_success
             (JObj [("data", JObj [("id", JStr "001"); ("key", JInt 7)]); ("error", JInt 0)])
             eq_refl)
           eq_refl eq_refl eq_refl eq_refl).
  intros k H. discriminate H.
Defined.


Lemma add_agent_to_group_no_item_witness :
  exists w',
    add_agent_to_group Sample._codes Sample.environ 1 (JStr "009") "web"
      (Sample.fresh 1 [Sample.absent]) =
    (Raise (mkExn IndexError "list index out of range"), w') /\
    actions (trace w') = [Req GET (AgentsList (JStr "009"))].
Proof.
  apply (add_agent_to_group_no_item Sample._codes Sample.environ 0
           (JStr "009") "web" (Sample.fresh 1 [Sample.absent])
           Sample.absent [] (Sample.items_body [])
           (sample_logins 1 _) eq_refl (sample_success
             (Sample.items_body [])
             eq_refl) eq_refl).
Defined.

Lemma add_agent_to_group_item_without_group_witness :
  assignments (actions (trace (snd
    (add_agent_to_group Sample._codes Sample.environ 1 (JStr "001") "web"
       (Sample.fresh 2 [Sample.bare_agent; Sample.assign_ok]))))) = 1%nat.
Proof.
  apply (add_agent_to_group_item_without_group Sample._codes Sample.environ
           (JStr "001") "web"
           (Sample.fresh 2 [Sample.bare_agent; Sample.assign_ok])
           Sample.bare_agent [Sample.assign_ok]
           (Sample.items_body
              [JObj [("name", JStr "n1"); ("status", JStr "active");
                     ("id", JStr "001")]])
           (JList [JObj [("name", JStr "n1"); ("status", JStr "active");
                         ("id", JStr "001")]])
           [("name", JStr "n1"); ("status", JStr "active"); ("id", JStr "001")]
           (sample_logins 2 _) eq_refl (sample_success
             (Sample.items_body [JObj [("name", JStr "n1"); ("status", JStr "active"); ("id", JStr "001")]])
             eq_refl)
           eq_refl eq_refl eq_refl).
Defined.

Lemma add_agent_to_group_return_value_witness :
  (exists w',
     add_agent_to_group Sample._codes Sample.environ 2 (JStr "001") "web"
       (Sample.fresh 2 [Sample.member_of ["default"]; Sample.assign_ok]) =
     (Ret (JObj [("error", JInt 0)]), w')) /\
  (exists w',
     add_agent_to_group Sample._codes Sample.environ 2 (JStr "001") "web"
       (Sample.fresh 4 [Sample.member_of ["default"]; Sample.assign_busy;
                        Sample.member_of ["default"]; Sample.assign_ok]) =
     (Ret JNull, w')).
Proof.
  split.
  - exact (proj1 (add_agent_to_group_return_value Sample._codes
             Sample.environ 1 (Sample.member_of ["default"]) Sample.assign_ok
             (JObj [("error", JInt 0)]) []
             (Sample.fresh 2 [Sample.member_of ["default"]; Sample.assign_ok])
             (JStr "001") "web" eq_refl
             (sample_success (JObj [("error", JInt 0)]) eq_refl))
           eq_refl (sample_logins 2 _)).
  - apply (proj2 (add_agent_to_group_return_value Sample._codes
             Sample.environ 0 (Sample.member_of ["default"]) Sample.assign_ok
             (JObj [("error", JInt 0)]) []
             (Sample.fresh 4 [Sample.member_of ["default"]; Sample.assign_busy;
                              Sample.member_of ["default"]; Sample.assign_ok])
             (JStr "001") "web" eq_refl
             (sample_success (JObj [("error", JInt 0)]) eq_refl))
           (Sample.member_of ["default"]) Sample.assign_busy 30 eq_refl).
    + unfold long_sleep; lia.
    + reflexivity.
    + reflexivity.
    + reflexivity.
    + exact (sample_logins 4 _).
Defined.

Lemma add_agent_to_group_stops_when_member_witness :
  exists w',
    add_agent_to_group Sample._codes Sample.environ 2 (JStr "001") "web"
      (Sample.fresh 3 [Sample.member_of ["default"]; Sample.assign_busy;
                       Sample.member_of ["default"; "web"]]) =
    (Ret JNull, w') /\
    actions (trace w') =
      [Req GET (AgentsList (JStr "001"));
       Req PUT (AgentGroup (JStr "001") "web"); Sleep 30;
       Req GET (AgentsList (JStr "001"))].
Proof.
  destruct (add_agent_to_group_stops_when_member Sample._codes Sample.environ
              0 (JStr "001") "web"
              (Sample.fresh 3 [Sample.member_of ["default"]; Sample.assign_busy;
                               Sample.member_of ["default"; "web"]])
              (Sample.member_of ["default"]) Sample.assign_busy
              (Sample.member_of ["default"; "web"]) [] 30
              eq_refl)
    as (w' & Hrun & Ha & _); try reflexivity.
  - unfold long_sleep; lia.
  - exact (sample_logins 3 _).
  - exists w'. split; [exact Hrun | exact Ha].
Defined.

Lemma add_agent_to_group_assignment_not_retried_witness :
  exists e w',
    add_agent_to_group Sample._codes Sample.environ 5 (JStr "001") "web"
      (Sample.fresh 2 [Sample.member_of ["default"]; NoResponse 5;
                       Sample.member_of ["default"]; Sample.assign_ok]) =
    (Raise e, w') /\
    exn_kind e = KeyError /\
    actions (trace w') =
      [Req GET (AgentsList (JStr "001"));
       Req PUT (AgentGroup (JStr "001") "web")].
Proof.
  apply (add_agent_to_group_assignment_not_retried Sample._codes
           Sample.environ 4 (JStr "001") "web"
           (Sample.fresh 2 [Sample.member_of ["default"]; NoResponse 5;
                            Sample.member_of ["default"]; Sample.assign_ok])
           (Sample.member_of ["default"]) (NoResponse 5)
           [Sample.member_of ["default"]; Sample.assign_ok]
           eq_refl (or_introl (ex_intro _ 5 eq_refl)) eq_refl
           (sample_logins 2 _)).
Defined.

Lemma wazuh_agent_status_malformed_item_witness :
  exists e w',
    wazuh_agent_status Sample._codes Sample.environ (Some "n1") false
      (Sample.fresh 1
         [Sample.answer 200 (Sample.items_body
            [Sample.agent "n1" "pending" "001" [];
             JObj [("name", JStr "n1")];
             Sample.agent "n1" "active" "002" []])]) = (Raise e, w').
Proof.
  apply (wazuh_agent_status_malformed_item Sample._codes Sample.environ
           (Some "n1")
           (Sample.fresh 1
              [Sample.answer 200 (Sample.items_body
                 [Sample.agent "n1" "pending" "001" [];
                  JObj [("name", JStr "n1")];
                  Sample.agent "n1" "active" "002" []])])
           (Sample.answer 200 (Sample.items_body
                 [Sample.agent "n1" "pending" "001" [];
                  JObj [("name", JStr "n1")];
                  Sample.agent "n1" "active" "002" []]))
           []
           (Sample.items_body
                 [Sample.agent "n1" "pending" "001" [];
                  JObj [("name", JStr "n1")];
                  Sample.agent "n1" "active" "002" []])
           [Sample.agent "n1" "pending" "001" []]
           (JObj [("name", JStr "n1")])
           [Sample.agent "n1" "active" "002" []]
           (sample_logins 1 _) eq_refl (sample_success
             (Sample.items_body [Sample.agent "n1" "pending" "001" []; JObj [("name", JStr "n1")]; Sample.agent "n1" "active" "002" []])
             eq_refl) eq_refl).
  - repeat constructor.
    exists (JStr "n1"), (JStr "pending"), (JStr "001"). repeat split.
  - intros (n & s & i & _ & H & _). discriminate H.
Defined.

Lemma callers_raise_on_no_response_witness :
  exists w',
    get_agent_key Sample._codes Sample.environ (JStr "001")
      (Sample.fresh 1 [NoResponse 5]) = (Raise (mkExn KeyError "None"), w').
Proof.
  exact (proj1 (proj2 (callers_raise_on_no_response Sample._codes
           Sample.environ 0 (Some "n1") (JStr "001")
           (Sample.fresh 1 [NoResponse 5]) 5 []
           (sample_logins 1 _) eq_refl))).
Defined.

Lemma wazuh_agent_status_last_wins_witness :
  exists w',
    wazuh_agent_status Sample._codes Sample.environ (Some "n1") false
      (Sample.fresh 1
         [Sample.answer 200 (Sample.items_body
            [Sample.agent "n1" "pending" "001" [];
             Sample.agent "n1" "active" "002" []])]) =
    (Ret (JStr "n1", JStr "active", JStr "002"), w').
Proof.
  apply (wazuh_agent_status_last_wins Sample._codes Sample.environ
           (Some "n1")
           (Sample.fresh 1
              [Sample.answer 200 (Sample.items_body
                 [Sample.agent "n1" "pending" "001" [];
                  Sample.agent "n1" "active" "002" []])])
           1 (mkResponse 200 "" (Some (Sample.items_body
                 [Sample.agent "n1" "pending" "001" [];
                  Sample.agent "n1" "active" "002" []])))
           []
           (Sample.items_body
                 [Sample.agent "n1" "pending" "001" [];
                  Sample.agent "n1" "active" "002" []])
           (JInt 0)
           [Sample.agent "n1" "pending" "001" []]
           (Sample.agent "n1" "active" "002" [])
           (JStr "n1") (JStr "active") (JStr "002")
           "ok" ["okay"; "all_ok"]
           eq_refl (sample_logins 1 _) eq_refl eq_refl eq_refl eq_refl eq_refl
           eq_refl);
    try reflexivity.
  repeat constructor.
  exists (JStr "n1"), (JStr "pending"), (JStr "001"). repeat split.
Defined.
